(** * ctrld: upstream DoH resolver, Windows nameserver discovery and the
    NetworkManager DNS configurator, as a shallow embedding.

    Sources embedded here:
    - [internal/dns/nm.go]          : [SetDNS], [trySet]
    - the Windows discovery file    : [nameservers], [adapterAddresses]
    - the DoH resolver file         : [newDohResolver], [Resolve]

    Go errors are modelled by their message text, byte slices by
    [list byte], Go strings by [string], fixed-width integers by [Z] with
    the wrap-around written out, Go maps by stdpp's [gmap]. *)

From Equations Require Import Equations.
From Stdlib Require Import ZArith Strings.Byte Ascii String List Lia.
From stdpp Require Import gmap strings list fin_maps pretty.
Import ListNotations.
Open Scope Z_scope.

(** ** Shared vocabulary *)

(** A Go [(T, error)] pair of which exactly one side is meaningful. *)
Inductive Result (A : Type) : Type :=
| Ok (a : A)
| Err (e : string).
Arguments Ok {A} a.
Arguments Err {A} e.

(** [fmt.Errorf("<op>: %w", err)] *)
Definition wrap (op e : string) : string := op +:+ ": " +:+ e.

Definition byteZ (b : byte) : Z := Z.of_N (Byte.to_N b).

(** [string(buf)] : the bytes of a slice read as a Go string. *)
Definition string_of_bytes (buf : list byte) : string :=
  string_of_list_ascii (map ascii_of_byte buf).

(** Go's [copy(dst, src)] into a freshly made slice of [n] zero bytes. *)
Definition copy_into_zeroed (n : nat) (src : list byte) : list byte :=
  take n (src ++ replicate n x00).

Lemma byteZ_range b : 0 <= byteZ b < 256.
Proof.
  unfold byteZ. pose proof (Byte.to_N_bounded b) as H. lia.
Qed.

Lemma byteZ_inj a b : byteZ a = byteZ b -> a = b.
Proof.
  unfold byteZ. intros H. apply N2Z.inj in H.
  pose proof (Byte.of_to_N a) as Ha. pose proof (Byte.of_to_N b) as Hb.
  rewrite H in Ha. congruence.
Qed.

#[global] Instance byte_eq_decision : EqDecision byte.
Proof.
  intros a b. destruct (decide (byteZ a = byteZ b)) as [E | N].
  - left. by apply byteZ_inj.
  - right. congruence.
Defined.

(** ** Textual form of IP addresses ([net.IP.String], [netip.Addr.String])

    The Go standard library is not part of the repository; its address
    printer is reproduced so that discovery results are concrete strings. *)
Module IPText.

Definition hexdigit (n : Z) : string :=
  String.substring (Z.to_nat n) 1 "0123456789abcdef".

(** [appendHex]: lower-case hexadecimal without leading zeros. *)
Definition hex16 (v : Z) : string :=
  let d3 := Z.land (Z.shiftr v 12) 15 in
  let d2 := Z.land (Z.shiftr v 8) 15 in
  let d1 := Z.land (Z.shiftr v 4) 15 in
  let d0 := Z.land v 15 in
  if 0 <? d3 then hexdigit d3 +:+ hexdigit d2 +:+ hexdigit d1 +:+ hexdigit d0
  else if 0 <? d2 then hexdigit d2 +:+ hexdigit d1 +:+ hexdigit d0
  else if 0 <? d1 then hexdigit d1 +:+ hexdigit d0
  else hexdigit d0.

(** The eight 16-bit groups of a 16-byte address, big-endian. *)
Fixpoint groups (p : list byte) : list Z :=
  match p with
  | hi :: lo :: rest => Z.lor (Z.shiftl (byteZ hi) 8) (byteZ lo) :: groups rest
  | _ => []
  end.

(** Length of the run of zero groups at the head of [gs]. *)
Fixpoint zero_run (gs : list Z) : nat :=
  match gs with
  | g :: rest => if g =? 0 then S (zero_run rest) else 0%nat
  | [] => 0%nat
  end.

(** First longest run of at least two zero groups, as [(start, end)]. *)
Fixpoint longest_zero_run (i : nat) (gs : list Z) (best : option (nat * nat))
  : option (nat * nat) :=
  match gs with
  | [] => best
  | _ :: rest =>
      let l := zero_run gs in
      let len_best := match best with Some (s, e) => (e - s)%nat | None => 0%nat end in
      let best' := if ((2 <=? l) && (len_best <? l))%nat
                   then Some (i, (i + l)%nat) else best in
      longest_zero_run (S i) rest best'
  end.

Fixpoint join_colon (gs : list Z) : string :=
  match gs with
  | [] => ""
  | [g] => hex16 g
  | g :: rest => hex16 g +:+ ":" +:+ join_colon rest
  end.

Definition string6 (p : list byte) : string :=
  let gs := groups p in
  match longest_zero_run 0 gs None with
  | Some (s, e) => join_colon (take s gs) +:+ "::" +:+ join_colon (drop e gs)
  | None => join_colon gs
  end.

Definition string4 (a b c d : byte) : string :=
  pretty (byteZ a) +:+ "." +:+ pretty (byteZ b) +:+ "." +:+
  pretty (byteZ c) +:+ "." +:+ pretty (byteZ d).

Definition v4InV6Prefix : list byte :=
  [x00; x00; x00; x00; x00; x00; x00; x00; x00; x00; xff; xff].

(** [net.IPv4(a, b, c, d)]: the 16-byte form of an IPv4 address. *)
Definition IPv4 (a b c d : byte) : list byte := v4InV6Prefix ++ [a; b; c; d].

(** [IP.To4]: the four address bytes when [ip] denotes an IPv4 address. *)
Definition To4 (ip : list byte) : option (byte * byte * byte * byte) :=
  match ip with
  | [a; b; c; d] => Some (a, b, c, d)
  | _ =>
      if bool_decide (length ip = 16%nat /\ take 12 ip = v4InV6Prefix) then
        match drop 12 ip with
        | [a; b; c; d] => Some (a, b, c, d)
        | _ => None
        end
      else None
  end.

Definition hexString (ip : list byte) : string :=
  String.concat "" (map (fun b => hexdigit (Z.shiftr (byteZ b) 4) +:+
                                   hexdigit (Z.land (byteZ b) 15)) ip).

(** [net.IP.String] *)
Definition IP_String (ip : list byte) : string :=
  match ip with
  | [] => "<nil>"
  | _ =>
      match To4 ip with
      | Some (a, b, c, d) => string4 a b c d
      | None =>
          if bool_decide (length ip = 16%nat) then string6 ip
          else "?" +:+ hexString ip
      end
  end.

Definition contains_colon (s : string) : bool :=
  existsb (fun c => bool_decide (c = ":"%char)) (list_ascii_of_string s).

(** [net.JoinHostPort] *)
Definition JoinHostPort (host port : string) : string :=
  if contains_colon host then "[" +:+ host +:+ "]:" +:+ port
  else host +:+ ":" +:+ port.

End IPText.

(** ** [netip.Addr] and [OSConfig] *)

(** [netip.Addr]: the zero value, an IPv4 address, or an IPv6 address
    (sixteen bytes, with an optional zone; IPv4-mapped addresses are IPv6
    addresses). *)
Inductive Addr : Type :=
| AddrZero
| Addr4 (a b c d : byte)
| Addr6 (bytes : list byte) (zone : string).

(** [Addr.Is4] *)
Definition Is4 (ip : Addr) : bool :=
  match ip with Addr4 _ _ _ _ => true | _ => false end.

(** [Addr.Is6] *)
Definition Is6 (ip : Addr) : bool :=
  match ip with Addr6 _ _ => true | _ => false end.

(** [Addr.As16]: the zone is dropped, IPv4 becomes IPv4-mapped, the zero
    value becomes sixteen zero bytes. *)
Definition As16 (ip : Addr) : list byte :=
  match ip with
  | AddrZero => replicate 16 x00
  | Addr4 a b c d => IPText.IPv4 a b c d
  | Addr6 bytes _ => copy_into_zeroed 16 bytes
  end.

(** [netip.AddrFromSlice] followed by [Addr.Unmap]. *)
Definition AddrFromSlice_Unmap (ip : list byte) : Addr * bool :=
  match ip with
  | [a; b; c; d] => (Addr4 a b c d, true)
  | _ =>
      if bool_decide (length ip = 16%nat) then
        match IPText.To4 ip with
        | Some (a, b, c, d) => (Addr4 a b c d, true)
        | None => (Addr6 ip "", true)
        end
      else (AddrZero, false)
  end.

(** [Addr.String] *)
Definition Addr_String (ip : Addr) : string :=
  match ip with
  | AddrZero => "invalid IP"
  | Addr4 a b c d => IPText.string4 a b c d
  | Addr6 bytes zone =>
      let p := copy_into_zeroed 16 bytes in
      let body := match IPText.To4 p with
                  | Some (a, b, c, d) => "::ffff:" +:+ IPText.string4 a b c d
                  | None => IPText.string6 p
                  end in
      if bool_decide (zone = "") then body else body +:+ "%" +:+ zone
  end.

(** The byte order of the machine, [endian.Native]. *)
Inductive ByteOrder : Type := LittleEndian | BigEndian.

(** [ByteOrder.Uint32] on a slice; a missing byte would be an
    out-of-range panic in Go and never occurs on [b[12:]] of an array of
    sixteen bytes. *)
Definition Uint32 (o : ByteOrder) (b : list byte) : Z :=
  let at_ i := byteZ (nth i b x00) in
  match o with
  | LittleEndian =>
      Z.lor (Z.lor (Z.lor (at_ 0%nat) (Z.shiftl (at_ 1%nat) 8))
                   (Z.shiftl (at_ 2%nat) 16)) (Z.shiftl (at_ 3%nat) 24)
  | BigEndian =>
      Z.lor (Z.lor (Z.lor (at_ 3%nat) (Z.shiftl (at_ 2%nat) 8))
                   (Z.shiftl (at_ 1%nat) 16)) (Z.shiftl (at_ 0%nat) 24)
  end.

(** [dnsname.FQDN] is a string type. *)
Definition FQDN : Type := string.

(** Modelled from the spec: the [OSConfig] struct is declared outside the
    files at hand; [trySet] ranges over its three fields as slices. *)
Record OSConfig : Type := mkOSConfig {
  Nameservers : list Addr;
  SearchDomains : list FQDN;
  MatchDomains : list FQDN
}.

(** ** [internal/dns/nm.go] *)

Definition highestPriority : Z := - 2 ^ 31.
Definition mediumPriority : Z := 1.
Definition lowerPriority : Z := 200.

(** The values [trySet] stores with [dbus.MakeVariant]; [VOpaque] stands
    for whatever else NetworkManager returned. *)
Inductive Variant : Type :=
| VUint32s (l : list Z)
| VByteArrays (l : list (list byte))
| VStrings (l : list string)
| VInt32 (n : Z)
| VString (s : string)
| VBool (b : bool)
| VAddressData (l : list (string * Z))
| VOpaque (signature : string) (payload : list byte).

(** [nmConnectionSettings]: section name to property name to value. *)
Abbreviation nmConnectionSettings := (gmap string (gmap string Variant)).

Definition ObjectPath : Type := string.

(** An entry of [net.Interface.Addrs]: an [*net.IPNet] or something else. *)
Inductive NetAddr : Type :=
| IPNet (ip : list byte) (mask : list byte)
| OtherAddr.

(** What the system answers during one [trySet]: the D-Bus calls and the
    lookup of the interface addresses. *)
Record System : Type := mkSystem {
  SystemBus : Result unit;
  GetDeviceByIpIface : string -> Result ObjectPath;
  GetAppliedConnection : ObjectPath -> Result (nmConnectionSettings * Z);
  InterfaceAddrs : string -> Result (list NetAddr);
  Reapply : ObjectPath -> nmConnectionSettings -> Z -> option string
}.

(** A recorded [Device.Reapply] call. *)
Record ReapplyCall : Type := mkReapply {
  rc_device : ObjectPath;
  rc_settings : nmConnectionSettings;
  rc_version : Z
}.

(** How a Go call ends: it returns an [error] (nil or not), or panics. *)
Inductive Outcome : Type :=
| Returned (err : option string)
| Panicked (msg : string).

Section NetworkManager.

(** [endian.Native] and [FQDN.WithTrailingDot] live in packages outside
    the files at hand. *)
Variable Native : ByteOrder.
Variable WithTrailingDot : FQDN -> string.

(** The loop over [config.Nameservers]. *)
Fixpoint translate_nameservers (ns : list Addr) (dnsv4 : list Z)
         (dnsv6 : list (list byte)) : list Z * list (list byte) :=
  match ns with
  | [] => (dnsv4, dnsv6)
  | ip :: rest =>
      let b := As16 ip in
      if Is4 ip
      then translate_nameservers rest (dnsv4 ++ [Uint32 Native (drop 12 b)]) dnsv6
      else translate_nameservers rest dnsv4 (dnsv6 ++ [b])
  end.

Definition dnsv4_of (config : OSConfig) : list Z :=
  fst (translate_nameservers (Nameservers config) [] []).
Definition dnsv6_of (config : OSConfig) : list (list byte) :=
  snd (translate_nameservers (Nameservers config) [] []).

(** The loop over the interface addresses that stages the IPv6 ones. *)
Fixpoint stage_addrs6 (addrs : list NetAddr) (addrs6 : list (string * Z))
  : list (string * Z) :=
  match addrs with
  | [] => addrs6
  | IPNet ip _ :: rest =>
      let '(nip, ok) := AddrFromSlice_Unmap ip in
      if ok && Is6 nip
      then stage_addrs6 rest (addrs6 ++ [(Addr_String nip, 128)])
      else stage_addrs6 rest addrs6
  | OtherAddr :: rest => stage_addrs6 rest addrs6
  end.

(** [seen[dom]] on a [map[dnsname.FQDN]bool]: absent keys read [false]. *)
Definition seen_at (seen : gmap FQDN bool) (dom : FQDN) : bool :=
  default false (seen !! dom).

(** One of the two loops that fill [search]; [render] is what is appended
    for a domain not seen before. *)
Fixpoint search_loop (render : FQDN -> string) (doms : list FQDN)
         (seen : gmap FQDN bool) (search : list string)
  : gmap FQDN bool * list string :=
  match doms with
  | [] => (seen, search)
  | dom :: rest =>
      if seen_at seen dom then search_loop render rest seen search
      else search_loop render rest (<[dom := true]> seen) (search ++ [render dom])
  end.

Definition render_search (dom : FQDN) : string := WithTrailingDot dom.
Definition render_match (dom : FQDN) : string := "~" +:+ WithTrailingDot dom.

(** The combined search-domain list of [trySet]. *)
Definition search_of (config : OSConfig) : list string :=
  let '(seen, search) := search_loop render_search (SearchDomains config) ∅ [] in
  let '(_, search) := search_loop render_match (MatchDomains config) seen search in
  if bool_decide (length (MatchDomains config) = 0%nat)
  then search ++ ["~."%string]
  else search.

(** The [dns-priority] chosen for one address family. *)
Definition priority_of {A} (dns : list A) (config : OSConfig) : Z :=
  if bool_decide (length dns = 0%nat) then lowerPriority
  else if bool_decide (0 < length (MatchDomains config))%nat then mediumPriority
  else highestPriority.

Definition deprecatedProperties : list string := ["addresses"; "routes"]%string.

Definition delete_all (props : list string) (m : gmap string Variant)
  : gmap string Variant :=
  fold_left (fun acc property => delete property acc) props m.

Definition write_ipv4 (config : OSConfig) (ipv4Map : gmap string Variant)
  : gmap string Variant :=
  let dnsv4 := dnsv4_of config in
  let m := <["dns"%string := VUint32s dnsv4]> ipv4Map in
  let m := <["dns-search"%string := VStrings (search_of config)]> m in
  let m := <["dns-priority"%string := VInt32 (priority_of dnsv4 config)]> m in
  delete_all deprecatedProperties m.

Definition write_ipv6 (config : OSConfig) (addrs6 : list (string * Z))
           (ipv6Map : gmap string Variant) : gmap string Variant :=
  let dnsv6 := dnsv6_of config in
  let m := <["method"%string := VString "auto"]> ipv6Map in
  let m := if bool_decide (0 < length addrs6)%nat
           then <["address-data"%string := VAddressData addrs6]> m else m in
  let m := <["ignore-auto-routes"%string := VBool true]> m in
  let m := <["ignore-auto-dns"%string := VBool true]> m in
  let m := <["never-default"%string := VBool true]> m in
  let m := <["dns"%string := VByteArrays dnsv6]> m in
  let m := <["dns-search"%string := VStrings (search_of config)]> m in
  let m := <["dns-priority"%string := VInt32 (priority_of dnsv6 config)]> m in
  delete_all deprecatedProperties m.

(** The settings object [trySet] hands to [Reapply]. The two section maps
    are Go maps aliased from [settings], so every write lands in
    [settings]; a missing section is a nil map, and writing to it panics. *)
Definition mutate_settings (config : OSConfig) (addrs6 : list (string * Z))
           (settings : nmConnectionSettings) : option nmConnectionSettings :=
  match settings !! "ipv4"%string with
  | None => None
  | Some ipv4Map =>
      let settings := <["ipv4"%string := write_ipv4 config ipv4Map]> settings in
      match settings !! "ipv6"%string with
      | None => None
      | Some ipv6Map =>
          Some (<["ipv6"%string := write_ipv6 config addrs6 ipv6Map]> settings)
      end
  end.

Definition nil_map_panic : string := "assignment to entry in nil map".

(** [nmManager.trySet]: the outcome and the [Reapply] calls issued. *)
Definition trySet (sys : System) (interfaceName : string) (config : OSConfig)
  : Outcome * list ReapplyCall :=
  match SystemBus sys with
  | Err e => (Returned (Some (wrap "connecting to system bus" e)), [])
  | Ok _ =>
      match GetDeviceByIpIface sys interfaceName with
      | Err e => (Returned (Some (wrap "getDeviceByIpIface" e)), [])
      | Ok devicePath =>
          match GetAppliedConnection sys devicePath with
          | Err e => (Returned (Some (wrap "getAppliedConnection" e)), [])
          | Ok (settings, version) =>
              let addrs6 := match InterfaceAddrs sys interfaceName with
                            | Ok addrs => stage_addrs6 addrs []
                            | Err _ => []
                            end in
              match mutate_settings config addrs6 settings with
              | None => (Panicked nil_map_panic, [])
              | Some settings' =>
                  let call := mkReapply devicePath settings' version in
                  match Reapply sys devicePath settings' version with
                  | Some e => (Returned (Some (wrap "reapply" e)), [call])
                  | None => (Returned None, [call])
                  end
              end
          end
      end
  end.

End NetworkManager.

(** ** The retry loop of [SetDNS]

    Time is counted in nanoseconds since the context of the call was
    created; the context is done once [reconfigTimeout] has passed. *)

(** What surrounds the [i]-th [trySet]: the system it talks to, how long the
    call takes, and by how much [time.Sleep] overshoots afterwards. *)
Record Attempt : Type := mkAttempt {
  at_system : System;
  at_took : N;
  at_overslept : N
}.

(** [10 * time.Millisecond] *)
Definition sleepInterval : Z := 10 * 1000000.

Inductive Event : Type :=
| EvTry (i : nat) (o : Outcome) (calls : list ReapplyCall)
| EvSleep (d : Z).

(** The number of whole sleep intervals that still fit before the deadline. *)
Definition slots_left (reconfigTimeout now : Z) : nat :=
  Z.to_nat ((reconfigTimeout - now + (sleepInterval - 1)) / sleepInterval).

Lemma slots_left_decrease (reconfigTimeout now : Z) (took overslept : N) :
  now < reconfigTimeout ->
  (slots_left reconfigTimeout
     (now + Z.of_N took + sleepInterval + Z.of_N overslept)
   < slots_left reconfigTimeout now)%nat.
Proof.
  unfold slots_left. intros Hlt.
  change sleepInterval with 10000000.
  assert (0 <= Z.of_N took) by lia. assert (0 <= Z.of_N overslept) by lia.
  generalize dependent (Z.of_N took). generalize dependent (Z.of_N overslept).
  intros. Z.div_mod_to_equations. lia.
Qed.

Section SetDNS.

Variable Native : ByteOrder.
Variable WithTrailingDot : FQDN -> string.
(** Modelled from the spec: [reconfigTimeout] is the fixed timeout constant
    owned by the configurator; its declaration is outside the files at
    hand. *)
Variable reconfigTimeout : Z.
Variable interfaceName : string.
Variable config : OSConfig.
Variable world : nat -> Attempt.

Definition attempt (i : nat) : Outcome * list ReapplyCall :=
  trySet Native WithTrailingDot (at_system (world i)) interfaceName config.

(** The state after a failed attempt [i] that started at [now] and the
    sleep that follows it. *)
Definition after_sleep (i : nat) (now : Z) : Z :=
  now + Z.of_N (at_took (world i)) + sleepInterval + Z.of_N (at_overslept (world i)).

(** [for ctx.Err() == nil { err = m.trySet(ctx, config); ... }] with [err]
    the error of the previous attempt. *)
Equations? SetDNS_loop (i : nat) (now : Z) (err : option string)
  : Outcome * list Event
  by wf (slots_left reconfigTimeout now) lt :=
  SetDNS_loop i now err with decide (now < reconfigTimeout) => {
    | right _ => (Returned err, []);
    | left Hlive with attempt i => {
        | (Panicked msg, calls) => (Panicked msg, [EvTry i (Panicked msg) calls]);
        | (Returned None, calls) => (Returned None, [EvTry i (Returned None) calls]);
        | (Returned (Some e), calls) =>
            let '(o, trace) := SetDNS_loop (S i) (after_sleep i now) (Some e) in
            (o, EvTry i (Returned (Some e)) calls :: EvSleep sleepInterval :: trace) } }.
Proof. apply slots_left_decrease. exact Hlive. Qed.

(** [nmManager.SetDNS] *)
Definition SetDNS : Outcome * list Event := SetDNS_loop 0 0 None.

End SetDNS.

(** ** Nameserver discovery on Windows: [nameservers], [adapterAddresses] *)

Set Warnings "-register-all".

(** The [syscall.Sockaddr] implementations a type switch can meet. *)
Inductive Sockaddr : Type :=
| SockaddrInet4 (Port : Z) (Addr : byte * byte * byte * byte)
| SockaddrInet6 (Port : Z) (ZoneId : Z) (Addr : list byte)
| SockaddrUnix (Name : string).

(** [windows.IpAdapterDnsServerAdapter]: a DNS server entry and the link to
    the next one. [Address] is what [dns.Address.Sockaddr.Sockaddr()]
    yields for the entry. *)
Inductive IpAdapterDnsServerAdapter : Type :=
| DnsServer (Address : Result Sockaddr) (Next : option IpAdapterDnsServerAdapter).

(** [windows.IpAdapterAddresses], reduced to the fields that are read. *)
Inductive IpAdapterAddresses : Type :=
| Adapter (FirstDnsServerAddress : option IpAdapterDnsServerAdapter)
          (Next : option IpAdapterAddresses).

Definition FirstDnsServerAddress (aa : IpAdapterAddresses) :=
  match aa with Adapter d _ => d end.

(** One answer of [windows.GetAdaptersAddresses]: the status code (zero is
    success), the value left in the size argument, and the record found at
    the start of the buffer afterwards. *)
Record Response : Type := mkResponse {
  status : Z;
  size_out : Z;
  buffer : IpAdapterAddresses
}.

Definition ERROR_BUFFER_OVERFLOW : Z := 111.

(** [os.NewSyscallError(name, errno)] or the adapters found. *)
Inductive Enumeration : Type :=
| Adapters (aas : list IpAdapterAddresses)
| SyscallError (name : string) (errno : Z).

Definition uint32 (z : Z) : Z := z mod 2 ^ 32.

(** [for aa := first; aa != nil; aa = aa.Next { aas = append(aas, aa) }] *)
Fixpoint collect_adapters (aa : IpAdapterAddresses) (aas : list IpAdapterAddresses)
  : list IpAdapterAddresses :=
  match aa with
  | Adapter _ None => aas ++ [aa]
  | Adapter _ (Some next) => collect_adapters next (aas ++ [aa])
  end.

(** The body of the inner loop of [nameservers] for one DNS server entry:
    [Some] of the text appended to [ns], or [None] on [continue]. *)
Definition nameserver_of (address : Result Sockaddr) : option string :=
  match address with
  | Err _ => None
  | Ok (SockaddrInet4 _ (a, b, c, d)) =>
      Some (IPText.JoinHostPort (IPText.IP_String (IPText.IPv4 a b c d)) "53")
  | Ok (SockaddrInet6 _ _ addr) =>
      let ip := copy_into_zeroed 16 addr in
      if bool_decide (nth 0 ip x00 = xfe) && bool_decide (nth 1 ip x00 = xc0)
      then None
      else Some (IPText.JoinHostPort (IPText.IP_String ip) "53")
  | Ok (SockaddrUnix _) => None
  end.

(** [for dns := aa.FirstDnsServerAddress; dns != nil; dns = dns.Next] *)
Fixpoint dns_loop (dns : IpAdapterDnsServerAdapter) (ns : list string) : list string :=
  match dns with
  | DnsServer address next =>
      let ns := match nameserver_of address with
                | Some s => ns ++ [s]
                | None => ns
                end in
      match next with
      | Some dns' => dns_loop dns' ns
      | None => ns
      end
  end.

(** [for _, aa := range aas] *)
Fixpoint adapters_loop (aas : list IpAdapterAddresses) (ns : list string) : list string :=
  match aas with
  | [] => ns
  | aa :: rest =>
      adapters_loop rest
        match FirstDnsServerAddress aa with
        | Some dns => dns_loop dns ns
        | None => ns
        end
  end.

(** The size argument is a [uint32] that only grows from one round of the
    loop of [adapterAddresses] to the next. *)
Definition grows (l' l : Z) : Prop := l < l' < 2 ^ 32.

Lemma grows_well_founded : well_founded grows.
Proof.
  apply (well_founded_lt_compat _ (fun l => Z.to_nat (2 ^ 32 - l))).
  unfold grows. intros x y H. lia.
Qed.

(** The layers of [Acc_intro_generator] let closed calls of the loop
    compute without unfolding the proof above. *)
#[global] Instance grows_wf : WellFounded grows :=
  Acc_intro_generator 6 grows_well_founded.

Section Discovery.

(** The operating system: what the [k]-th call of
    [windows.GetAdaptersAddresses] answers when handed a buffer of [l]
    bytes. *)
Variable GetAdaptersAddresses : nat -> Z -> Response.

(** The [for] loop of [adapterAddresses], entered for the [k]-th call with
    the size [l]; the result comes with the number of calls made so far. *)
Equations? adapterAddresses_loop (k : nat) (l : Z) : Enumeration * nat
  by wf l grows :=
  adapterAddresses_loop k l with GetAdaptersAddresses k l => {
    | r with decide (status r = 0) => {
        | left _ =>
            if bool_decide (uint32 (size_out r) = 0) then (Adapters [], S k)
            else (Adapters (collect_adapters (buffer r) []), S k);
        | right _ with decide (status r = ERROR_BUFFER_OVERFLOW) => {
            | right _ => (SyscallError "getadaptersaddresses" (status r), S k);
            | left _ with decide (uint32 (size_out r) <= l) => {
                | left _ => (SyscallError "getadaptersaddresses" (status r), S k);
                | right Hgrow => adapterAddresses_loop (S k) (uint32 (size_out r)) } } } }.
Proof.
  unfold grows, uint32 in *.
  pose proof (Z.mod_pos_bound (size_out r) (2 ^ 32)). lia.
Qed.

(** [adapterAddresses], with the number of operating-system calls made. *)
Definition adapterAddresses : Enumeration * nat := adapterAddresses_loop 0 15000.

(** [nameservers] *)
Definition nameservers : list string :=
  match fst adapterAddresses with
  | SyscallError _ _ => []
  | Adapters aas => adapters_loop aas []
  end.

End Discovery.

(** ** The DoH and DoH3 resolver: [newDohResolver], [Resolve] *)

(** [base64.RawURLEncoding.EncodeToString] *)
Module Base64.

Definition encodeURL : string :=
  "ABCDEFGHIJKLMNOPQRSTUVWXYZabcdefghijklmnopqrstuvwxyz0123456789-_".

(** [enc.encode[v & 0x3F]] *)
Definition digit (v : Z) : string :=
  String.substring (Z.to_nat (Z.land v 63)) 1 encodeURL.

Fixpoint EncodeToString (src : list byte) : string :=
  match src with
  | [] => ""
  | [a] =>
      let val := Z.shiftl (byteZ a) 16 in
      digit (Z.shiftr val 18) +:+ digit (Z.shiftr val 12)
  | [a; b] =>
      let val := Z.lor (Z.shiftl (byteZ a) 16) (Z.shiftl (byteZ b) 8) in
      digit (Z.shiftr val 18) +:+ digit (Z.shiftr val 12) +:+ digit (Z.shiftr val 6)
  | a :: b :: c :: rest =>
      let val := Z.lor (Z.lor (Z.shiftl (byteZ a) 16) (Z.shiftl (byteZ b) 8)) (byteZ c) in
      digit (Z.shiftr val 18) +:+ digit (Z.shiftr val 12) +:+
      digit (Z.shiftr val 6) +:+ digit val +:+ EncodeToString rest
  end.

End Base64.

(** Modelled from the spec: the resolver type of an [UpstreamConfig] is an
    enumeration with the values DoH and DoH3 among others; its declaration
    is outside the files at hand. *)
Inductive ResolverType : Type :=
| ResolverTypeDOH
| ResolverTypeDOH3
| ResolverTypeOther (name : string).

#[global] Instance ResolverType_eq_dec : EqDecision ResolverType.
Proof. solve_decision. Defined.

(** Pointers to [http.Transport] and [http3.RoundTripper] objects are
    modelled by the address they hold. *)
Definition Pointer : Type := nat.

(** Modelled from the spec: an [UpstreamConfig] names the endpoint, the
    transport type and the transport handles; its declaration is outside
    the files at hand. *)
Record UpstreamConfig : Type := mkUpstreamConfig {
  Endpoint : string;
  Type_ : ResolverType;
  uc_transport : Pointer;
  uc_http3RoundTripper : Pointer
}.

Record dohResolver : Type := mkDohResolver {
  endpoint : string;
  isDoH3 : bool;
  transport : Pointer;
  http3RoundTripper : Pointer
}.

Definition newDohResolver (uc : UpstreamConfig) : dohResolver :=
  {| endpoint := Endpoint uc;
     isDoH3 := bool_decide (Type_ uc = ResolverTypeDOH3);
     transport := uc_transport uc;
     http3RoundTripper := uc_http3RoundTripper uc |}.

(** [http.Header], and [Header.Set] on a key already in canonical form. *)
Abbreviation Header := (gmap string (list string)).
Definition Header_Set (h : Header) (key value : string) : Header :=
  <[key := [value]]> h.

Record Request : Type := mkRequest {
  Method : string;
  URL : string;
  Headers : Header
}.

(** The [http.RoundTripper] a client is given. *)
Inductive RoundTripper : Type :=
| ViaTransport (p : Pointer)
| ViaHTTP3 (p : Pointer).

(** An [*http.Response]: the status code and what [io.ReadAll(resp.Body)]
    yields. *)
Record HTTPResponse : Type := mkHTTPResponse {
  StatusCode : Z;
  Body : Result (list byte)
}.

Definition StatusOK : Z := 200.

(** What a [Resolve] call does to the outside, in order. *)
Inductive NetEvent : Type :=
| EvDo (via : RoundTripper) (req : Request)
| EvCloseHTTP3 (p : Pointer)
| EvCloseBody.

Section Resolver.

(** [*dns.Msg] and its codec come from the DNS library. *)
Variable Msg : Type.
Variable Pack : Msg -> Result (list byte).
(** [answer.Unpack(buf)] on a fresh message: the message afterwards and
    the error returned. *)
Variable Unpack : list byte -> Msg * option string.
(** The error, if any, of [http.NewRequestWithContext] for a method and a
    URL. *)
Variable NewRequestError : string -> string -> option string.
(** [c.Do(req)] for a client with the given round-tripper. *)
Variable Do : RoundTripper -> Request -> Result HTTPResponse.

Definition wrong_response (buf : list byte) (code : Z) : string :=
  "wrong response from DOH server, got: " +:+ string_of_bytes buf +:+
  ", status: " +:+ pretty code.

(** [(r *dohResolver) Resolve]: the resolver afterwards, the returned
    pair, and the events caused. *)
Definition Resolve (r : dohResolver) (msg : Msg)
  : dohResolver * (option Msg * option string) * list NetEvent :=
  match Pack msg with
  | Err e => (r, (None, Some e), [])
  | Ok data =>
      let enc := Base64.EncodeToString data in
      let url := endpoint r +:+ "?dns=" +:+ enc in
      match NewRequestError "GET" url with
      | Some e => (r, (None, Some (wrap "could not create request" e)), [])
      | None =>
          let header := Header_Set ∅ "Content-Type" "application/dns-message" in
          let header := Header_Set header "Accept" "application/dns-message" in
          let req := mkRequest "GET" url header in
          let c := if isDoH3 r then ViaHTTP3 (http3RoundTripper r)
                   else ViaTransport (transport r) in
          match Do c req with
          | Err e =>
              let closed := if isDoH3 r then [EvCloseHTTP3 (http3RoundTripper r)]
                            else [] in
              (r, (None, Some (wrap "could not perform request" e)),
               EvDo c req :: closed)
          | Ok resp =>
              match Body resp with
              | Err e =>
                  (r, (None, Some (wrap "could not read message from response" e)),
                   [EvDo c req; EvCloseBody])
              | Ok buf =>
                  if bool_decide (StatusCode resp <> StatusOK)
                  then (r, (None, Some (wrong_response buf (StatusCode resp))),
                        [EvDo c req; EvCloseBody])
                  else let '(answer, err) := Unpack buf in
                       (r, (Some answer, err), [EvDo c req; EvCloseBody])
              end
          end
      end
  end.

End Resolver.


(** ** The search-domain list as the specification words it *)

Inductive Tagged : Type :=
| FromSearch (d : FQDN)
| FromMatch (d : FQDN).

Definition domain_of (e : Tagged) : FQDN :=
  match e with FromSearch d | FromMatch d => d end.

(** Every domain keeps its first occurrence only. *)
Fixpoint first_seen_wins (es : list Tagged) : list Tagged :=
  match es with
  | [] => []
  | e :: rest => e :: filter (fun e' => domain_of e' <> domain_of e) (first_seen_wins rest)
  end.

Section SearchListSpec.

Variable WithTrailingDot : FQDN -> string.

Definition written (e : Tagged) : string :=
  match e with
  | FromSearch d => WithTrailingDot d
  | FromMatch d => "~" +:+ WithTrailingDot d
  end.

(** Search domains first, then match domains marked with a tilde, first
    occurrence of a domain wins, and the all-domains entry exactly when
    there is no match domain. *)
Definition spec_search_list (config : OSConfig) : list string :=
  map written (first_seen_wins (map FromSearch (SearchDomains config) ++
                                map FromMatch (MatchDomains config)))
  ++ (if bool_decide (MatchDomains config = []) then ["~."%string] else []).

End SearchListSpec.

(** The entries a loop over [es] appends, given what was seen before. *)
Fixpoint keep (seen : gmap FQDN bool) (es : list Tagged) : list Tagged :=
  match es with
  | [] => []
  | e :: rest =>
      if seen_at seen (domain_of e) then keep seen rest
      else e :: keep (<[domain_of e := true]> seen) rest
  end.

Definition mark (seen : gmap FQDN bool) (doms : list FQDN) : gmap FQDN bool :=
  foldl (fun s d => <[d := true]> s) seen doms.

Definition tilde_prefixed (s : string) : Prop := String.prefix "~" s = true.


(** ** What a run of [SetDNS] submits *)

(** The [Reapply] calls of a run, in order. *)
Definition reapply_calls (trace : list Event) : list ReapplyCall :=
  flat_map (fun ev => match ev with
                      | EvTry _ _ calls => calls
                      | EvSleep _ => []
                      end) trace.

(** The settings objects a run of [SetDNS] hands to NetworkManager. *)
Definition submitted (Native : ByteOrder) (WithTrailingDot : FQDN -> string)
           (reconfigTimeout : Z) (interfaceName : string) (config : OSConfig)
           (world : nat -> Attempt) : list nmConnectionSettings :=
  map rc_settings
      (reapply_calls
         (snd (SetDNS Native WithTrailingDot reconfigTimeout interfaceName config world))).

(** The value of a property in a section of a settings object. *)
Definition property_of (settings : nmConnectionSettings) (section key : string)
  : option Variant :=
  settings !! section ≫= (fun m => m !! key).

(** What [trySet] writes for the three DNS properties of both sections. *)
Definition written_as (Native : ByteOrder) (WithTrailingDot : FQDN -> string)
           (config : OSConfig) (settings : nmConnectionSettings) : Prop :=
  property_of settings "ipv4" "dns" = Some (VUint32s (dnsv4_of Native config)) /\
  property_of settings "ipv4" "dns-search"
    = Some (VStrings (search_of WithTrailingDot config)) /\
  property_of settings "ipv4" "dns-priority"
    = Some (VInt32 (priority_of (dnsv4_of Native config) config)) /\
  property_of settings "ipv6" "dns" = Some (VByteArrays (dnsv6_of Native config)) /\
  property_of settings "ipv6" "dns-search"
    = Some (VStrings (search_of WithTrailingDot config)) /\
  property_of settings "ipv6" "dns-priority"
    = Some (VInt32 (priority_of (dnsv6_of Native config) config)).

(** The time at which attempt [i] starts when every earlier attempt failed. *)
Fixpoint clock (world : nat -> Attempt) (i : nat) : Z :=
  match i with
  | O => 0
  | S j => after_sleep world j (clock world j)
  end.

(** The events of the failed attempts [from], ..., [from + count - 1], each
    followed by its sleep. *)
Definition failed_rounds (tries : nat -> Outcome * list ReapplyCall) (from count : nat)
  : list Event :=
  flat_map (fun i => [EvTry i (fst (tries i)) (snd (tries i)); EvSleep sleepInterval])
           (seq from count).

(** An attempt failed when [trySet] returned a non-nil error. *)
Definition is_failure (o : Outcome) : bool :=
  match o with
  | Returned (Some _) => true
  | _ => false
  end.

(** The events of a run that stops with attempt [n]: the failed attempts
    before it, the attempt itself, and the sleep after it if it failed too. *)
Definition run_until (tries : nat -> Outcome * list ReapplyCall) (n : nat) : list Event :=
  failed_rounds tries 0 n
  ++ EvTry n (fst (tries n)) (snd (tries n))
  :: (if is_failure (fst (tries n)) then [EvSleep sleepInterval] else []).

(** The wire form of an IPv4 nameserver: the last four of its sixteen bytes
    read as a [uint32] in the byte order of the machine. *)
Definition wire4 (Native : ByteOrder) (ip : Addr) : Z :=
  Uint32 Native (drop 12 (As16 ip)).

Definition not4 (ip : Addr) : bool := negb (Is4 ip).

(** Four bytes packed into a [uint32], least significant first. *)
Definition pack4 (x0 x1 x2 x3 : Z) : Z :=
  Z.lor (Z.lor (Z.lor x0 (Z.shiftl x1 8)) (Z.shiftl x2 16)) (Z.shiftl x3 24).


(** ** Vocabulary for the discovery loop *)

(** The answer "the buffer is too small, [size] bytes are needed". *)
Definition overflow (size : Z) : Response :=
  mkResponse ERROR_BUFFER_OVERFLOW size (Adapter None None).

(** An operating system that answers call [k] with the [k]-th response of
    a script, and with [final] once the script is used up. *)
Definition scripted (script : list Response) (final : Response) (k : nat) (l : Z)
  : Response :=
  nth k script final.

(** What [adapterAddresses] makes of a successful response. *)
Definition success_result (r : Response) : Enumeration :=
  if bool_decide (uint32 (size_out r) = 0) then Adapters []
  else Adapters (collect_adapters (buffer r) []).

(** The [Next] link of an adapter record. *)
Definition adapter_Next (aa : IpAdapterAddresses) : option IpAdapterAddresses :=
  match aa with Adapter _ next => next end.

(** [aas] is the list of the adapter records left in the buffer: its first
    entry is the record at the start of the buffer, every further entry is
    the record the [Next] link of the entry before it points to, and the
    list ends with the record whose link is nil. *)
Definition linked_from (first : IpAdapterAddresses) (aas : list IpAdapterAddresses)
  : Prop :=
  aas !! 0%nat = Some first /\
  forall i aa, aas !! i = Some aa -> aas !! S i = adapter_Next aa.

(** Sizes that fit a [uint32] and grow strictly, starting above [l]. *)
Fixpoint increasing_from (l : Z) (sizes : list Z) : Prop :=
  match sizes with
  | [] => True
  | s :: rest => l < s < 2 ^ 32 /\ increasing_from s rest
  end.

(** An IPv6 address of the site-local range fec0::/10: the first ten bits
    are 1111 1110 11. *)
Definition site_local (ip : list byte) : Prop :=
  nth 0 ip x00 = xfe /\ Z.land (byteZ (nth 1 ip x00)) 192 = 192.

(** ** Vocabulary for the resolver *)

(** The RFC 8484 GET request for the packed query [data]. *)
Definition dns_request (endpoint : string) (data : list byte) : Request :=
  {| Method := "GET";
     URL := endpoint +:+ "?dns=" +:+ Base64.EncodeToString data;
     Headers := {[ "Content-Type"%string := ["application/dns-message"%string];
                   "Accept"%string := ["application/dns-message"%string] ]} |}.

(** The round-tripper a resolver sends its requests through. *)
Definition round_tripper_of (r : dohResolver) : RoundTripper :=
  if isDoH3 r then ViaHTTP3 (http3RoundTripper r) else ViaTransport (transport r).

(** The requests among the events of a call, with their round-tripper. *)
Definition requests (events : list NetEvent) : list (RoundTripper * Request) :=
  flat_map (fun ev => match ev with
                      | EvDo via req => [(via, req)]
                      | _ => []
                      end) events.

(** A character of the URL-safe base64 alphabet. *)
Definition in_url_alphabet (c : ascii) : Prop :=
  c ∈ list_ascii_of_string Base64.encodeURL.

(** ** Concrete systems and configurations used in the examples *)

Definition second : Z := 1000000000.

(** An applied connection as NetworkManager returns it, with the deprecated
    [addresses] and [routes] properties present. *)
Definition applied_connection : nmConnectionSettings :=
  {[ "connection"%string := {[ "id"%string := VString "ctrld0" ]};
     "ipv4"%string := {[ "method"%string := VString "auto";
                         "addresses"%string := VOpaque "aau" [] ]};
     "ipv6"%string := {[ "method"%string := VString "ignore";
                         "routes"%string := VOpaque "a(ayuayu)" [] ]} ]}.

Definition link_local_1 : list byte :=
  [xfe; x80; x00; x00; x00; x00; x00; x00; x00; x00; x00; x00; x00; x00; x00; x01].

(** A system on which every call of [trySet] succeeds. *)
Definition system_ready : System :=
  {| SystemBus := Ok tt;
     GetDeviceByIpIface := fun _ => Ok "/org/freedesktop/NetworkManager/Devices/2"%string;
     GetAppliedConnection := fun _ => Ok (applied_connection, 3);
     InterfaceAddrs := fun _ => Ok [IPNet [x0a; x00; x00; x02] [xff; xff; xff; x00];
                                    IPNet link_local_1 []];
     Reapply := fun _ _ _ => None |}.

(** A system on which the device is not known yet. *)
Definition system_not_ready : System :=
  {| SystemBus := Ok tt;
     GetDeviceByIpIface := fun _ => Err "No device found for the requested iface."%string;
     GetAppliedConnection := fun _ => Err "unreachable"%string;
     InterfaceAddrs := fun _ => Err "no such network interface"%string;
     Reapply := fun _ _ _ => None |}.

Definition world_ready (i : nat) : Attempt := mkAttempt system_ready 2000000 0.

Definition world_ready_at (k i : nat) : Attempt :=
  if (i <? k)%nat then mkAttempt system_not_ready 1000000 50000
  else mkAttempt system_ready 2000000 0.

Definition world_never_ready (i : nat) : Attempt := mkAttempt system_not_ready 1000000 50000.

(** The settings [trySet] makes of [applied_connection] on [system_ready]. *)
Definition settings_with (dnsv4 : list Z) (dnsv6 : list (list byte))
           (search : list string) (priority4 priority6 : Z) : nmConnectionSettings :=
  {[ "connection"%string := {[ "id"%string := VString "ctrld0" ]};
     "ipv4"%string := {[ "method"%string := VString "auto";
                         "dns"%string := VUint32s dnsv4;
                         "dns-search"%string := VStrings search;
                         "dns-priority"%string := VInt32 priority4 ]};
     "ipv6"%string := {[ "method"%string := VString "auto";
                         "address-data"%string := VAddressData [("fe80::1"%string, 128)];
                         "ignore-auto-routes"%string := VBool true;
                         "ignore-auto-dns"%string := VBool true;
                         "never-default"%string := VBool true;
                         "dns"%string := VByteArrays dnsv6;
                         "dns-search"%string := VStrings search;
                         "dns-priority"%string := VInt32 priority6 ]} ]}.

Definition trailing_dot_kept (dom : FQDN) : string := dom.

Definition config_no_nameservers : OSConfig :=
  {| Nameservers := [];
     SearchDomains := ["corp.example."%string];
     MatchDomains := ["internal.example."%string] |}.

Definition config_one_ipv4 : OSConfig :=
  {| Nameservers := [Addr4 x0a x00 x00 x01];
     SearchDomains := [];
     MatchDomains := [] |}.

Definition loopback6 : list byte := replicate 15 x00 ++ [x01].

Definition config_repeated_nameservers : OSConfig :=
  {| Nameservers := [Addr4 x0a x00 x00 x01; Addr6 loopback6 "";
                     Addr4 x0a x00 x00 x01; Addr6 loopback6 ""];
     SearchDomains := [];
     MatchDomains := [] |}.

Definition config_distinct_nameservers : OSConfig :=
  {| Nameservers := [Addr4 x0a x00 x00 x01; Addr6 loopback6 ""; Addr4 x0a x00 x00 x02];
     SearchDomains := [];
     MatchDomains := [] |}.

Definition config_match_within_search : OSConfig :=
  {| Nameservers := [Addr4 x0a x00 x00 x01];
     SearchDomains := ["corp.example."; "lab.example."; "corp.example."]%string;
     MatchDomains := ["lab.example."; "corp.example."]%string |}.

Definition config_split : OSConfig :=
  {| Nameservers := [Addr4 x0a x00 x00 x01];
     SearchDomains := ["corp.example."; "lab.example."; "corp.example."]%string;
     MatchDomains := ["lab.example."; "internal.example."; "internal.example."]%string |}.

(** A search domain written with a leading tilde that is a match domain
    too. *)
Definition config_tilde_domain : OSConfig :=
  {| Nameservers := [Addr4 x0a x00 x00 x01];
     SearchDomains := ["~a."%string];
     MatchDomains := ["~a."%string] |}.

(** What [SetDNS] submits for the configurations above on [world_ready]. *)
Definition settings_no_nameservers : nmConnectionSettings :=
  settings_with [] [] ["corp.example."; "~internal.example."]%string 200 200.

Definition settings_one_ipv4 : nmConnectionSettings :=
  settings_with [16777226] [] ["~."%string] (- 2147483648) 200.

Definition settings_repeated_nameservers : nmConnectionSettings :=
  settings_with [16777226; 16777226] [loopback6; loopback6] ["~."%string]
                (- 2147483648) (- 2147483648).

Definition settings_distinct_nameservers : nmConnectionSettings :=
  settings_with [16777226; 33554442] [loopback6] ["~."%string]
                (- 2147483648) (- 2147483648).

Definition settings_match_within_search : nmConnectionSettings :=
  settings_with [16777226] [] ["corp.example."; "lab.example."]%string 1 200.

Definition settings_split : nmConnectionSettings :=
  settings_with [16777226] []
                ["corp.example."; "lab.example."; "~internal.example."]%string 1 200.

Definition settings_tilde_domain : nmConnectionSettings :=
  settings_with [16777226] [] ["~a."%string] 1 200.

(** An adapter list as Windows fills it in: one adapter with the default
    site-local servers and a real one, and a second adapter without DNS
    servers. *)
Definition addr_fec0_ffff_1 : list byte :=
  [xfe; xc0; x00; x00; x00; x00; xff; xff; x00; x00; x00; x00; x00; x00; x00; x01].

Definition addr_fec1_1 : list byte :=
  [xfe; xc1; x00; x00; x00; x00; x00; x00; x00; x00; x00; x00; x00; x00; x00; x01].

Definition addr_feff_1 : list byte :=
  [xfe; xff; x00; x00; x00; x00; x00; x00; x00; x00; x00; x00; x00; x00; x00; x01].

Definition adapters_example : IpAdapterAddresses :=
  Adapter (Some (DnsServer (Ok (SockaddrInet6 53 0 addr_fec0_ffff_1))
           (Some (DnsServer (Ok (SockaddrInet4 53 (x08, x08, x08, x08)))
           (Some (DnsServer (Err "address family not supported by protocol") None))))))
          (Some (Adapter None None)).

Definition adapters_site_local : IpAdapterAddresses :=
  Adapter (Some (DnsServer (Ok (SockaddrInet6 53 0 addr_fec1_1))
           (Some (DnsServer (Ok (SockaddrInet6 53 0 addr_feff_1)) None))))
          None.

(** The first buffer is large enough. *)
Definition os_at_once (first : IpAdapterAddresses) (k : nat) (l : Z) : Response :=
  mkResponse 0 376 first.

(** Two rounds of growth, then success. *)
Definition os_growing : nat -> Z -> Response :=
  scripted [overflow 20000; overflow 40000] (mkResponse 0 38000 adapters_example).

(** The system keeps asking for the size it was given. *)
Definition os_stuck : nat -> Z -> Response :=
  scripted [overflow 20000] (overflow 20000).

(** A stand-in for the DNS codec: a message is the text of its wire form,
    and the empty message does not pack. *)
Definition toy_Pack (m : string) : Result (list byte) :=
  if bool_decide (m = ""%string) then Err "dns: bad message"%string
  else Ok (map byte_of_ascii (list_ascii_of_string m)).

Definition toy_Unpack (buf : list byte) : string * option string :=
  (string_of_bytes buf,
   if bool_decide (length buf < 12)%nat then Some "dns: overflow unpacking uint16"%string
   else None).

(** Request construction fails on a URL with a blank in it. *)
Definition toy_NewRequestError (method url : string) : option string :=
  if existsb (fun c => bool_decide (c = " "%char)) (list_ascii_of_string url)
  then Some "parse: invalid character in host name"%string else None.

Definition body_twelve : list byte :=
  [x00; x01; x81; x80; x00; x01; x00; x00; x00; x00; x00; x00].

Definition Do_ok (via : RoundTripper) (req : Request) : Result HTTPResponse :=
  Ok (mkHTTPResponse 200 (Ok body_twelve)).

Definition Do_unavailable (via : RoundTripper) (req : Request) : Result HTTPResponse :=
  Ok (mkHTTPResponse 503 (Ok [x62; x75; x73; x79])).

Definition Do_broken (via : RoundTripper) (req : Request) : Result HTTPResponse :=
  Err "timeout: no recent network activity"%string.

Definition doh3_resolver : dohResolver :=
  newDohResolver (mkUpstreamConfig "https://dns.example/q" ResolverTypeDOH3 1%nat 2%nat).

Definition doh_resolver : dohResolver :=
  newDohResolver (mkUpstreamConfig "https://dns.example/q" ResolverTypeDOH 1%nat 2%nat).

Definition blank_resolver : dohResolver :=
  newDohResolver (mkUpstreamConfig "https://dns example/q" ResolverTypeDOH 1%nat 2%nat).

(** An applied connection that lacks the ipv6 section. *)
Definition applied_without_ipv6 : nmConnectionSettings :=
  {[ "ipv4"%string := {[ "method"%string := VString "auto" ]} ]}.

Definition system_without_ipv6 : System :=
  {| SystemBus := Ok tt;
     GetDeviceByIpIface := fun _ => Ok "/org/freedesktop/NetworkManager/Devices/2"%string;
     GetAppliedConnection := fun _ => Ok (applied_without_ipv6, 3);
     InterfaceAddrs := fun _ => Ok [];
     Reapply := fun _ _ _ => None |}.

Definition reapply_one_ipv4 : ReapplyCall :=
  mkReapply "/org/freedesktop/NetworkManager/Devices/2" settings_one_ipv4 3.

(** ** Vocabulary for further properties *)

(** The IPv6 addresses [trySet] stages from what the interface lookup
    gives. *)
Definition staged_of (sys : System) (interfaceName : string) : list (string * Z) :=
  match InterfaceAddrs sys interfaceName with
  | Ok addrs => stage_addrs6 addrs []
  | Err _ => []
  end.

(** The properties [trySet] assigns in the ipv4 and in the ipv6 section. *)
Definition ipv4_assigned : list string := ["dns"; "dns-search"; "dns-priority"]%string.

Definition ipv6_assigned : list string :=
  ["method"; "address-data"; "ignore-auto-routes"; "ignore-auto-dns"; "never-default";
   "dns"; "dns-search"; "dns-priority"]%string.

(** The number of attempts among the events of a run. *)
Definition attempts_of (trace : list Event) : nat :=
  length (List.filter (fun ev => match ev with EvTry _ _ _ => true | EvSleep _ => false end)
                      trace).

(** The [Reapply] calls of a run that NetworkManager accepted. *)
Definition accepted_by (sys : System) (call : ReapplyCall) : Prop :=
  Reapply sys (rc_device call) (rc_settings call) (rc_version call) = None.

(** The addresses of an interface that get staged: those of an [IPNet]
    whose IP has sixteen bytes and is not an IPv4-mapped address. *)
Definition stageable (a : NetAddr) : option (list byte) :=
  match a with
  | IPNet ip _ =>
      if bool_decide (length ip = 16%nat) then
        match IPText.To4 ip with
        | Some _ => None
        | None => Some ip
        end
      else None
  | OtherAddr => None
  end.

(** The DNS server entries of a chain, and of a list of adapters, in the
    order of the links. *)
Fixpoint chain_entries (dns : IpAdapterDnsServerAdapter) : list (Result Sockaddr) :=
  match dns with
  | DnsServer address None => [address]
  | DnsServer address (Some next) => address :: chain_entries next
  end.

Definition adapter_entries (aa : IpAdapterAddresses) : list (Result Sockaddr) :=
  match FirstDnsServerAddress aa with
  | Some dns => chain_entries dns
  | None => []
  end.

(** The adapters of a chain, in the order of the links. *)
Fixpoint chain_adapters (aa : IpAdapterAddresses) : list IpAdapterAddresses :=
  match aa with
  | Adapter _ None => [aa]
  | Adapter _ (Some next) => aa :: chain_adapters next
  end.

(** ** Reading unpadded URL-safe base64 back *)

(** The place of a character in an alphabet, counted from [i]. *)
Fixpoint position (c : ascii) (alphabet : list ascii) (i : Z) : option Z :=
  match alphabet with
  | [] => None
  | a :: rest => if bool_decide (a = c) then Some i else position c rest (i + 1)
  end.

(** The six bits a character of the URL-safe alphabet stands for. *)
Definition url_value (c : ascii) : option Z :=
  position c (list_ascii_of_string Base64.encodeURL) 0.

Definition byte_of_Z (z : Z) : byte := default x00 (Byte.of_N (Z.to_N z)).

(** Decoding as RFC 4648 describes it, without padding: four characters
    give three bytes, a rest of three characters two bytes and a rest of
    two characters one byte; a text with a character outside the alphabet,
    or with a rest of one character, is not an encoding. *)
Fixpoint decode_url (cs : list ascii) : option (list byte) :=
  match cs with
  | [] => Some []
  | [c0; c1] =>
      match url_value c0, url_value c1 with
      | Some v0, Some v1 => Some [byte_of_Z (v0 * 4 + v1 / 16)]
      | _, _ => None
      end
  | [c0; c1; c2] =>
      match url_value c0, url_value c1, url_value c2 with
      | Some v0, Some v1, Some v2 =>
          Some [byte_of_Z (v0 * 4 + v1 / 16); byte_of_Z (v1 mod 16 * 16 + v2 / 4)]
      | _, _, _ => None
      end
  | c0 :: c1 :: c2 :: c3 :: rest =>
      match url_value c0, url_value c1, url_value c2, url_value c3, decode_url rest with
      | Some v0, Some v1, Some v2, Some v3, Some bytes =>
          Some (byte_of_Z (v0 * 4 + v1 / 16) :: byte_of_Z (v1 mod 16 * 16 + v2 / 4)
                :: byte_of_Z (v2 mod 4 * 64 + v3) :: bytes)
      | _, _, _, _, _ => None
      end
  | [_] => None
  end.

(** ** Sanity checks of the library models *)

Example IP_String_v4 :
  IPText.IP_String (IPText.IPv4 x0a x00 x00 x01) = "10.0.0.1"%string.
Proof. reflexivity. Qed.

Example IP_String_v6 :
  IPText.IP_String [xfe; xc0; x00; x00; x00; x00; xff; xff;
                    x00; x00; x00; x00; x00; x00; x00; x01] = "fec0:0:0:ffff::1"%string.
Proof. reflexivity. Qed.

Example IP_String_v6_loopback :
  IPText.IP_String (replicate 15 x00 ++ [x01]) = "::1"%string.
Proof. reflexivity. Qed.

Example IP_String_v6_middle :
  IPText.IP_String [x20; x01; x0d; xb8; x00; x00; x00; x00;
                    x00; x01; x00; x00; x00; x00; x00; x01] = "2001:db8::1:0:0:1"%string.
Proof. reflexivity. Qed.

Example JoinHostPort_v6 :
  IPText.JoinHostPort "fec1::1" "53" = "[fec1::1]:53"%string.
Proof. reflexivity. Qed.

Example base64_f : Base64.EncodeToString [x66] = "Zg"%string.
Proof. reflexivity. Qed.

Example base64_fo : Base64.EncodeToString [x66; x6f] = "Zm8"%string.
Proof. reflexivity. Qed.

Example base64_foobar :
  Base64.EncodeToString [x66; x6f; x6f; x62; x61; x72] = "Zm9vYmFy"%string.
Proof. reflexivity. Qed.

Example base64_url_alphabet :
  Base64.EncodeToString [xfb; xff; xfe; xff] = "-__-_w"%string.
Proof. reflexivity. Qed.

(** ** The search-domain list *)

Lemma seen_at_insert seen d x :
  seen_at (<[d := true]> seen) x = true <-> x = d \/ seen_at seen x = true.
Proof.
  unfold seen_at. destruct (decide (d = x)) as [-> | Hne].
  - rewrite lookup_insert_eq. simpl. tauto.
  - rewrite lookup_insert_ne by done. split; [tauto | intros [-> | H]; done].
Qed.

Lemma seen_at_insert_id seen d :
  seen_at seen d = true -> <[d := true]> seen = seen.
Proof.
  unfold seen_at. intros H. apply insert_id.
  destruct (seen !! d) as [[] |]; simpl in H; congruence.
Qed.

Lemma seen_at_mark seen doms x :
  seen_at (mark seen doms) x = true <-> x ∈ doms \/ seen_at seen x = true.
Proof.
  revert seen. induction doms as [| d doms IH]; intros seen; simpl.
  - rewrite elem_of_nil. tauto.
  - rewrite IH, seen_at_insert, elem_of_cons. tauto.
Qed.

Lemma search_loop_keep (WithTrailingDot : FQDN -> string) (tag : FQDN -> Tagged) (render : FQDN -> string) :
  (forall d, domain_of (tag d) = d) ->
  (forall d, render d = written WithTrailingDot (tag d)) ->
  forall doms seen search,
    search_loop render doms seen search
    = (mark seen doms, search ++ map (written WithTrailingDot) (keep seen (map tag doms))).
Proof.
  intros Htag Hrender. induction doms as [| d doms IH]; intros seen search; simpl.
  - by rewrite app_nil_r.
  - rewrite Htag. destruct (seen_at seen d) eqn:Hseen.
    + rewrite IH. by rewrite (seen_at_insert_id seen d Hseen).
    + rewrite IH. simpl. by rewrite <- app_assoc, Hrender.
Qed.

Lemma keep_app seen es1 es2 :
  keep seen (es1 ++ es2)
  = keep seen es1 ++ keep (mark seen (map domain_of es1)) es2.
Proof.
  revert seen. induction es1 as [| e es1 IH]; intros seen; simpl; [done |].
  destruct (seen_at seen (domain_of e)) eqn:Hseen.
  - rewrite IH. by rewrite (seen_at_insert_id seen _ Hseen).
  - simpl. by rewrite IH.
Qed.

Lemma keep_first_seen seen es :
  keep seen es
  = filter (fun e => seen_at seen (domain_of e) <> true) (first_seen_wins es).
Proof.
  revert seen. induction es as [| e es IH]; intros seen; simpl; [done |].
  destruct (seen_at seen (domain_of e)) eqn:Hseen.
  - rewrite filter_cons_False by (rewrite Hseen; tauto).
    rewrite list_filter_filter, IH. apply list_filter_iff.
    intros x. split; [| tauto]. intros H. split; [done |]. congruence.
  - rewrite filter_cons_True by (rewrite Hseen; done).
    f_equal. rewrite list_filter_filter, IH. apply list_filter_iff.
    intros x. rewrite seen_at_insert. tauto.
Qed.

Lemma filter_everything {A} (P : A -> Prop) `{!forall x, Decision (P x)} (l : list A) :
  (forall x, P x) -> filter P l = l.
Proof.
  intros HP. induction l as [| a l IH]; [done |].
  rewrite filter_cons_True by apply HP. by rewrite IH.
Qed.

Lemma keep_empty es : keep ∅ es = first_seen_wins es.
Proof.
  rewrite keep_first_seen. apply filter_everything.
  intros x. unfold seen_at. rewrite lookup_empty. done.
Qed.

Lemma keep_all_seen seen es :
  (forall e, e ∈ es -> seen_at seen (domain_of e) = true) -> keep seen es = [].
Proof.
  induction es as [| e es IH]; intros H; simpl; [done |].
  rewrite (H e) by (apply elem_of_cons; by left).
  apply IH. intros x Hx. apply H. apply elem_of_cons; by right.
Qed.

Lemma map_domain_FromSearch doms : map domain_of (map FromSearch doms) = doms.
Proof. induction doms; simpl; congruence. Qed.

(** Both loops of [trySet] in terms of [keep]. *)
Lemma search_of_keep (WithTrailingDot : FQDN -> string) config :
  search_of WithTrailingDot config
  = map (written WithTrailingDot)
      (keep ∅ (map FromSearch (SearchDomains config))
       ++ keep (mark ∅ (SearchDomains config)) (map FromMatch (MatchDomains config)))
    ++ (if bool_decide (MatchDomains config = []) then ["~."%string] else []).
Proof.
  unfold search_of.
  rewrite (search_loop_keep WithTrailingDot FromSearch) by done.
  rewrite (search_loop_keep WithTrailingDot FromMatch) by done.
  simpl. rewrite map_app.
  destruct (MatchDomains config) as [| m ms]; [done |].
  rewrite bool_decide_eq_false_2 by done.
  rewrite bool_decide_eq_false_2 by done. by rewrite app_nil_r.
Qed.

(** The two loops of [trySet] and the final test build the list the
    specification words. *)
Lemma search_of_refines_spec (WithTrailingDot : FQDN -> string) (config : OSConfig) :
  search_of WithTrailingDot config = spec_search_list WithTrailingDot config.
Proof.
  rewrite search_of_keep. unfold spec_search_list.
  rewrite <- keep_empty, keep_app. by rewrite map_domain_FromSearch.
Qed.

Lemma written_FromSearch (WithTrailingDot : FQDN -> string) (doms : list FQDN) :
  Forall (fun e => written WithTrailingDot e = WithTrailingDot (domain_of e))
         (first_seen_wins (map FromSearch doms)).
Proof.
  apply Forall_forall. intros e He.
  assert (Hsub : forall es x, x ∈ first_seen_wins es -> x ∈ es).
  { induction es as [| e0 es IH]; simpl; intros x Hx; [done |].
    apply elem_of_cons in Hx as [-> | Hx]; [apply elem_of_cons; by left |].
    apply list_elem_of_filter in Hx as [_ Hx]. apply elem_of_cons. right. by apply IH. }
  apply Hsub in He. apply list_elem_of_fmap in He as (d & -> & _). done.
Qed.

(** When every match domain is a search domain too, the second loop of
    [trySet] appends nothing. *)
Lemma search_of_match_within_search (WithTrailingDot : FQDN -> string) (config : OSConfig) :
  MatchDomains config <> [] ->
  (forall d, d ∈ MatchDomains config -> d ∈ SearchDomains config) ->
  search_of WithTrailingDot config
  = map (fun e => WithTrailingDot (domain_of e))
        (first_seen_wins (map FromSearch (SearchDomains config))).
Proof.
  intros Hne Hsub. rewrite search_of_keep.
  rewrite bool_decide_eq_false_2 by done.
  rewrite (keep_all_seen (mark ∅ (SearchDomains config))), !app_nil_r, keep_empty.
  - apply Forall_fmap_ext_1. apply written_FromSearch.
  - intros e He. apply list_elem_of_fmap in He as (d & -> & Hd). simpl.
    apply seen_at_mark. left. by apply Hsub.
Qed.

Lemma first_seen_wins_subset es e : e ∈ first_seen_wins es -> e ∈ es.
Proof.
  induction es as [| e0 es IH]; simpl; intros He; [done |].
  apply elem_of_cons in He as [-> | He]; [apply elem_of_cons; by left |].
  apply list_elem_of_filter in He as [_ He]. apply elem_of_cons. right. by apply IH.
Qed.

Lemma first_seen_wins_domains es d :
  d ∈ map domain_of (first_seen_wins es) <-> d ∈ map domain_of es.
Proof.
  split.
  - intros Hin. apply list_elem_of_fmap in Hin as (x & -> & Hin).
    apply list_elem_of_fmap. exists x. split; [done |]. by apply first_seen_wins_subset.
  - induction es as [| e es IH]; simpl; [done |].
    intros Hin. apply elem_of_cons in Hin as [-> | Hin]; [apply elem_of_cons; by left |].
    destruct (decide (d = domain_of e)) as [-> | Hne]; [apply elem_of_cons; by left |].
    apply elem_of_cons. right.
    apply IH in Hin. apply list_elem_of_fmap in Hin as (x & -> & Hin).
    apply list_elem_of_fmap. exists x. split; [done |].
    apply list_elem_of_filter. by split.
Qed.

Lemma NoDup_domains_filter (P : Tagged -> Prop) `{!forall e, Decision (P e)} es :
  NoDup (map domain_of es) -> NoDup (map domain_of (filter P es)).
Proof.
  induction es as [| e es IH]; simpl; intros Hnd; [done |].
  apply NoDup_cons in Hnd as [Hnot Hnd].
  rewrite filter_cons. case_decide; [| by apply IH].
  simpl. apply NoDup_cons. split; [| by apply IH].
  intros Hin. apply Hnot.
  apply list_elem_of_fmap in Hin as (x & Hx & Hin).
  apply list_elem_of_filter in Hin as [_ Hin].
  apply list_elem_of_fmap. by exists x.
Qed.

Lemma first_seen_wins_NoDup es : NoDup (map domain_of (first_seen_wins es)).
Proof.
  induction es as [| e es IH]; simpl; [constructor |].
  apply NoDup_cons. split.
  - intros Hin. apply list_elem_of_fmap in Hin as (x & Hx & Hin).
    apply list_elem_of_filter in Hin as [Hne _]. congruence.
  - by apply NoDup_domains_filter.
Qed.


(** ** What [trySet] writes and [SetDNS] submits *)

Lemma delete_all_lookup_ne (props : list string) (m : gmap string Variant) (key : string) :
  key ∉ props -> delete_all props m !! key = m !! key.
Proof.
  unfold delete_all. revert m. induction props as [| p props IH]; intros m Hnot; simpl.
  - done.
  - rewrite IH by (intros Hin; apply Hnot; apply elem_of_cons; by right).
    apply lookup_delete_ne. intros ->. apply Hnot. apply elem_of_cons. by left.
Qed.

Lemma not_deprecated (key : string) :
  key <> "addresses"%string -> key <> "routes"%string -> key ∉ deprecatedProperties.
Proof.
  intros H1 H2 Hin. unfold deprecatedProperties in Hin.
  rewrite !elem_of_cons, elem_of_nil in Hin. tauto.
Qed.

Lemma mutate_settings_written Native WithTrailingDot config addrs6 settings settings' :
  mutate_settings Native WithTrailingDot config addrs6 settings = Some settings' ->
  written_as Native WithTrailingDot config settings'.
Proof.
  unfold mutate_settings. intros H.
  destruct (settings !! "ipv4"%string) as [ipv4Map |] eqn:H4; [| done].
  rewrite lookup_insert_ne in H by done.
  destruct (settings !! "ipv6"%string) as [ipv6Map |] eqn:H6; [| done].
  injection H as <-.
  unfold written_as, property_of.
  rewrite !lookup_insert_eq, lookup_insert_ne, lookup_insert_eq by done. simpl.
  unfold write_ipv4, write_ipv6.
  rewrite !delete_all_lookup_ne by (by apply not_deprecated).
  repeat split; by simplify_map_eq.
Qed.

Section SetDNSFacts.

Variable Native : ByteOrder.
Variable WithTrailingDot : FQDN -> string.
Variable reconfigTimeout : Z.
Variable interfaceName : string.
Variable config : OSConfig.
Variable world : nat -> Attempt.

Let tries := attempt Native WithTrailingDot interfaceName config world.
Let loop := SetDNS_loop Native WithTrailingDot reconfigTimeout interfaceName config world.

Lemma SetDNS_loop_step i now err :
  loop i now err =
  if decide (now < reconfigTimeout) then
    match tries i with
    | (Panicked msg, calls) => (Panicked msg, [EvTry i (Panicked msg) calls])
    | (Returned None, calls) => (Returned None, [EvTry i (Returned None) calls])
    | (Returned (Some e), calls) =>
        let '(o, trace) := loop (S i) (after_sleep world i now) (Some e) in
        (o, EvTry i (Returned (Some e)) calls :: EvSleep sleepInterval :: trace)
    end
  else (Returned err, []).
Proof.
  unfold loop, tries. simp SetDNS_loop.
  destruct (decide (now < reconfigTimeout)); simpl; [| done].
  destruct (attempt _ _ _ _ _ i) as [[[e |] | msg] calls]; simpl; done.
Qed.


Lemma trySet_written sys call :
  call ∈ snd (trySet Native WithTrailingDot sys interfaceName config) ->
  written_as Native WithTrailingDot config (rc_settings call).
Proof.
  unfold trySet.
  destruct (SystemBus sys); [| simpl; by rewrite elem_of_nil].
  destruct (GetDeviceByIpIface sys interfaceName) as [devicePath |];
    [| simpl; by rewrite elem_of_nil].
  destruct (GetAppliedConnection sys devicePath) as [[settings version] |];
    [| simpl; by rewrite elem_of_nil].
  destruct (mutate_settings _ _ _ _ _) as [settings' |] eqn:Hm;
    [| simpl; by rewrite elem_of_nil].
  destruct (Reapply sys devicePath settings' version); simpl;
    rewrite list_elem_of_singleton; intros ->; simpl;
    eapply mutate_settings_written; eassumption.
Qed.

Lemma SetDNS_loop_calls i now err call :
  call ∈ reapply_calls (snd (loop i now err)) -> exists j, call ∈ snd (tries j).
Proof.
  remember (slots_left reconfigTimeout now) as m eqn:Hm.
  revert i now err Hm. induction m as [m IH] using lt_wf_ind. intros i now err Hm.
  rewrite SetDNS_loop_step.
  destruct (decide (now < reconfigTimeout)) as [Hlive |]; [| simpl; by rewrite elem_of_nil].
  destruct (tries i) as [[[e |] | msg] calls] eqn:Htry.
  - specialize (IH (slots_left reconfigTimeout (after_sleep world i now))).
    destruct (loop (S i) (after_sleep world i now) (Some e)) as [o trace] eqn:Hrec.
    simpl. rewrite elem_of_app. intros [Hin | Hin].
    + exists i. by rewrite Htry.
    + eapply (IH ltac:(subst m; by apply slots_left_decrease) (S i) _ (Some e) eq_refl).
      by rewrite Hrec.
  - simpl. rewrite app_nil_r. intros Hin. exists i. by rewrite Htry.
  - simpl. rewrite app_nil_r. intros Hin. exists i. by rewrite Htry.
Qed.

(** Every settings object [SetDNS] submits carries what [trySet] computes
    from the configuration. *)
Lemma submitted_written settings :
  settings ∈ submitted Native WithTrailingDot reconfigTimeout interfaceName config world ->
  written_as Native WithTrailingDot config settings.
Proof.
  unfold submitted. rewrite list_elem_of_fmap. intros (call & -> & Hin).
  apply SetDNS_loop_calls in Hin as [j Hj].
  eapply trySet_written. exact Hj.
Qed.

Lemma failed_rounds_S from count :
  failed_rounds tries from (S count)
  = EvTry from (fst (tries from)) (snd (tries from)) :: EvSleep sleepInterval
    :: failed_rounds tries (S from) count.
Proof. reflexivity. Qed.

(** The loop entered for attempt [i] on time runs up to some attempt [n]:
    all attempts before [n] failed and were followed on time, and the loop
    ends with what attempt [n] gave. *)
Lemma SetDNS_loop_run i err :
  clock world i < reconfigTimeout ->
  exists n, (i <= n)%nat /\
    (forall j, (i <= j <= n)%nat -> clock world j < reconfigTimeout) /\
    (forall j, (i <= j < n)%nat -> is_failure (fst (tries j)) = true) /\
    (is_failure (fst (tries n)) = true -> reconfigTimeout <= clock world (S n)) /\
    loop i (clock world i) err
    = (fst (tries n),
       failed_rounds tries i (n - i)
       ++ EvTry n (fst (tries n)) (snd (tries n))
       :: (if is_failure (fst (tries n)) then [EvSleep sleepInterval] else [])).
Proof.
  remember (slots_left reconfigTimeout (clock world i)) as m eqn:Hm.
  revert i err Hm. induction m as [m IH] using lt_wf_ind. intros i err Hm Hlive.
  rewrite SetDNS_loop_step. rewrite decide_True by done.
  destruct (tries i) as [[[e |] | msg] calls] eqn:Htry.
  - change (after_sleep world i (clock world i)) with (clock world (S i)).
    destruct (decide (clock world (S i) < reconfigTimeout)) as [Hnext | Hlate].
    + destruct (IH (slots_left reconfigTimeout (clock world (S i)))
                  ltac:(subst m; by apply slots_left_decrease)
                  (S i) (Some e) eq_refl Hnext)
        as (n & Hle & Hclock & Hfail & Hstop & Hrun).
      exists n. split; [lia |]. split; [| split; [| split; [done |]]].
      * intros j Hj. destruct (decide (j = i)) as [-> | Hne]; [done |].
        apply Hclock. lia.
      * intros j Hj. destruct (decide (j = i)) as [-> | Hne]; [by rewrite Htry |].
        apply Hfail. lia.
      * rewrite Hrun. replace (n - i)%nat with (S (n - S i)) by lia.
        rewrite failed_rounds_S, Htry. done.
    + exists i. rewrite Htry. cbn [fst snd is_failure]. split; [lia |]. split; [| split; [| split]].
      * intros j Hj. by replace j with i by lia.
      * intros j Hj. lia.
      * intros _. lia.
      * rewrite SetDNS_loop_step. rewrite decide_False by done.
        by rewrite Nat.sub_diag.
  - exists i. rewrite Htry. cbn [fst snd is_failure]. split; [lia |]. split; [| split; [| split]].
    + intros j Hj. by replace j with i by lia.
    + intros j Hj. lia.
    + done.
    + by rewrite Nat.sub_diag.
  - exists i. rewrite Htry. cbn [fst snd is_failure]. split; [lia |]. split; [| split; [| split]].
    + intros j Hj. by replace j with i by lia.
    + intros j Hj. lia.
    + done.
    + by rewrite Nat.sub_diag.
Qed.

(** On a system that answers every call before [Reapply] and returns both
    sections, [trySet] calls [Reapply] once. *)
Lemma trySet_reaches_Reapply sys devicePath settings version ipv4Map ipv6Map :
  SystemBus sys = Ok tt ->
  GetDeviceByIpIface sys interfaceName = Ok devicePath ->
  GetAppliedConnection sys devicePath = Ok (settings, version) ->
  settings !! "ipv4"%string = Some ipv4Map ->
  settings !! "ipv6"%string = Some ipv6Map ->
  exists settings',
    snd (trySet Native WithTrailingDot sys interfaceName config)
    = [mkReapply devicePath settings' version].
Proof.
  intros Hbus Hdev Happlied H4 H6. unfold trySet, mutate_settings.
  rewrite Hbus, Hdev, Happlied, H4. rewrite lookup_insert_ne by done. rewrite H6.
  eexists. destruct (Reapply sys devicePath _ version); reflexivity.
Qed.

(** So a run with a positive timeout whose first attempt meets such a
    system submits a settings object. *)
Lemma submitted_on_ready_system devicePath settings version ipv4Map ipv6Map :
  0 < reconfigTimeout ->
  SystemBus (at_system (world 0%nat)) = Ok tt ->
  GetDeviceByIpIface (at_system (world 0%nat)) interfaceName = Ok devicePath ->
  GetAppliedConnection (at_system (world 0%nat)) devicePath = Ok (settings, version) ->
  settings !! "ipv4"%string = Some ipv4Map ->
  settings !! "ipv6"%string = Some ipv6Map ->
  exists settings',
    settings' ∈ submitted Native WithTrailingDot reconfigTimeout interfaceName config world.
Proof.
  intros Hpos Hbus Hdev Happlied H4 H6.
  destruct (trySet_reaches_Reapply _ _ _ _ _ _ Hbus Hdev Happlied H4 H6)
    as [settings' Hcalls].
  exists settings'. unfold submitted, SetDNS. fold loop.
  rewrite SetDNS_loop_step. rewrite decide_True by done.
  change (snd (tries 0%nat) = [mkReapply devicePath settings' version]) in Hcalls.
  destruct (tries 0%nat) as [[[e |] | msg] calls]; simpl in Hcalls; subst calls.
  - destruct (loop 1%nat _ (Some e)) as [o trace]. simpl.
    apply elem_of_cons. by left.
  - simpl. apply elem_of_cons. by left.
  - simpl. apply elem_of_cons. by left.
Qed.

End SetDNSFacts.

(** ** Priorities *)

Lemma example_run_no_nameservers :
  submitted LittleEndian trailing_dot_kept second "ctrld0" config_no_nameservers world_ready
  = [settings_no_nameservers].
Proof. vm_compute. reflexivity. Qed.

Lemma dnsv4_of_no_nameservers Native config :
  Nameservers config = [] -> dnsv4_of Native config = [].
Proof. unfold dnsv4_of. by intros ->. Qed.

Lemma dnsv6_of_no_nameservers Native config :
  Nameservers config = [] -> dnsv6_of Native config = [].
Proof. unfold dnsv6_of. by intros ->. Qed.

(** C8: with no nameserver in the configuration, every settings object
    [SetDNS] submits carries the lowest priority tier as [dns-priority] of
    the ipv4 section and of the ipv6 section, whatever the search and match
    domains are. *)
Theorem no_nameservers_lowest_priority
        (Native : ByteOrder) (WithTrailingDot : FQDN -> string) (reconfigTimeout : Z)
        (interfaceName : string) (config : OSConfig) (world : nat -> Attempt)
        (settings : nmConnectionSettings) :
  Nameservers config = [] ->
  settings ∈ submitted Native WithTrailingDot reconfigTimeout interfaceName config world ->
  property_of settings "ipv4" "dns-priority" = Some (VInt32 lowerPriority) /\
  property_of settings "ipv6" "dns-priority" = Some (VInt32 lowerPriority).
Proof.
  intros Hempty Hin.
  destruct (submitted_written _ _ _ _ _ _ _ Hin) as (_ & _ & Hp4 & _ & _ & Hp6).
  rewrite Hp4, Hp6.
  rewrite (dnsv4_of_no_nameservers _ _ Hempty), (dnsv6_of_no_nameservers _ _ Hempty).
  done.
Qed.

Lemma no_nameservers_lowest_priority_witness :
  Nameservers config_no_nameservers = [] /\
  settings_no_nameservers ∈ submitted LittleEndian trailing_dot_kept second "ctrld0"
                                      config_no_nameservers world_ready /\
  property_of settings_no_nameservers "ipv4" "dns-priority" = Some (VInt32 lowerPriority) /\
  property_of settings_no_nameservers "ipv6" "dns-priority" = Some (VInt32 lowerPriority).
Proof.
  assert (Hin : settings_no_nameservers
                ∈ submitted LittleEndian trailing_dot_kept second "ctrld0"
                            config_no_nameservers world_ready).
  { rewrite example_run_no_nameservers. apply list_elem_of_singleton. reflexivity. }
  split; [reflexivity |]. split; [exact Hin |].
  exact (no_nameservers_lowest_priority LittleEndian trailing_dot_kept second "ctrld0"
           config_no_nameservers world_ready settings_no_nameservers eq_refl Hin).
Defined.

Lemma example_run_one_ipv4 :
  submitted LittleEndian trailing_dot_kept second "ctrld0" config_one_ipv4 world_ready
  = [settings_one_ipv4].
Proof. vm_compute. reflexivity. Qed.

Lemma example_run_repeated_nameservers :
  submitted LittleEndian trailing_dot_kept second "ctrld0"
            config_repeated_nameservers world_ready
  = [settings_repeated_nameservers].
Proof. vm_compute. reflexivity. Qed.

Lemma example_run_distinct_nameservers :
  submitted LittleEndian trailing_dot_kept second "ctrld0"
            config_distinct_nameservers world_ready
  = [settings_distinct_nameservers].
Proof. vm_compute. reflexivity. Qed.

Lemma example_run_match_within_search :
  submitted LittleEndian trailing_dot_kept second "ctrld0"
            config_match_within_search world_ready
  = [settings_match_within_search].
Proof. vm_compute. reflexivity. Qed.

Lemma example_run_split :
  submitted LittleEndian trailing_dot_kept second "ctrld0" config_split world_ready
  = [settings_split].
Proof. vm_compute. reflexivity. Qed.

Lemma example_run_late :
  SetDNS LittleEndian trailing_dot_kept second "ctrld0" config_one_ipv4 (world_ready_at 2)
  = (Returned None,
     [EvTry 0 (Returned (Some "getDeviceByIpIface: No device found for the requested iface.")) [];
      EvSleep 10000000;
      EvTry 1 (Returned (Some "getDeviceByIpIface: No device found for the requested iface.")) [];
      EvSleep 10000000;
      EvTry 2 (Returned None)
            [mkReapply "/org/freedesktop/NetworkManager/Devices/2" settings_one_ipv4 3]]).
Proof. vm_compute. reflexivity. Qed.

(** ** The nameserver lists *)

Lemma translate_nameservers_filter Native ns dnsv4 dnsv6 :
  translate_nameservers Native ns dnsv4 dnsv6
  = (dnsv4 ++ map (wire4 Native) (List.filter Is4 ns),
     dnsv6 ++ map As16 (List.filter not4 ns)).
Proof.
  revert dnsv4 dnsv6. induction ns as [| ip ns IH]; intros dnsv4 dnsv6; simpl.
  - by rewrite !app_nil_r.
  - unfold not4 at 1. destruct (Is4 ip); simpl; rewrite IH.
    + by rewrite <- app_assoc.
    + by rewrite <- app_assoc.
Qed.

Lemma dnsv4_of_filter Native config :
  dnsv4_of Native config = map (wire4 Native) (List.filter Is4 (Nameservers config)).
Proof. unfold dnsv4_of. by rewrite translate_nameservers_filter. Qed.

Lemma dnsv6_of_filter Native config :
  dnsv6_of Native config = map As16 (List.filter not4 (Nameservers config)).
Proof. unfold dnsv6_of. by rewrite translate_nameservers_filter. Qed.

Lemma filter_nil_existsb {A} (p : A -> bool) (l : list A) :
  List.filter p l = [] <-> existsb p l = false.
Proof.
  induction l as [| a l IH]; simpl; [done |].
  destruct (p a); simpl; [split; discriminate | exact IH].
Qed.

Lemma existsb_not4 ns : existsb not4 ns = negb (forallb Is4 ns).
Proof.
  induction ns as [| ip ns IH]; simpl; [done |].
  unfold not4 at 1. rewrite IH. by destruct (Is4 ip).
Qed.

Lemma priority_of_full_routing {A} (dns : list A) config :
  MatchDomains config = [] ->
  priority_of dns config
  = if bool_decide (dns = []) then lowerPriority else highestPriority.
Proof.
  unfold priority_of. intros ->.
  destruct dns; [done |].
  rewrite !bool_decide_eq_false_2; [done | done | simpl; lia | done].
Qed.

Lemma dnsv4_priority_full_routing Native config :
  MatchDomains config = [] ->
  priority_of (dnsv4_of Native config) config
  = if existsb Is4 (Nameservers config) then highestPriority else lowerPriority.
Proof.
  intros Hm. rewrite (priority_of_full_routing _ _ Hm), dnsv4_of_filter.
  destruct (existsb Is4 (Nameservers config)) eqn:He.
  - rewrite bool_decide_eq_false_2; [done |].
    intros Hnil. apply fmap_nil_inv in Hnil. apply filter_nil_existsb in Hnil. congruence.
  - apply filter_nil_existsb in He. by rewrite He.
Qed.

Lemma dnsv6_priority_full_routing Native config :
  MatchDomains config = [] ->
  priority_of (dnsv6_of Native config) config
  = if forallb Is4 (Nameservers config) then lowerPriority else highestPriority.
Proof.
  intros Hm. rewrite (priority_of_full_routing _ _ Hm), dnsv6_of_filter.
  pose proof (existsb_not4 (Nameservers config)) as Hex.
  destruct (forallb Is4 (Nameservers config)); simpl in Hex.
  - apply filter_nil_existsb in Hex. by rewrite Hex.
  - rewrite bool_decide_eq_false_2; [done |].
    intros Hnil. apply fmap_nil_inv in Hnil. apply filter_nil_existsb in Hnil. congruence.
Qed.

Lemma some_family_present ns :
  ns <> [] -> existsb Is4 ns = true \/ forallb Is4 ns = false.
Proof.
  destruct ns as [| ip ns]; [done |]. intros _. simpl.
  destruct (Is4 ip); simpl; [by left | by right].
Qed.

(** C4, as the code has it: with nameservers and no match domain, every
    settings object [SetDNS] submits carries the highest priority tier in
    the section of each address family that has a nameserver, so in at
    least one of the two sections, and the lowest tier in the section of a
    family that has none. *)
Theorem full_routing_priority_per_family
        (Native : ByteOrder) (WithTrailingDot : FQDN -> string) (reconfigTimeout : Z)
        (interfaceName : string) (config : OSConfig) (world : nat -> Attempt)
        (settings : nmConnectionSettings) :
  Nameservers config <> [] ->
  MatchDomains config = [] ->
  settings ∈ submitted Native WithTrailingDot reconfigTimeout interfaceName config world ->
  property_of settings "ipv4" "dns-priority"
    = Some (VInt32 (if existsb Is4 (Nameservers config)
                    then highestPriority else lowerPriority)) /\
  property_of settings "ipv6" "dns-priority"
    = Some (VInt32 (if forallb Is4 (Nameservers config)
                    then lowerPriority else highestPriority)) /\
  (property_of settings "ipv4" "dns-priority" = Some (VInt32 highestPriority) \/
   property_of settings "ipv6" "dns-priority" = Some (VInt32 highestPriority)).
Proof.
  intros Hns Hmatch Hin.
  destruct (submitted_written _ _ _ _ _ _ _ Hin) as (_ & _ & Hp4 & _ & _ & Hp6).
  rewrite Hp4, Hp6.
  rewrite (dnsv4_priority_full_routing _ _ Hmatch), (dnsv6_priority_full_routing _ _ Hmatch).
  split; [done |]. split; [done |].
  destruct (some_family_present _ Hns) as [-> | ->]; [by left | by right].
Qed.

Lemma example_one_ipv4_submitted :
  settings_one_ipv4 ∈ submitted LittleEndian trailing_dot_kept second "ctrld0"
                                config_one_ipv4 world_ready.
Proof. rewrite example_run_one_ipv4. by apply list_elem_of_singleton. Qed.

Lemma full_routing_priority_per_family_witness :
  Nameservers config_one_ipv4 <> [] /\
  MatchDomains config_one_ipv4 = [] /\
  settings_one_ipv4 ∈ submitted LittleEndian trailing_dot_kept second "ctrld0"
                                config_one_ipv4 world_ready /\
  property_of settings_one_ipv4 "ipv4" "dns-priority" = Some (VInt32 highestPriority) /\
  property_of settings_one_ipv4 "ipv6" "dns-priority" = Some (VInt32 lowerPriority).
Proof.
  assert (Hns : Nameservers config_one_ipv4 <> []) by discriminate.
  split; [exact Hns |]. split; [reflexivity |].
  split; [exact example_one_ipv4_submitted |].
  destruct (full_routing_priority_per_family LittleEndian trailing_dot_kept second "ctrld0"
              config_one_ipv4 world_ready settings_one_ipv4 Hns eq_refl
              example_one_ipv4_submitted) as (H4 & H6 & _).
  split; [exact H4 | exact H6].
Defined.

(** C4, as stated, fails: with the single nameserver 10.0.0.1 and no match
    domain, the ipv6 section is given the lowest priority tier, not the
    highest. *)
Lemma single_family_other_section_lowest :
  Nameservers config_one_ipv4 <> [] /\
  MatchDomains config_one_ipv4 = [] /\
  settings_one_ipv4 ∈ submitted LittleEndian trailing_dot_kept second "ctrld0"
                                config_one_ipv4 world_ready /\
  property_of settings_one_ipv4 "ipv6" "dns-priority" = Some (VInt32 lowerPriority) /\
  property_of settings_one_ipv4 "ipv6" "dns-priority" <> Some (VInt32 highestPriority).
Proof.
  split; [discriminate |]. split; [reflexivity |].
  split; [exact example_one_ipv4_submitted |].
  split; [reflexivity | discriminate].
Qed.

(** ** Duplicates among the nameservers *)

Lemma byte_testbit_high x n : 0 <= x < 256 -> 8 <= n -> Z.testbit x n = false.
Proof.
  intros Hx Hn. destruct (Z.eq_dec x 0) as [-> | Hne]; [apply Z.bits_0 |].
  apply Z.bits_above_log2; [lia |].
  apply Z.lt_le_trans with 8; [| lia]. apply Z.log2_lt_pow2; lia.
Qed.

Lemma pack4_byte0 x0 x1 x2 x3 :
  0 <= x0 < 256 -> Z.land (pack4 x0 x1 x2 x3) 255 = x0.
Proof.
  intros H0. unfold pack4. apply Z.bits_inj'. intros n Hn.
  change 255 with (Z.ones 8).
  rewrite Z.land_spec, !Z.lor_spec, !Z.shiftl_spec by lia.
  destruct (Z.lt_ge_cases n 8) as [Hlt | Hge].
  - rewrite Z.ones_spec_low by lia.
    rewrite !(Z.testbit_neg_r _ (n - _)) by lia.
    rewrite !Bool.orb_false_r. apply Bool.andb_true_r.
  - rewrite Z.ones_spec_high by lia. rewrite Bool.andb_false_r.
    symmetry. by apply byte_testbit_high.
Qed.

Lemma pack4_shift x0 x1 x2 x3 :
  0 <= x0 < 256 -> Z.shiftr (pack4 x0 x1 x2 x3) 8 = Z.lor (Z.lor x1 (Z.shiftl x2 8)) (Z.shiftl x3 16).
Proof.
  intros H0. unfold pack4. apply Z.bits_inj'. intros n Hn.
  rewrite Z.shiftr_spec, !Z.lor_spec, !Z.shiftl_spec by lia.
  rewrite (byte_testbit_high x0) by lia. simpl.
  repeat match goal with |- orb _ _ = orb _ _ => f_equal end; apply f_equal; lia.
Qed.

Lemma pack4_inj x0 x1 x2 x3 y0 y1 y2 y3 :
  0 <= x0 < 256 -> 0 <= x1 < 256 -> 0 <= x2 < 256 -> 0 <= x3 < 256 ->
  0 <= y0 < 256 -> 0 <= y1 < 256 -> 0 <= y2 < 256 -> 0 <= y3 < 256 ->
  pack4 x0 x1 x2 x3 = pack4 y0 y1 y2 y3 ->
  x0 = y0 /\ x1 = y1 /\ x2 = y2 /\ x3 = y3.
Proof.
  intros Hx0 Hx1 Hx2 Hx3 Hy0 Hy1 Hy2 Hy3 H.
  assert (E0 : x0 = y0).
  { rewrite <- (pack4_byte0 x0 x1 x2 x3), <- (pack4_byte0 y0 y1 y2 y3) by lia. now rewrite H. }
  assert (H1 : pack4 x1 x2 x3 0 = pack4 y1 y2 y3 0).
  { unfold pack4 at 1 2. rewrite !Z.shiftl_0_l, !Z.lor_0_r.
    rewrite <- (pack4_shift x0), <- (pack4_shift y0) by lia. now rewrite H. }
  assert (E1 : x1 = y1).
  { rewrite <- (pack4_byte0 x1 x2 x3 0), <- (pack4_byte0 y1 y2 y3 0) by lia. now rewrite H1. }
  assert (H2 : pack4 x2 x3 0 0 = pack4 y2 y3 0 0).
  { unfold pack4 at 1 2. rewrite !Z.shiftl_0_l, !Z.lor_0_r.
    apply (f_equal (fun v => Z.shiftr v 8)) in H1.
    rewrite !pack4_shift in H1 by lia. now rewrite !Z.shiftl_0_l, !Z.lor_0_r in H1. }
  assert (E2 : x2 = y2).
  { rewrite <- (pack4_byte0 x2 x3 0 0), <- (pack4_byte0 y2 y3 0 0) by lia. now rewrite H2. }
  assert (H3 : pack4 x3 0 0 0 = pack4 y3 0 0 0).
  { unfold pack4 at 1 2. rewrite !Z.shiftl_0_l, !Z.lor_0_r.
    apply (f_equal (fun v => Z.shiftr v 8)) in H2.
    rewrite !pack4_shift in H2 by lia. now rewrite !Z.shiftl_0_l, !Z.lor_0_r in H2. }
  assert (E3 : x3 = y3).
  { rewrite <- (pack4_byte0 x3 0 0 0), <- (pack4_byte0 y3 0 0 0) by lia. now rewrite H3. }
  auto.
Qed.

Lemma Uint32_pack4 o a b c d :
  Uint32 o [a; b; c; d]
  = match o with
    | LittleEndian => pack4 (byteZ a) (byteZ b) (byteZ c) (byteZ d)
    | BigEndian => pack4 (byteZ d) (byteZ c) (byteZ b) (byteZ a)
    end.
Proof. by destruct o. Qed.

Lemma Uint32_inj o a b c d a' b' c' d' :
  Uint32 o [a; b; c; d] = Uint32 o [a'; b'; c'; d'] ->
  a = a' /\ b = b' /\ c = c' /\ d = d'.
Proof.
  rewrite !Uint32_pack4.
  pose proof (byteZ_range a). pose proof (byteZ_range b).
  pose proof (byteZ_range c). pose proof (byteZ_range d).
  pose proof (byteZ_range a'). pose proof (byteZ_range b').
  pose proof (byteZ_range c'). pose proof (byteZ_range d').
  destruct o; intros Heq; apply pack4_inj in Heq; try done;
    destruct Heq as (E0 & E1 & E2 & E3);
    apply byteZ_inj in E0, E1, E2, E3; done.
Qed.

Lemma wire4_inj Native ip ip' :
  Is4 ip = true -> Is4 ip' = true -> wire4 Native ip = wire4 Native ip' -> ip = ip'.
Proof.
  destruct ip as [| a b c d |]; try done. destruct ip' as [| a' b' c' d' |]; try done.
  intros _ _. unfold wire4. simpl. intros Heq.
  apply Uint32_inj in Heq as (-> & -> & -> & ->). done.
Qed.

Lemma elem_of_map_filter {A B} (f : A -> B) (p : A -> bool) (l : list A) (y : B) :
  y ∈ map f (List.filter p l) -> y ∈ map f l.
Proof.
  rewrite !list_elem_of_fmap. intros (x & -> & Hx). exists x. split; [done |].
  apply list_elem_of_In. apply list_elem_of_In in Hx. apply filter_In in Hx. tauto.
Qed.

Lemma NoDup_map_filter {A B} (f : A -> B) (p : A -> bool) (l : list A) :
  NoDup (map f l) -> NoDup (map f (List.filter p l)).
Proof.
  induction l as [| a l IH]; simpl; intros Hnd; [done |].
  apply NoDup_cons in Hnd as [Hnot Hnd].
  destruct (p a); simpl; [| by apply IH].
  apply NoDup_cons. split; [| by apply IH].
  intros Hin. apply Hnot. eapply elem_of_map_filter. exact Hin.
Qed.

Lemma NoDup_wire4 Native ns :
  NoDup (map As16 ns) -> NoDup (map (wire4 Native) (List.filter Is4 ns)).
Proof.
  intros Hnd. apply (NoDup_map_filter As16 Is4) in Hnd. apply NoDup_fmap_1 in Hnd.
  apply NoDup_fmap_2_strong; [| done].
  intros x y Hx Hy. apply list_elem_of_In, filter_In in Hx, Hy.
  apply wire4_inj; tauto.
Qed.

Lemma filter_split_length (ns : list Addr) :
  (length (List.filter Is4 ns) + length (List.filter not4 ns) = length ns)%nat.
Proof.
  induction ns as [| ip ns IH]; simpl; [done |].
  unfold not4 at 1. destruct (Is4 ip); simpl; lia.
Qed.

(** C2, as the code has it: for every configuration, each settings
    object [SetDNS] submits lists the 32-bit form of every IPv4 entry of
    [config.Nameservers] and the 16-byte form of every other entry, one per
    entry and in order, without removing duplicates, so the two lists
    together have as many entries as [config.Nameservers]; the two lists
    are free of duplicates when no two entries of [config.Nameservers] have
    the same 16-byte form. *)
Theorem nameserver_lists_follow_config
        (Native : ByteOrder) (WithTrailingDot : FQDN -> string) (reconfigTimeout : Z)
        (interfaceName : string) (config : OSConfig) (world : nat -> Attempt)
        (settings : nmConnectionSettings) :
  settings ∈ submitted Native WithTrailingDot reconfigTimeout interfaceName config world ->
  exists dnsv4 dnsv6,
    property_of settings "ipv4" "dns" = Some (VUint32s dnsv4) /\
    property_of settings "ipv6" "dns" = Some (VByteArrays dnsv6) /\
    dnsv4 = map (wire4 Native) (List.filter Is4 (Nameservers config)) /\
    dnsv6 = map As16 (List.filter not4 (Nameservers config)) /\
    (length dnsv4 + length dnsv6 = length (Nameservers config))%nat /\
    (NoDup (map As16 (Nameservers config)) -> NoDup dnsv4 /\ NoDup dnsv6).
Proof.
  intros Hin.
  destruct (submitted_written _ _ _ _ _ _ _ Hin) as (Hd4 & _ & _ & Hd6 & _ & _).
  exists (dnsv4_of Native config), (dnsv6_of Native config).
  split; [done |]. split; [done |].
  rewrite dnsv4_of_filter, dnsv6_of_filter.
  split; [done |]. split; [done |]. split.
  - rewrite !length_map. apply filter_split_length.
  - intros Hnd. split; [by apply NoDup_wire4 | by apply NoDup_map_filter].
Qed.

Lemma example_distinct_nameservers_NoDup :
  NoDup (map As16 (Nameservers config_distinct_nameservers)).
Proof. apply (bool_decide_unpack _). vm_compute. exact I. Qed.

Lemma example_distinct_nameservers_submitted :
  settings_distinct_nameservers
  ∈ submitted LittleEndian trailing_dot_kept second "ctrld0"
              config_distinct_nameservers world_ready.
Proof. rewrite example_run_distinct_nameservers. by apply list_elem_of_singleton. Qed.

Lemma nameserver_lists_follow_config_witness :
  settings_distinct_nameservers
  ∈ submitted LittleEndian trailing_dot_kept second "ctrld0"
              config_distinct_nameservers world_ready /\
  property_of settings_distinct_nameservers "ipv4" "dns"
    = Some (VUint32s [16777226; 33554442]) /\
  property_of settings_distinct_nameservers "ipv6" "dns"
    = Some (VByteArrays [loopback6]) /\
  NoDup (map As16 (Nameservers config_distinct_nameservers)) /\
  exists dnsv4 dnsv6,
    property_of settings_distinct_nameservers "ipv4" "dns" = Some (VUint32s dnsv4) /\
    property_of settings_distinct_nameservers "ipv6" "dns" = Some (VByteArrays dnsv6) /\
    dnsv4 = map (wire4 LittleEndian)
                (List.filter Is4 (Nameservers config_distinct_nameservers)) /\
    dnsv6 = map As16 (List.filter not4 (Nameservers config_distinct_nameservers)) /\
    (length dnsv4 + length dnsv6
     = length (Nameservers config_distinct_nameservers))%nat /\
    (NoDup (map As16 (Nameservers config_distinct_nameservers)) ->
     NoDup dnsv4 /\ NoDup dnsv6).
Proof.
  split; [exact example_distinct_nameservers_submitted |].
  split; [reflexivity |]. split; [reflexivity |].
  split; [exact example_distinct_nameservers_NoDup |].
  exact (nameserver_lists_follow_config LittleEndian trailing_dot_kept second "ctrld0"
           config_distinct_nameservers world_ready settings_distinct_nameservers
           example_distinct_nameservers_submitted).
Defined.

(** C2, as stated, fails: a nameserver that occurs twice in
    [config.Nameservers] is written twice, in the IPv4 list and in the IPv6
    list alike. *)
Lemma repeated_nameserver_written_twice :
  settings_repeated_nameservers
  ∈ submitted LittleEndian trailing_dot_kept second "ctrld0"
              config_repeated_nameservers world_ready /\
  property_of settings_repeated_nameservers "ipv4" "dns"
    = Some (VUint32s [16777226; 16777226]) /\
  ~ NoDup [16777226; 16777226] /\
  property_of settings_repeated_nameservers "ipv6" "dns"
    = Some (VByteArrays [loopback6; loopback6]) /\
  ~ NoDup [loopback6; loopback6].
Proof.
  split.
  { rewrite example_run_repeated_nameservers. by apply list_elem_of_singleton. }
  split; [reflexivity |]. split.
  { intros Hnd. apply NoDup_cons in Hnd as [Hnot _]. apply Hnot.
    by apply list_elem_of_singleton. }
  split; [reflexivity |].
  intros Hnd. apply NoDup_cons in Hnd as [Hnot _]. apply Hnot.
  by apply list_elem_of_singleton.
Qed.

(** ** The search-domain list that is submitted *)

(** C5: in every settings object [SetDNS] submits, the search-domain list
    of both sections is the list the specification describes: every search
    domain first and in order, in its form with a trailing dot; then every
    match domain in order, with a tilde in front; of a domain that occurs
    more than once only the first occurrence is kept, across both lists, so
    a domain in both lists appears once and in its search-domain form; and
    the entry "~." is appended if and only if there is no match domain. *)
Theorem submitted_search_list_is_spec
        (Native : ByteOrder) (WithTrailingDot : FQDN -> string) (reconfigTimeout : Z)
        (interfaceName : string) (config : OSConfig) (world : nat -> Attempt)
        (settings : nmConnectionSettings) :
  settings ∈ submitted Native WithTrailingDot reconfigTimeout interfaceName config world ->
  property_of settings "ipv4" "dns-search"
    = Some (VStrings (spec_search_list WithTrailingDot config)) /\
  property_of settings "ipv6" "dns-search"
    = Some (VStrings (spec_search_list WithTrailingDot config)).
Proof.
  intros Hin.
  destruct (submitted_written _ _ _ _ _ _ _ Hin) as (_ & Hs4 & _ & _ & Hs6 & _).
  rewrite Hs4, Hs6, search_of_refines_spec. done.
Qed.

Lemma example_split_submitted :
  settings_split ∈ submitted LittleEndian trailing_dot_kept second "ctrld0"
                             config_split world_ready.
Proof. rewrite example_run_split. by apply list_elem_of_singleton. Qed.

Lemma example_split_spec_list :
  spec_search_list trailing_dot_kept config_split
  = ["corp.example."; "lab.example."; "~internal.example."]%string.
Proof. vm_compute. reflexivity. Qed.

Lemma example_full_routing_spec_list :
  spec_search_list trailing_dot_kept config_one_ipv4 = ["~."%string].
Proof. vm_compute. reflexivity. Qed.

Lemma submitted_search_list_is_spec_witness :
  settings_split ∈ submitted LittleEndian trailing_dot_kept second "ctrld0"
                             config_split world_ready /\
  property_of settings_split "ipv4" "dns-search"
    = Some (VStrings (spec_search_list trailing_dot_kept config_split)) /\
  property_of settings_split "ipv6" "dns-search"
    = Some (VStrings (spec_search_list trailing_dot_kept config_split)).
Proof.
  split; [exact example_split_submitted |].
  exact (submitted_search_list_is_spec LittleEndian trailing_dot_kept second "ctrld0"
           config_split world_ready settings_split example_split_submitted).
Defined.

(** C10, as the code has it: when there are match domains and each of
    them is a search domain too, the search-domain list of every settings
    object [SetDNS] submits holds the search domains only, each once, at
    its first occurrence and in its search-domain form: the match-domain
    loop appends no entry with the tilde marker and the all-domains entry
    "~." is not appended. The entries are exactly the written forms of the
    search domains, so the list has an entry that begins with a tilde if
    and only if a search domain is itself written with a leading tilde. *)
Theorem match_domains_within_search_domains
        (Native : ByteOrder) (WithTrailingDot : FQDN -> string) (reconfigTimeout : Z)
        (interfaceName : string) (config : OSConfig) (world : nat -> Attempt)
        (settings : nmConnectionSettings) :
  MatchDomains config <> [] ->
  (forall d, d ∈ MatchDomains config -> d ∈ SearchDomains config) ->
  settings ∈ submitted Native WithTrailingDot reconfigTimeout interfaceName config world ->
  exists search,
    property_of settings "ipv4" "dns-search" = Some (VStrings search) /\
    property_of settings "ipv6" "dns-search" = Some (VStrings search) /\
    search = map (fun e => WithTrailingDot (domain_of e))
                 (first_seen_wins (map FromSearch (SearchDomains config))) /\
    NoDup (map domain_of (first_seen_wins (map FromSearch (SearchDomains config)))) /\
    (forall entry, entry ∈ search <->
                   exists d, d ∈ SearchDomains config /\ entry = WithTrailingDot d) /\
    ((exists entry, entry ∈ search /\ tilde_prefixed entry) <->
     (exists d, d ∈ SearchDomains config /\ tilde_prefixed (WithTrailingDot d))).
Proof.
  intros Hne Hsub Hin.
  destruct (submitted_written _ _ _ _ _ _ _ Hin) as (_ & Hs4 & _ & _ & Hs6 & _).
  exists (search_of WithTrailingDot config).
  split; [done |]. split; [done |].
  rewrite (search_of_match_within_search _ _ Hne Hsub).
  split; [done |]. split; [apply first_seen_wins_NoDup |].
  assert (Hfrom : forall entry,
             entry ∈ map (fun e => WithTrailingDot (domain_of e))
                         (first_seen_wins (map FromSearch (SearchDomains config))) <->
             exists d, d ∈ SearchDomains config /\ entry = WithTrailingDot d).
  { intros entry. split.
    - intros He. apply list_elem_of_fmap in He as (e & -> & He).
      exists (domain_of e). split; [| done].
      rewrite <- (map_domain_FromSearch (SearchDomains config)).
      apply first_seen_wins_domains. apply list_elem_of_fmap. by exists e.
    - intros (d & Hd & ->).
      rewrite <- (map_domain_FromSearch (SearchDomains config)) in Hd.
      apply first_seen_wins_domains in Hd.
      apply list_elem_of_fmap in Hd as (e & -> & He).
      apply list_elem_of_fmap. by exists e. }
  split; [exact Hfrom |]. split.
  - intros (entry & He & Htilde). apply Hfrom in He as (d & Hd & ->). by exists d.
  - intros (d & Hd & Htilde). exists (WithTrailingDot d). split; [| done].
    apply Hfrom. by exists d.
Qed.

Lemma example_match_within_search_submitted :
  settings_match_within_search
  ∈ submitted LittleEndian trailing_dot_kept second "ctrld0"
              config_match_within_search world_ready.
Proof. rewrite example_run_match_within_search. by apply list_elem_of_singleton. Qed.

Lemma example_match_within_search_subset :
  forall d, d ∈ MatchDomains config_match_within_search ->
            d ∈ SearchDomains config_match_within_search.
Proof.
  intros d. unfold config_match_within_search. simpl.
  rewrite !elem_of_cons, !elem_of_nil. tauto.
Qed.

Lemma match_domains_within_search_domains_witness :
  MatchDomains config_match_within_search <> [] /\
  (forall d, d ∈ MatchDomains config_match_within_search ->
             d ∈ SearchDomains config_match_within_search) /\
  settings_match_within_search
  ∈ submitted LittleEndian trailing_dot_kept second "ctrld0"
              config_match_within_search world_ready /\
  property_of settings_match_within_search "ipv4" "dns-search"
    = Some (VStrings ["corp.example."; "lab.example."]%string) /\
  exists search,
    property_of settings_match_within_search "ipv4" "dns-search" = Some (VStrings search) /\
    property_of settings_match_within_search "ipv6" "dns-search" = Some (VStrings search) /\
    search = map (fun e => trailing_dot_kept (domain_of e))
                 (first_seen_wins
                    (map FromSearch (SearchDomains config_match_within_search))) /\
    NoDup (map domain_of
               (first_seen_wins
                  (map FromSearch (SearchDomains config_match_within_search)))) /\
    (forall entry, entry ∈ search <->
                   exists d, d ∈ SearchDomains config_match_within_search /\
                             entry = trailing_dot_kept d) /\
    ((exists entry, entry ∈ search /\ tilde_prefixed entry) <->
     (exists d, d ∈ SearchDomains config_match_within_search /\
                tilde_prefixed (trailing_dot_kept d))).
Proof.
  assert (Hne : MatchDomains config_match_within_search <> []) by discriminate.
  split; [exact Hne |].
  split; [exact example_match_within_search_subset |].
  split; [exact example_match_within_search_submitted |].
  split; [reflexivity |].
  exact (match_domains_within_search_domains LittleEndian trailing_dot_kept second "ctrld0"
           config_match_within_search world_ready settings_match_within_search
           Hne example_match_within_search_subset example_match_within_search_submitted).
Defined.

Lemma example_run_tilde_domain :
  submitted LittleEndian trailing_dot_kept second "ctrld0" config_tilde_domain world_ready
  = [settings_tilde_domain].
Proof. vm_compute. reflexivity. Qed.

(** C10, as stated, fails: with the search domain "~a." that is the only
    match domain too, the hypotheses of the claim hold and the one entry of
    the submitted search-domain list is "~a.", which begins with a tilde. *)
Lemma tilde_search_domain_is_submitted :
  MatchDomains config_tilde_domain <> [] /\
  (forall d, d ∈ MatchDomains config_tilde_domain -> d ∈ SearchDomains config_tilde_domain) /\
  settings_tilde_domain
  ∈ submitted LittleEndian trailing_dot_kept second "ctrld0"
              config_tilde_domain world_ready /\
  property_of settings_tilde_domain "ipv4" "dns-search" = Some (VStrings ["~a."%string]) /\
  property_of settings_tilde_domain "ipv6" "dns-search" = Some (VStrings ["~a."%string]) /\
  tilde_prefixed "~a." /\
  ~ (forall entry, entry ∈ ["~a."%string] -> ~ tilde_prefixed entry).
Proof.
  split; [discriminate |]. split; [done |].
  split; [rewrite example_run_tilde_domain; by apply list_elem_of_singleton |].
  split; [reflexivity |]. split; [reflexivity |]. split; [reflexivity |].
  intros Hnone. apply (Hnone "~a."%string); [by apply list_elem_of_singleton | reflexivity].
Qed.

(** ** The retry loop *)

(** C9: with a positive timeout, a run of [SetDNS] ends with some attempt
    [n]. Every attempt before [n] failed, was followed by a sleep of ten
    milliseconds, and the next attempt started before the deadline. If
    attempt [n] succeeds the run returns at once, with no sleep after it
    (it is the first success, all earlier attempts having failed); if it
    fails, the run sleeps once more, finds the deadline passed, and returns
    the error of that last attempt. *)
Theorem SetDNS_retries_until_success_or_deadline
        (Native : ByteOrder) (WithTrailingDot : FQDN -> string) (reconfigTimeout : Z)
        (interfaceName : string) (config : OSConfig) (world : nat -> Attempt) :
  0 < reconfigTimeout ->
  exists n,
    (forall j, (j <= n)%nat -> clock world j < reconfigTimeout) /\
    (forall j, (j < n)%nat ->
       is_failure (fst (attempt Native WithTrailingDot interfaceName config world j)) = true) /\
    (is_failure (fst (attempt Native WithTrailingDot interfaceName config world n)) = true ->
     reconfigTimeout <= clock world (S n)) /\
    SetDNS Native WithTrailingDot reconfigTimeout interfaceName config world
    = (fst (attempt Native WithTrailingDot interfaceName config world n),
       run_until (attempt Native WithTrailingDot interfaceName config world) n).
Proof.
  intros Hpos.
  destruct (SetDNS_loop_run Native WithTrailingDot reconfigTimeout interfaceName config
              world 0 None Hpos) as (n & _ & Hclock & Hfail & Hstop & Hrun).
  exists n. split; [| split; [| split; [exact Hstop |]]].
  - intros j Hj. apply Hclock. lia.
  - intros j Hj. apply Hfail. lia.
  - unfold SetDNS, run_until. simpl in Hrun. rewrite Hrun.
    by rewrite Nat.sub_0_r.
Qed.

Lemma SetDNS_retries_until_success_or_deadline_witness :
  0 < second /\
  exists n,
    (forall j, (j <= n)%nat -> clock (world_ready_at 2) j < second) /\
    (forall j, (j < n)%nat ->
       is_failure (fst (attempt LittleEndian trailing_dot_kept "ctrld0" config_one_ipv4
                                (world_ready_at 2) j)) = true) /\
    (is_failure (fst (attempt LittleEndian trailing_dot_kept "ctrld0" config_one_ipv4
                              (world_ready_at 2) n)) = true ->
     second <= clock (world_ready_at 2) (S n)) /\
    SetDNS LittleEndian trailing_dot_kept second "ctrld0" config_one_ipv4 (world_ready_at 2)
    = (fst (attempt LittleEndian trailing_dot_kept "ctrld0" config_one_ipv4
                    (world_ready_at 2) n),
       run_until (attempt LittleEndian trailing_dot_kept "ctrld0" config_one_ipv4
                          (world_ready_at 2)) n).
Proof.
  assert (Hpos : 0 < second) by reflexivity.
  split; [exact Hpos |].
  exact (SetDNS_retries_until_success_or_deadline LittleEndian trailing_dot_kept second
           "ctrld0" config_one_ipv4 (world_ready_at 2) Hpos).
Defined.

(** A run that never succeeds: three attempts fit into 25 milliseconds, and
    the error of the third is returned. *)
Lemma example_run_deadline :
  SetDNS LittleEndian trailing_dot_kept 25000000 "ctrld0" config_one_ipv4 world_never_ready
  = (Returned (Some "getDeviceByIpIface: No device found for the requested iface."),
     [EvTry 0 (Returned (Some "getDeviceByIpIface: No device found for the requested iface.")) [];
      EvSleep 10000000;
      EvTry 1 (Returned (Some "getDeviceByIpIface: No device found for the requested iface.")) [];
      EvSleep 10000000;
      EvTry 2 (Returned (Some "getDeviceByIpIface: No device found for the requested iface.")) [];
      EvSleep 10000000]).
Proof. vm_compute. reflexivity. Qed.

Lemma example_run_until_late :
  run_until (attempt LittleEndian trailing_dot_kept "ctrld0" config_one_ipv4
                     (world_ready_at 2)) 2
  = snd (SetDNS LittleEndian trailing_dot_kept second "ctrld0" config_one_ipv4
                (world_ready_at 2)).
Proof. vm_compute. reflexivity. Qed.

(** ** Discovery: the buffer loop *)

Lemma adapterAddresses_loop_step (os : nat -> Z -> Response) (k : nat) (l : Z) :
  adapterAddresses_loop os k l =
  let r := os k l in
  if decide (status r = 0) then (success_result r, S k)
  else if decide (status r = ERROR_BUFFER_OVERFLOW) then
         if decide (uint32 (size_out r) <= l)
         then (SyscallError "getadaptersaddresses" (status r), S k)
         else adapterAddresses_loop os (S k) (uint32 (size_out r))
       else (SyscallError "getadaptersaddresses" (status r), S k).
Proof.
  simp adapterAddresses_loop. cbv zeta. unfold success_result.
  destruct (decide (status (os k l) = 0)); simpl.
  { by destruct (bool_decide _). }
  destruct (decide (status (os k l) = ERROR_BUFFER_OVERFLOW)); simpl; [| done].
  destruct (decide (uint32 (size_out (os k l)) <= l)); simpl; done.
Qed.

Lemma example_discovery_growing :
  adapterAddresses os_growing
  = (Adapters [adapters_example; Adapter None None], 3%nat).
Proof. vm_compute. reflexivity. Qed.

Lemma example_discovery_stuck :
  adapterAddresses os_stuck = (SyscallError "getadaptersaddresses" 111, 2%nat).
Proof. vm_compute. reflexivity. Qed.

Lemma example_nameservers_growing :
  nameservers os_growing = ["8.8.8.8:53"%string].
Proof. vm_compute. reflexivity. Qed.

Lemma last_cons_default {A} (a : A) (t : list A) (d d' : A) :
  List.last (a :: t) d = List.last (a :: t) d'.
Proof.
  revert a. induction t as [| b t IH]; intros a; [done |].
  change (List.last (b :: t) d = List.last (b :: t) d'). apply IH.
Qed.

(** The loop entered for call [k] with a buffer of [l] bytes, on a system
    that next asks for the sizes [sizes] in turn, reaches the call after
    them with the last of these sizes. *)
Lemma adapterAddresses_loop_grows (os : nat -> Z -> Response) (sizes : list Z) :
  forall k l,
    0 <= l ->
    increasing_from l sizes ->
    (forall j l', (j < length sizes)%nat ->
       status (os (k + j)%nat l') = ERROR_BUFFER_OVERFLOW /\
       size_out (os (k + j)%nat l') = nth j sizes 0) ->
    adapterAddresses_loop os k l
    = adapterAddresses_loop os (k + length sizes)%nat (List.last sizes l).
Proof.
  induction sizes as [| s sizes IH]; intros k l Hl Hinc Hos.
  - simpl. by rewrite Nat.add_0_r.
  - destruct Hinc as [Hs Hinc].
    destruct (Hos 0%nat l ltac:(simpl; lia)) as [Hst Hsz].
    rewrite Nat.add_0_r in Hst, Hsz. simpl in Hsz.
    rewrite adapterAddresses_loop_step. cbv zeta.
    rewrite decide_False by (rewrite Hst; done).
    rewrite decide_True by done.
    assert (Hu : uint32 (size_out (os k l)) = s).
    { rewrite Hsz. unfold uint32. apply Z.mod_small. lia. }
    rewrite Hu. rewrite decide_False by lia.
    rewrite (IH (S k) s ltac:(lia) Hinc).
    + replace (S k + length sizes)%nat with (k + length (s :: sizes))%nat by (simpl; lia).
      f_equal. destruct sizes as [| a t]; [done |].
      change (List.last (a :: t) s = List.last (a :: t) l). apply last_cons_default.
    + intros j l' Hj. replace (S k + j)%nat with (k + S j)%nat by lia.
      apply (Hos (S j) l'). simpl. lia.
Qed.

Lemma collect_adapters_acc aa :
  forall aas, collect_adapters aa aas = aas ++ chain_adapters aa.
Proof.
  remember (length (chain_adapters aa)) as n eqn:Hn. revert aa Hn.
  induction n as [n IH] using lt_wf_ind. intros [first [next |]] Hn aas; simpl in *.
  - rewrite (IH (length (chain_adapters next)) ltac:(lia) next eq_refl).
    by rewrite <- app_assoc.
  - done.
Qed.

(** The traversal after the loop yields the records of the buffer in the
    order of their links. *)
Lemma chain_adapters_linked aa : linked_from aa (chain_adapters aa).
Proof.
  split; [by destruct aa as [d [next |]] |].
  remember (length (chain_adapters aa)) as n eqn:Hn. revert aa Hn.
  induction n as [n IH] using lt_wf_ind. intros [d [next |]] Hn i aa Hi; simpl in *.
  - destruct i as [| i]; simpl in *.
    + injection Hi as <-. by destruct next as [d' [next' |]].
    + apply (IH (length (chain_adapters next)) ltac:(lia) next eq_refl i aa Hi).
  - destruct i as [| i]; simpl in *; [by injection Hi as <- | done].
Qed.

(** Only one list follows the links from a given record. *)
Lemma linked_from_unique first aas aas' :
  linked_from first aas -> linked_from first aas' -> aas = aas'.
Proof.
  intros [H0 Hnext] [H0' Hnext']. apply list_eq. intros i.
  induction i as [| i IH]; [congruence |].
  destruct (aas !! i) as [aa |] eqn:Hi.
  - rewrite (Hnext i aa Hi). symmetry. apply Hnext'. congruence.
  - apply lookup_ge_None in Hi. symmetry in IH. apply lookup_ge_None in IH.
    rewrite (proj2 (lookup_ge_None aas (S i))) by lia.
    rewrite (proj2 (lookup_ge_None aas' (S i))) by lia. done.
Qed.

(** C6: [adapterAddresses] is a total function, and on a system that first
    reports the strictly growing required sizes [sizes] (each above the
    buffer it was handed, the first above the initial 15000 bytes) and then
    answers [final], it makes exactly one call more than there are sizes.
    If [final] is a success the call returns the success result: no error
    and the adapter records the system left in the buffer, that is the
    record at the start of the buffer followed by the records its [Next]
    links lead to, up to the one whose link is nil, and no other list (nil
    when the size left is 0, as the code has it). If [final] reports a
    required size no greater than the buffer just supplied the call returns
    an error instead of looping. *)
Theorem adapterAddresses_ends_after_growth
        (os : nat -> Z -> Response) (sizes : list Z) (final : Response) :
  increasing_from 15000 sizes ->
  (forall j l, (j < length sizes)%nat ->
     status (os j l) = ERROR_BUFFER_OVERFLOW /\ size_out (os j l) = nth j sizes 0) ->
  (forall l, os (length sizes) l = final) ->
  (status final = 0 ->
   snd (adapterAddresses os) = S (length sizes) /\
   exists aas,
     fst (adapterAddresses os) = Adapters aas /\
     (uint32 (size_out final) = 0 -> aas = []) /\
     (uint32 (size_out final) <> 0 ->
      linked_from (buffer final) aas /\
      forall aas', linked_from (buffer final) aas' -> aas' = aas)) /\
  (status final = ERROR_BUFFER_OVERFLOW ->
   uint32 (size_out final) <= List.last sizes 15000 ->
   adapterAddresses os
   = (SyscallError "getadaptersaddresses" ERROR_BUFFER_OVERFLOW, S (length sizes))).
Proof.
  intros Hinc Hos Hfinal. unfold adapterAddresses.
  rewrite (adapterAddresses_loop_grows os sizes 0 15000 ltac:(lia) Hinc Hos).
  simpl. rewrite adapterAddresses_loop_step, Hfinal. cbv zeta. split.
  - intros Hok. rewrite decide_True by done. split; [done |].
    unfold success_result.
    destruct (decide (uint32 (size_out final) = 0)) as [Hzero | Hsize].
    + rewrite bool_decide_eq_true_2 by done. exists []. by split.
    + rewrite bool_decide_eq_false_2 by done.
      exists (chain_adapters (buffer final)).
      split; [simpl; by rewrite collect_adapters_acc |].
      split; [done |]. intros _. split; [apply chain_adapters_linked |].
      intros aas' Hlinked.
      exact (linked_from_unique _ _ _ Hlinked (chain_adapters_linked (buffer final))).
  - intros Hover Hsame. rewrite decide_False by (rewrite Hover; done).
    rewrite decide_True by done. rewrite decide_True by done. by rewrite Hover.
Qed.

Lemma example_linked_growing :
  linked_from adapters_example [adapters_example; Adapter None None].
Proof.
  split; [reflexivity |].
  intros [| [| i]] aa Hi; simpl in Hi; [by injection Hi as <- | by injection Hi as <- | done].
Qed.

Lemma adapterAddresses_ends_after_growth_witness :
  increasing_from 15000 [20000; 40000] /\
  adapterAddresses os_growing
  = (Adapters [adapters_example; Adapter None None], 3%nat) /\
  linked_from adapters_example [adapters_example; Adapter None None] /\
  (snd (adapterAddresses os_growing) = 3%nat /\
   exists aas,
     fst (adapterAddresses os_growing) = Adapters aas /\
     (uint32 38000 = 0 -> aas = []) /\
     (uint32 38000 <> 0 ->
      linked_from adapters_example aas /\
      forall aas', linked_from adapters_example aas' -> aas' = aas)) /\
  increasing_from 15000 [20000] /\
  adapterAddresses os_stuck
  = (SyscallError "getadaptersaddresses" ERROR_BUFFER_OVERFLOW, 2%nat).
Proof.
  assert (H2 : increasing_from 15000 [20000; 40000]) by (simpl; lia).
  assert (H1 : increasing_from 15000 [20000]) by (simpl; lia).
  split; [exact H2 |]. split; [exact example_discovery_growing |].
  split; [exact example_linked_growing |]. split.
  - apply (adapterAddresses_ends_after_growth os_growing [20000; 40000]
             (mkResponse 0 38000 adapters_example) H2).
    + intros j l Hj. destruct j as [| [| j]]; simpl in Hj; [by split | by split | lia].
    + reflexivity.
    + reflexivity.
  - split; [exact H1 |].
    apply (adapterAddresses_ends_after_growth os_stuck [20000] (overflow 20000) H1).
    + intros j l Hj. destruct j as [| j]; simpl in Hj; [by split | lia].
    + reflexivity.
    + reflexivity.
    + vm_compute. discriminate.
Defined.

(** ** Discovery: the site-local filter *)

(** The test in [nameservers] drops exactly the IPv6 addresses whose first
    two bytes are [0xfe] and [0xc0]. *)
Lemma nameserver_of_inet6_dropped port zone addr :
  nameserver_of (Ok (SockaddrInet6 port zone addr)) = None
  <-> nth 0 (copy_into_zeroed 16 addr) x00 = xfe /\
      nth 1 (copy_into_zeroed 16 addr) x00 = xc0.
Proof.
  unfold nameserver_of.
  destruct (bool_decide (nth 0 (copy_into_zeroed 16 addr) x00 = xfe)) eqn:H0;
    destruct (bool_decide (nth 1 (copy_into_zeroed 16 addr) x00 = xc0)) eqn:H1; simpl.
  - apply bool_decide_eq_true in H0, H1. tauto.
  - apply bool_decide_eq_false in H1. split; [discriminate | tauto].
  - apply bool_decide_eq_false in H0. split; [discriminate | tauto].
  - apply bool_decide_eq_false in H0. split; [discriminate | tauto].
Qed.

Lemma example_fec0_dropped :
  site_local addr_fec0_ffff_1 /\
  nameservers (os_at_once adapters_example) = ["8.8.8.8:53"%string].
Proof. split; [by split |]. vm_compute. reflexivity. Qed.

(** C3, at an input the code mishandles: the DNS servers fec1::1 and
    feff::1 lie in fec0::/10, the range the comment in [nameservers] says
    is ignored, and both are returned. *)
Theorem site_local_servers_are_returned :
  site_local addr_fec1_1 /\ site_local addr_feff_1 /\
  nameservers (os_at_once adapters_site_local)
  = ["[fec1::1]:53"; "[feff::1]:53"]%string.
Proof. split; [by split |]. split; [by split |]. vm_compute. reflexivity. Qed.

(** ** The base64 text of a query *)

Lemma digit_index (v : Z) : (Z.to_nat (Z.land v 63) < 64)%nat.
Proof.
  assert (0 <= Z.land v 63 < 64); [| lia].
  change 63 with (Z.ones 6). rewrite Z.land_ones by lia.
  apply Z.mod_pos_bound. lia.
Qed.

Lemma alphabet_positions :
  forallb (fun n => match list_ascii_of_string (String.substring n 1 Base64.encodeURL) with
                    | [c] => bool_decide (in_url_alphabet c)
                    | _ => false
                    end) (seq 0 64) = true.
Proof. vm_compute. reflexivity. Qed.

(** Every digit is one character of the URL-safe alphabet. *)
Lemma digit_spec (v : Z) :
  exists c, Base64.digit v = String c EmptyString /\ in_url_alphabet c.
Proof.
  unfold Base64.digit. pose proof (digit_index v) as Hlt.
  pose proof alphabet_positions as Hall. rewrite forallb_forall in Hall.
  specialize (Hall (Z.to_nat (Z.land v 63)) ltac:(apply in_seq; lia)).
  destruct (String.substring _ 1 Base64.encodeURL) as [| c [| c' s]]; simpl in Hall; try done.
  exists c. split; [done |]. by apply bool_decide_eq_true in Hall.
Qed.

Lemma EncodeToString_step a b c rest :
  Base64.EncodeToString (a :: b :: c :: rest)
  = Base64.digit (Z.shiftr (Z.lor (Z.lor (Z.shiftl (byteZ a) 16) (Z.shiftl (byteZ b) 8))
                                  (byteZ c)) 18)
    +:+ Base64.digit (Z.shiftr (Z.lor (Z.lor (Z.shiftl (byteZ a) 16) (Z.shiftl (byteZ b) 8))
                                      (byteZ c)) 12)
    +:+ Base64.digit (Z.shiftr (Z.lor (Z.lor (Z.shiftl (byteZ a) 16) (Z.shiftl (byteZ b) 8))
                                      (byteZ c)) 6)
    +:+ Base64.digit (Z.lor (Z.lor (Z.shiftl (byteZ a) 16) (Z.shiftl (byteZ b) 8)) (byteZ c))
    +:+ Base64.EncodeToString rest.
Proof. reflexivity. Qed.

(** The text is unpadded and URL-safe: it consists of characters of the
    alphabet [A-Za-z0-9-_] only, and there are [ceil (4 n / 3)] of them for
    [n] bytes. *)
Lemma EncodeToString_spec (src : list byte) :
  Forall in_url_alphabet (list_ascii_of_string (Base64.EncodeToString src)) /\
  Z.of_nat (String.length (Base64.EncodeToString src)) = (4 * Z.of_nat (length src) + 2) / 3.
Proof.
  remember (length src) as n eqn:Hn. revert src Hn.
  induction n as [n IH] using lt_wf_ind. intros src Hn.
  destruct src as [| a [| b [| c rest]]].
  - subst n. split; [constructor | reflexivity].
  - subst n. unfold Base64.EncodeToString.
    destruct (digit_spec (Z.shiftr (Z.shiftl (byteZ a) 16) 18)) as (c1 & -> & H1).
    destruct (digit_spec (Z.shiftr (Z.shiftl (byteZ a) 16) 12)) as (c2 & -> & H2).
    split; [simpl; repeat (constructor; [assumption |]); constructor | reflexivity].
  - subst n. unfold Base64.EncodeToString.
    set (val := Z.lor _ _).
    destruct (digit_spec (Z.shiftr val 18)) as (c1 & -> & H1).
    destruct (digit_spec (Z.shiftr val 12)) as (c2 & -> & H2).
    destruct (digit_spec (Z.shiftr val 6)) as (c3 & -> & H3).
    split; [simpl; repeat (constructor; [assumption |]); constructor | reflexivity].
  - rewrite EncodeToString_step. set (val := Z.lor _ _).
    destruct (digit_spec (Z.shiftr val 18)) as (c1 & -> & H1).
    destruct (digit_spec (Z.shiftr val 12)) as (c2 & -> & H2).
    destruct (digit_spec (Z.shiftr val 6)) as (c3 & -> & H3).
    destruct (digit_spec val) as (c4 & -> & H4).
    destruct (IH (length rest) ltac:(subst n; simpl; lia) rest eq_refl) as [Halpha Hlen].
    split.
    + simpl. repeat (constructor; [assumption |]). exact Halpha.
    + subst n.
      change (Z.of_nat (S (S (S (S (String.length (Base64.EncodeToString rest))))))
              = (4 * Z.of_nat (S (S (S (length rest)))) + 2) / 3).
      rewrite !Nat2Z.inj_succ, Hlen.
      replace (4 * Z.succ (Z.succ (Z.succ (Z.of_nat (length rest)))) + 2)
        with ((4 * Z.of_nat (length rest) + 2) + 4 * 3) by lia.
      rewrite Z.div_add by lia. lia.
Qed.

(** ** Reading the base64 text back *)

Lemma byte_of_byteZ (a : byte) : byte_of_Z (byteZ a) = a.
Proof.
  unfold byte_of_Z, byteZ. rewrite N2Z.id, Byte.of_to_N. reflexivity.
Qed.

Lemma byte_of_Z_eq (z : Z) (a : byte) : z = byteZ a -> byte_of_Z z = a.
Proof. intros ->. apply byte_of_byteZ. Qed.

Lemma alphabet_values :
  forallb (fun n => match list_ascii_of_string (String.substring n 1 Base64.encodeURL) with
                    | [c] => bool_decide (url_value c = Some (Z.of_nat n))
                    | _ => false
                    end) (seq 0 64) = true.
Proof. vm_compute. reflexivity. Qed.

(** Every digit is the one character that stands for its six bits. *)
Lemma digit_value (v : Z) :
  exists c, Base64.digit v = String c EmptyString /\ url_value c = Some (v mod 64).
Proof.
  unfold Base64.digit. pose proof (digit_index v) as Hlt.
  pose proof alphabet_values as Hall. rewrite forallb_forall in Hall.
  specialize (Hall (Z.to_nat (Z.land v 63)) ltac:(apply in_seq; lia)).
  destruct (String.substring _ 1 Base64.encodeURL) as [| c [| c' s]]; simpl in Hall; try done.
  exists c. split; [done |]. apply bool_decide_eq_true in Hall. rewrite Hall.
  f_equal. change 63 with (Z.ones 6). rewrite Z.land_ones by lia.
  rewrite Z2Nat.id; [done |]. apply Z.mod_pos_bound. lia.
Qed.

Lemma shifted_bytes_disjoint x y k :
  0 <= x < 256 -> 0 <= y < 2 ^ k -> 0 <= k -> Z.land (Z.shiftl x k) y = 0.
Proof.
  intros Hx Hy Hk. apply Z.bits_inj'. intros n Hn.
  rewrite Z.land_spec, Z.bits_0.
  destruct (Z.lt_ge_cases n k) as [Hlt | Hge].
  - rewrite Z.shiftl_spec_low by lia. done.
  - destruct (Z.eq_dec y 0) as [-> | Hne]; [by rewrite Z.bits_0, Bool.andb_false_r |].
    rewrite (Z.bits_above_log2 y n); [apply Bool.andb_false_r | lia |].
    apply Z.lt_le_trans with k; [| lia]. apply Z.log2_lt_pow2; lia.
Qed.

(** The 24-bit group of three bytes as a number. *)
Lemma group_value a b c :
  Z.lor (Z.lor (Z.shiftl (byteZ a) 16) (Z.shiftl (byteZ b) 8)) (byteZ c)
  = byteZ a * 65536 + byteZ b * 256 + byteZ c.
Proof.
  pose proof (byteZ_range a). pose proof (byteZ_range b). pose proof (byteZ_range c).
  assert (Hb : Z.shiftl (byteZ b) 8 = byteZ b * 256) by (by rewrite Z.shiftl_mul_pow2).
  assert (Ha : Z.shiftl (byteZ a) 16 = byteZ a * 65536) by (by rewrite Z.shiftl_mul_pow2).
  rewrite <- (Z.add_nocarry_lor (Z.shiftl (byteZ a) 16) (Z.shiftl (byteZ b) 8)).
  2: { apply shifted_bytes_disjoint; [done | | lia]. rewrite Hb. change (2 ^ 16) with 65536. lia. }
  rewrite <- Z.add_nocarry_lor.
  2: { rewrite Z.land_comm, Hb, Ha.
       replace (byteZ a * 65536 + byteZ b * 256) with ((byteZ a * 256 + byteZ b) * 2 ^ 8) by lia.
       rewrite <- Z.shiftl_mul_pow2 by lia. rewrite Z.land_comm.
       apply Z.bits_inj'. intros n Hn. rewrite Z.land_spec, Z.bits_0.
       destruct (Z.lt_ge_cases n 8) as [Hlt | Hge].
       - rewrite Z.shiftl_spec_low by lia. done.
       - rewrite (byte_testbit_high (byteZ c) n) by lia. apply Bool.andb_false_r. }
  lia.
Qed.

Lemma group_value_2 a b :
  Z.lor (Z.shiftl (byteZ a) 16) (Z.shiftl (byteZ b) 8) = byteZ a * 65536 + byteZ b * 256.
Proof.
  pose proof (group_value a b x00) as H. change (byteZ x00) with 0 in H.
  rewrite Z.lor_0_r in H. lia.
Qed.

Lemma decode_url_step c0 c1 c2 c3 rest :
  decode_url (c0 :: c1 :: c2 :: c3 :: rest)
  = match url_value c0, url_value c1, url_value c2, url_value c3, decode_url rest with
    | Some v0, Some v1, Some v2, Some v3, Some bytes =>
        Some (byte_of_Z (v0 * 4 + v1 / 16) :: byte_of_Z (v1 mod 16 * 16 + v2 / 4)
              :: byte_of_Z (v2 mod 4 * 64 + v3) :: bytes)
    | _, _, _, _, _ => None
    end.
Proof. reflexivity. Qed.

(** The text determines the bytes: decoding gives them back. *)
Lemma decode_url_EncodeToString (src : list byte) :
  decode_url (list_ascii_of_string (Base64.EncodeToString src)) = Some src.
Proof.
  remember (length src) as n eqn:Hn. revert src Hn.
  induction n as [n IH] using lt_wf_ind. intros src Hn.
  destruct src as [| a [| b [| c rest]]].
  - reflexivity.
  - unfold Base64.EncodeToString. pose proof (byteZ_range a) as Ha.
    rewrite Z.shiftl_mul_pow2, !Z.shiftr_div_pow2 by lia.
    destruct (digit_value (byteZ a * 2 ^ 16 / 2 ^ 18)) as (c1 & -> & H1).
    destruct (digit_value (byteZ a * 2 ^ 16 / 2 ^ 12)) as (c2 & -> & H2).
    simpl. rewrite H1, H2. do 2 f_equal.
    apply byte_of_Z_eq.
    change (2 ^ 16) with 65536. change (2 ^ 18) with 262144. change (2 ^ 12) with 4096.
    Z.div_mod_to_equations. lia.
  - unfold Base64.EncodeToString. pose proof (byteZ_range a) as Ha.
    pose proof (byteZ_range b) as Hb.
    rewrite group_value_2, !Z.shiftr_div_pow2 by lia.
    set (val := byteZ a * 65536 + byteZ b * 256).
    destruct (digit_value (val / 2 ^ 18)) as (c1 & -> & H1).
    destruct (digit_value (val / 2 ^ 12)) as (c2 & -> & H2).
    destruct (digit_value (val / 2 ^ 6)) as (c3 & -> & H3).
    simpl. rewrite H1, H2, H3. f_equal.
    subst val. change (2 ^ 6) with 64. change (2 ^ 18) with 262144. change (2 ^ 12) with 4096.
    f_equal; [| f_equal]; apply byte_of_Z_eq; Z.div_mod_to_equations; lia.
  - rewrite EncodeToString_step. pose proof (byteZ_range a) as Ha.
    pose proof (byteZ_range b) as Hb. pose proof (byteZ_range c) as Hc.
    rewrite group_value, !Z.shiftr_div_pow2 by lia.
    set (val := byteZ a * 65536 + byteZ b * 256 + byteZ c).
    destruct (digit_value (val / 2 ^ 18)) as (c1 & -> & H1).
    destruct (digit_value (val / 2 ^ 12)) as (c2 & -> & H2).
    destruct (digit_value (val / 2 ^ 6)) as (c3 & -> & H3).
    destruct (digit_value val) as (c4 & -> & H4).
    change (list_ascii_of_string
              (String c1 "" +:+ String c2 "" +:+ String c3 "" +:+ String c4 ""
               +:+ Base64.EncodeToString rest))
      with (c1 :: c2 :: c3 :: c4 :: list_ascii_of_string (Base64.EncodeToString rest)).
    rewrite decode_url_step, H1, H2, H3, H4.
    rewrite (IH (length rest) ltac:(subst n; simpl; lia) rest eq_refl).
    subst val. change (2 ^ 6) with 64. change (2 ^ 18) with 262144. change (2 ^ 12) with 4096.
    f_equal. f_equal; [| f_equal; [| f_equal]]; apply byte_of_Z_eq;
      Z.div_mod_to_equations; lia.
Qed.

(** ** The resolver *)

Section ResolverFacts.

Variable Msg : Type.
Variable Pack : Msg -> Result (list byte).
Variable Unpack : list byte -> Msg * option string.
Variable NewRequestError : string -> string -> option string.
Variable Do : RoundTripper -> Request -> Result HTTPResponse.

(** Once the query is packed and the request built, [Resolve] is one
    exchange through the resolver's round-tripper. *)
Lemma Resolve_exchange (r : dohResolver) (msg : Msg) (data : list byte) :
  Pack msg = Ok data ->
  NewRequestError "GET" (URL (dns_request (endpoint r) data)) = None ->
  Resolve Msg Pack Unpack NewRequestError Do r msg
  = match Do (round_tripper_of r) (dns_request (endpoint r) data) with
    | Err e =>
        (r, (None, Some (wrap "could not perform request" e)),
         EvDo (round_tripper_of r) (dns_request (endpoint r) data)
         :: (if isDoH3 r then [EvCloseHTTP3 (http3RoundTripper r)] else []))
    | Ok resp =>
        match Body resp with
        | Err e =>
            (r, (None, Some (wrap "could not read message from response" e)),
             [EvDo (round_tripper_of r) (dns_request (endpoint r) data); EvCloseBody])
        | Ok buf =>
            (r,
             if bool_decide (StatusCode resp <> StatusOK)
             then (None, Some (wrong_response buf (StatusCode resp)))
             else (Some (fst (Unpack buf)), snd (Unpack buf)),
             [EvDo (round_tripper_of r) (dns_request (endpoint r) data); EvCloseBody])
        end
    end.
Proof.
  intros Hpack Hreq. unfold Resolve. rewrite Hpack. simpl in Hreq. rewrite Hreq.
  assert (Hhdr : Header_Set (Header_Set ∅ "Content-Type" "application/dns-message")
                            "Accept" "application/dns-message"
                 = Headers (dns_request (endpoint r) data)).
  { unfold Header_Set. simpl. rewrite insert_empty. by apply insert_insert_ne. }
  rewrite Hhdr. fold (round_tripper_of r).
  change (mkRequest "GET" (endpoint r +:+ "?dns=" +:+ Base64.EncodeToString data)
                    (Headers (dns_request (endpoint r) data)))
    with (dns_request (endpoint r) data).
  destruct (Do _ _) as [resp | e]; [| done].
  destruct (Body resp) as [buf | e]; [| done].
  destruct (bool_decide _); [done |]. by destruct (Unpack buf).
Qed.

(** Every request of a call goes through the resolver's round-tripper. *)
Lemma Resolve_requests_via (r : dohResolver) (msg : Msg) via req :
  (via, req) ∈ requests (snd (Resolve Msg Pack Unpack NewRequestError Do r msg)) ->
  via = round_tripper_of r.
Proof.
  unfold Resolve. fold (round_tripper_of r).
  destruct (Pack msg) as [data | e]; [| simpl; by rewrite elem_of_nil].
  destruct (NewRequestError _ _); [simpl; by rewrite elem_of_nil |].
  destruct (Do _ _) as [resp | e].
  - destruct (Body resp) as [buf | e'].
    + destruct (bool_decide _); [| destruct (Unpack buf)]; simpl;
        rewrite list_elem_of_singleton; congruence.
    + simpl. rewrite list_elem_of_singleton. congruence.
  - destruct (isDoH3 r); simpl; rewrite list_elem_of_singleton; congruence.
Qed.

(** [Resolve] never changes the resolver. *)
Lemma Resolve_keeps_resolver (r : dohResolver) (msg : Msg) :
  fst (fst (Resolve Msg Pack Unpack NewRequestError Do r msg)) = r.
Proof.
  unfold Resolve.
  destruct (Pack msg) as [data | e]; [| done].
  destruct (NewRequestError _ _); [done |].
  destruct (Do _ _) as [resp | e]; [| done].
  destruct (Body resp) as [buf | e']; [| done].
  destruct (bool_decide _); [done |]. by destruct (Unpack buf).
Qed.

End ResolverFacts.

Lemma example_resolve_ok :
  Resolve string toy_Pack toy_Unpack toy_NewRequestError Do_ok doh_resolver "abc"
  = (doh_resolver,
     (Some (string_of_bytes body_twelve), None),
     [EvDo (ViaTransport 1%nat) (dns_request "https://dns.example/q" [x61; x62; x63]);
      EvCloseBody]).
Proof. vm_compute. reflexivity. Qed.

Lemma example_request_url :
  URL (dns_request "https://dns.example/q" [x61; x62; x63])
  = "https://dns.example/q?dns=YWJj"%string.
Proof. reflexivity. Qed.

Lemma example_resolve_unavailable :
  Resolve string toy_Pack toy_Unpack toy_NewRequestError Do_unavailable doh_resolver "abc"
  = (doh_resolver,
     (None, Some "wrong response from DOH server, got: busy, status: 503"%string),
     [EvDo (ViaTransport 1%nat) (dns_request "https://dns.example/q" [x61; x62; x63]);
      EvCloseBody]).
Proof. vm_compute. reflexivity. Qed.

Lemma example_resolve_broken_doh3 :
  Resolve string toy_Pack toy_Unpack toy_NewRequestError Do_broken doh3_resolver "abc"
  = (doh3_resolver,
     (None, Some "could not perform request: timeout: no recent network activity"%string),
     [EvDo (ViaHTTP3 2%nat) (dns_request "https://dns.example/q" [x61; x62; x63]);
      EvCloseHTTP3 2%nat]).
Proof. vm_compute. reflexivity. Qed.

Lemma example_resolve_unpackable :
  Resolve string toy_Pack toy_Unpack toy_NewRequestError Do_ok doh_resolver ""
  = (doh_resolver, (None, Some "dns: bad message"%string), []).
Proof. vm_compute. reflexivity. Qed.

Lemma example_resolve_bad_url :
  Resolve string toy_Pack toy_Unpack toy_NewRequestError Do_ok blank_resolver "abc"
  = (blank_resolver,
     (None, Some "could not create request: parse: invalid character in host name"%string),
     []).
Proof. vm_compute. reflexivity. Qed.

(** C7, as the code has it. For every resolver and every query message:
    when the message does not pack, [Resolve] returns the error of packing
    and issues no request; when the HTTP library rejects the request URL,
    [Resolve] returns that error, wrapped, and issues no request; and when
    the message packs and the URL is accepted, [Resolve] issues exactly one
    request, a GET to the endpoint followed by "?dns=" and the unpadded
    URL-safe base64 text of the packed query, with the headers Content-Type
    and Accept set to application/dns-message. If that exchange yields a
    response whose body is read in full, then on status 200 the body is
    unpacked and the message returned as the answer, together with the
    error of unpacking if there is one, and on any other status an error
    carrying the body and the status code is returned, with no message. *)
Theorem Resolve_issues_one_get
        (Msg : Type) (Pack : Msg -> Result (list byte))
        (Unpack : list byte -> Msg * option string)
        (NewRequestError : string -> string -> option string)
        (Do : RoundTripper -> Request -> Result HTTPResponse)
        (r : dohResolver) (msg : Msg) :
  (forall e,
     Pack msg = Err e ->
     requests (snd (Resolve Msg Pack Unpack NewRequestError Do r msg)) = [] /\
     snd (fst (Resolve Msg Pack Unpack NewRequestError Do r msg)) = (None, Some e)) /\
  (forall data e,
     Pack msg = Ok data ->
     NewRequestError "GET" (endpoint r +:+ "?dns=" +:+ Base64.EncodeToString data) = Some e ->
     requests (snd (Resolve Msg Pack Unpack NewRequestError Do r msg)) = [] /\
     snd (fst (Resolve Msg Pack Unpack NewRequestError Do r msg))
     = (None, Some (wrap "could not create request" e))) /\
  (forall data,
     Pack msg = Ok data ->
     NewRequestError "GET" (endpoint r +:+ "?dns=" +:+ Base64.EncodeToString data) = None ->
     requests (snd (Resolve Msg Pack Unpack NewRequestError Do r msg))
     = [(round_tripper_of r,
         {| Method := "GET";
            URL := endpoint r +:+ "?dns=" +:+ Base64.EncodeToString data;
            Headers := {[ "Content-Type"%string := ["application/dns-message"%string];
                          "Accept"%string := ["application/dns-message"%string] ]} |})] /\
     forall resp buf,
       Do (round_tripper_of r) (dns_request (endpoint r) data) = Ok resp ->
       Body resp = Ok buf ->
       (StatusCode resp = StatusOK ->
        snd (fst (Resolve Msg Pack Unpack NewRequestError Do r msg))
        = (Some (fst (Unpack buf)), snd (Unpack buf))) /\
       (StatusCode resp <> StatusOK ->
        snd (fst (Resolve Msg Pack Unpack NewRequestError Do r msg))
        = (None, Some (wrong_response buf (StatusCode resp))))).
Proof.
  split; [| split].
  - intros e Hpack. unfold Resolve. by rewrite Hpack.
  - intros data e Hpack Hreq. unfold Resolve. by rewrite Hpack, Hreq.
  - intros data Hpack Hreq.
    rewrite (Resolve_exchange Msg Pack Unpack NewRequestError Do r msg data Hpack Hreq).
    split.
    + destruct (Do _ _) as [resp | e].
      * by destruct (Body resp).
      * by destruct (isDoH3 r).
    + intros resp buf HDo Hbody. rewrite HDo, Hbody. simpl. split.
      * intros Hok. by rewrite bool_decide_eq_false_2 by (rewrite Hok; tauto).
      * intros Hnot. by rewrite bool_decide_eq_true_2.
Qed.

Lemma Resolve_issues_one_get_witness :
  toy_Pack "abc" = Ok [x61; x62; x63] /\
  toy_NewRequestError "GET" "https://dns.example/q?dns=YWJj" = None /\
  Do_unavailable (ViaTransport 1%nat)
                 (dns_request "https://dns.example/q" [x61; x62; x63])
  = Ok (mkHTTPResponse 503 (Ok [x62; x75; x73; x79])) /\
  requests (snd (Resolve string toy_Pack toy_Unpack toy_NewRequestError Do_unavailable
                         doh_resolver "abc"))
  = [(ViaTransport 1%nat,
      {| Method := "GET";
         URL := "https://dns.example/q?dns=YWJj";
         Headers := {[ "Content-Type"%string := ["application/dns-message"%string];
                       "Accept"%string := ["application/dns-message"%string] ]} |})] /\
  snd (fst (Resolve string toy_Pack toy_Unpack toy_NewRequestError Do_unavailable
                    doh_resolver "abc"))
  = (None, Some "wrong response from DOH server, got: busy, status: 503"%string).
Proof.
  assert (Hpack : toy_Pack "abc" = Ok [x61; x62; x63]) by reflexivity.
  assert (Hreq : toy_NewRequestError
                   "GET" (endpoint doh_resolver +:+ "?dns="
                          +:+ Base64.EncodeToString [x61; x62; x63]) = None)
    by reflexivity.
  assert (HDo : Do_unavailable (round_tripper_of doh_resolver)
                               (dns_request (endpoint doh_resolver) [x61; x62; x63])
                = Ok (mkHTTPResponse 503 (Ok [x62; x75; x73; x79]))) by reflexivity.
  split; [exact Hpack |]. split; [exact Hreq |]. split; [exact HDo |].
  destruct (Resolve_issues_one_get string toy_Pack toy_Unpack toy_NewRequestError
              Do_unavailable doh_resolver "abc") as (_ & _ & Hone).
  destruct (Hone [x61; x62; x63] Hpack Hreq) as [Hrequests Hanswer].
  split; [exact Hrequests |].
  destruct (Hanswer (mkHTTPResponse 503 (Ok [x62; x75; x73; x79])) [x62; x75; x73; x79]
              HDo eq_refl) as [_ Hother].
  apply Hother. discriminate.
Defined.

(** C7, as stated, fails: for a query that does not pack, and for a URL the
    HTTP library rejects, [Resolve] returns the error and issues no request
    at all. *)
Lemma no_request_without_packed_query :
  requests (snd (Resolve string toy_Pack toy_Unpack toy_NewRequestError Do_ok
                         doh_resolver ""))
  = [] /\
  snd (fst (Resolve string toy_Pack toy_Unpack toy_NewRequestError Do_ok doh_resolver ""))
  = (None, Some "dns: bad message"%string) /\
  requests (snd (Resolve string toy_Pack toy_Unpack toy_NewRequestError Do_ok
                         blank_resolver "abc"))
  = [] /\
  length (requests (snd (Resolve string toy_Pack toy_Unpack toy_NewRequestError Do_ok
                                 doh_resolver ""))) <> 1%nat.
Proof.
  rewrite example_resolve_unpackable, example_resolve_bad_url. simpl.
  split; [done |]. split; [done |]. split; [done |]. lia.
Qed.

(** C1, as the code has it: when the exchange of a DoH3 resolver fails,
    [Resolve] sends the request through the resolver's HTTP/3 round-tripper,
    closes that round-tripper once, and then returns the error; the
    resolver is left as it was and holds the same round-tripper, and every
    request of a later [Resolve] goes through that same round-tripper. *)
Theorem failed_doh3_exchange_closes_round_tripper
        (Msg : Type) (Pack : Msg -> Result (list byte))
        (Unpack : list byte -> Msg * option string)
        (NewRequestError : string -> string -> option string)
        (Do : RoundTripper -> Request -> Result HTTPResponse)
        (r : dohResolver) (msg : Msg) (data : list byte) (e : string) :
  isDoH3 r = true ->
  Pack msg = Ok data ->
  NewRequestError "GET" (URL (dns_request (endpoint r) data)) = None ->
  Do (ViaHTTP3 (http3RoundTripper r)) (dns_request (endpoint r) data) = Err e ->
  Resolve Msg Pack Unpack NewRequestError Do r msg
  = (r, (None, Some (wrap "could not perform request" e)),
     [EvDo (ViaHTTP3 (http3RoundTripper r)) (dns_request (endpoint r) data);
      EvCloseHTTP3 (http3RoundTripper r)]) /\
  forall Pack' Unpack' NewRequestError' Do' (msg' : Msg) via req,
    (via, req) ∈ requests
      (snd (Resolve Msg Pack' Unpack' NewRequestError' Do'
                    (fst (fst (Resolve Msg Pack Unpack NewRequestError Do r msg))) msg')) ->
    via = ViaHTTP3 (http3RoundTripper r).
Proof.
  intros H3 Hpack Hreq HDo. split.
  - rewrite (Resolve_exchange Msg Pack Unpack NewRequestError Do r msg data Hpack Hreq).
    unfold round_tripper_of. rewrite H3, HDo. done.
  - intros Pack' Unpack' NewRequestError' Do' msg' via req Hin.
    rewrite Resolve_keeps_resolver in Hin.
    apply Resolve_requests_via in Hin. rewrite Hin.
    unfold round_tripper_of. by rewrite H3.
Qed.

Lemma failed_doh3_exchange_closes_round_tripper_witness :
  isDoH3 doh3_resolver = true /\
  Resolve string toy_Pack toy_Unpack toy_NewRequestError Do_broken doh3_resolver "abc"
  = (doh3_resolver,
     (None, Some (wrap "could not perform request" "timeout: no recent network activity")),
     [EvDo (ViaHTTP3 (http3RoundTripper doh3_resolver))
           (dns_request (endpoint doh3_resolver) [x61; x62; x63]);
      EvCloseHTTP3 (http3RoundTripper doh3_resolver)]) /\
  forall Pack' Unpack' NewRequestError' Do' (msg' : string) via req,
    (via, req) ∈ requests
      (snd (Resolve string Pack' Unpack' NewRequestError' Do'
                    (fst (fst (Resolve string toy_Pack toy_Unpack toy_NewRequestError
                                       Do_broken doh3_resolver "abc"))) msg')) ->
    via = ViaHTTP3 (http3RoundTripper doh3_resolver).
Proof.
  split; [reflexivity |].
  exact (failed_doh3_exchange_closes_round_tripper string toy_Pack toy_Unpack
           toy_NewRequestError Do_broken doh3_resolver "abc" [x61; x62; x63]
           "timeout: no recent network activity" eq_refl eq_refl eq_refl eq_refl).
Defined.

(** C1, as stated, fails: after a DoH3 exchange that failed, the resolver
    holds the very round-tripper it held before, and the next call, which
    succeeds here, sends its request through it. *)
Lemma failed_doh3_exchange_keeps_handle :
  snd (fst (Resolve string toy_Pack toy_Unpack toy_NewRequestError Do_broken
                    doh3_resolver "abc"))
  = (None, Some "could not perform request: timeout: no recent network activity"%string) /\
  http3RoundTripper (fst (fst (Resolve string toy_Pack toy_Unpack toy_NewRequestError
                                       Do_broken doh3_resolver "abc")))
  = http3RoundTripper doh3_resolver /\
  ~ (http3RoundTripper (fst (fst (Resolve string toy_Pack toy_Unpack toy_NewRequestError
                                          Do_broken doh3_resolver "abc")))
     <> http3RoundTripper doh3_resolver) /\
  requests (snd (Resolve string toy_Pack toy_Unpack toy_NewRequestError Do_ok
                   (fst (fst (Resolve string toy_Pack toy_Unpack toy_NewRequestError
                                      Do_broken doh3_resolver "abc"))) "abc"))
  = [(ViaHTTP3 (http3RoundTripper doh3_resolver),
      dns_request "https://dns.example/q" [x61; x62; x63])].
Proof.
  rewrite example_resolve_broken_doh3. simpl.
  split; [done |]. split; [done |]. split; [by intros H |].
  vm_compute. reflexivity.
Qed.

(** ** Further properties of [trySet] *)

Lemma delete_all_lookup (props : list string) (m : gmap string Variant) (key : string) :
  delete_all props m !! key = if decide (key ∈ props) then None else m !! key.
Proof.
  case_decide as Hin; [| by apply delete_all_lookup_ne].
  unfold delete_all. revert m. induction props as [| p props IH]; intros m; simpl.
  - by apply elem_of_nil in Hin.
  - destruct (decide (key ∈ props)) as [Hin' | Hnot]; [by apply IH |].
    apply elem_of_cons in Hin as [-> | Hin]; [| done].
    fold (delete_all props (delete p m)). rewrite delete_all_lookup_ne by done.
    apply lookup_delete_eq.
Qed.

Lemma write_ipv4_lookup Native WithTrailingDot config m key :
  write_ipv4 Native WithTrailingDot config m !! key
  = if decide (key ∈ deprecatedProperties) then None
    else if decide (key = "dns-priority"%string)
         then Some (VInt32 (priority_of (dnsv4_of Native config) config))
    else if decide (key = "dns-search"%string)
         then Some (VStrings (search_of WithTrailingDot config))
    else if decide (key = "dns"%string) then Some (VUint32s (dnsv4_of Native config))
    else m !! key.
Proof.
  unfold write_ipv4. rewrite delete_all_lookup.
  case_decide; [done |]. rewrite !lookup_insert.
  repeat case_decide; congruence.
Qed.

Lemma write_ipv6_lookup Native WithTrailingDot config addrs6 m key :
  write_ipv6 Native WithTrailingDot config addrs6 m !! key
  = if decide (key ∈ deprecatedProperties) then None
    else if decide (key = "dns-priority"%string)
         then Some (VInt32 (priority_of (dnsv6_of Native config) config))
    else if decide (key = "dns-search"%string)
         then Some (VStrings (search_of WithTrailingDot config))
    else if decide (key = "dns"%string) then Some (VByteArrays (dnsv6_of Native config))
    else if decide (key = "never-default"%string) then Some (VBool true)
    else if decide (key = "ignore-auto-dns"%string) then Some (VBool true)
    else if decide (key = "ignore-auto-routes"%string) then Some (VBool true)
    else if decide (key = "address-data"%string)
         then (if bool_decide (0 < length addrs6)%nat
               then Some (VAddressData addrs6) else m !! key)
    else if decide (key = "method"%string) then Some (VString "auto")
    else m !! key.
Proof.
  unfold write_ipv6. rewrite delete_all_lookup.
  case_decide; [done |]. rewrite !lookup_insert.
  destruct (bool_decide (0 < length addrs6)%nat); rewrite ?lookup_insert;
    repeat case_decide; congruence.
Qed.

(** The two sections after [mutate_settings], and the rest untouched. *)
Lemma mutate_settings_sections Native WithTrailingDot config addrs6 settings settings' :
  mutate_settings Native WithTrailingDot config addrs6 settings = Some settings' ->
  exists ipv4Map ipv6Map,
    settings !! "ipv4"%string = Some ipv4Map /\
    settings !! "ipv6"%string = Some ipv6Map /\
    settings' !! "ipv4"%string = Some (write_ipv4 Native WithTrailingDot config ipv4Map) /\
    settings' !! "ipv6"%string
      = Some (write_ipv6 Native WithTrailingDot config addrs6 ipv6Map) /\
    forall section, section <> "ipv4"%string -> section <> "ipv6"%string ->
                    settings' !! section = settings !! section.
Proof.
  unfold mutate_settings. intros H.
  destruct (settings !! "ipv4"%string) as [ipv4Map |] eqn:H4; [| done].
  rewrite lookup_insert_ne in H by done.
  destruct (settings !! "ipv6"%string) as [ipv6Map |] eqn:H6; [| done].
  injection H as <-. exists ipv4Map, ipv6Map.
  split; [done |]. split; [done |]. split.
  { rewrite lookup_insert_ne by done. apply lookup_insert_eq. }
  split; [apply lookup_insert_eq |].
  intros section Hn4 Hn6. by rewrite !lookup_insert_ne.
Qed.

(** What stands behind a [Reapply] call of [trySet]. *)
Lemma trySet_call_inv Native WithTrailingDot sys interfaceName config call :
  call ∈ snd (trySet Native WithTrailingDot sys interfaceName config) ->
  exists settings,
    GetDeviceByIpIface sys interfaceName = Ok (rc_device call) /\
    GetAppliedConnection sys (rc_device call) = Ok (settings, rc_version call) /\
    mutate_settings Native WithTrailingDot config (staged_of sys interfaceName) settings
    = Some (rc_settings call).
Proof.
  unfold trySet, staged_of.
  destruct (SystemBus sys); [| simpl; by rewrite elem_of_nil].
  destruct (GetDeviceByIpIface sys interfaceName) as [devicePath |];
    [| simpl; by rewrite elem_of_nil].
  destruct (GetAppliedConnection sys devicePath) as [[settings version] |] eqn:Happlied;
    [| simpl; by rewrite elem_of_nil].
  destruct (mutate_settings _ _ _ _ _) as [settings' |] eqn:Hm;
    [| simpl; by rewrite elem_of_nil].
  destruct (Reapply sys devicePath settings' version); simpl;
    rewrite list_elem_of_singleton; intros ->; simpl; eauto.
Qed.

Lemma example_trySet_ready :
  trySet LittleEndian trailing_dot_kept system_ready "ctrld0" config_one_ipv4
  = (Returned None, [reapply_one_ipv4]).
Proof. vm_compute. reflexivity. Qed.

Lemma example_reapply_one_ipv4 :
  reapply_one_ipv4
  ∈ snd (trySet LittleEndian trailing_dot_kept system_ready "ctrld0" config_one_ipv4).
Proof. rewrite example_trySet_ready. by apply list_elem_of_singleton. Qed.

(** X1: [trySet] calls [Reapply] at most once, and it returns nil exactly
    when it made that one call and NetworkManager accepted it. Every
    failure before [Reapply] returns its error without a [Reapply] call: a
    failure to connect to the system bus, a failed device lookup, and a
    failure to fetch the applied connection. *)
Theorem trySet_nil_iff_reapply_accepted
        (Native : ByteOrder) (WithTrailingDot : FQDN -> string) (sys : System)
        (interfaceName : string) (config : OSConfig) :
  (length (snd (trySet Native WithTrailingDot sys interfaceName config)) <= 1)%nat /\
  (fst (trySet Native WithTrailingDot sys interfaceName config) = Returned None
   <-> exists call,
         snd (trySet Native WithTrailingDot sys interfaceName config) = [call] /\
         accepted_by sys call) /\
  (forall e,
     SystemBus sys = Err e ->
     trySet Native WithTrailingDot sys interfaceName config
     = (Returned (Some ("connecting to system bus: " +:+ e)), [])) /\
  (forall conn e,
     SystemBus sys = Ok conn ->
     GetDeviceByIpIface sys interfaceName = Err e ->
     trySet Native WithTrailingDot sys interfaceName config
     = (Returned (Some ("getDeviceByIpIface: " +:+ e)), [])) /\
  (forall conn devicePath e,
     SystemBus sys = Ok conn ->
     GetDeviceByIpIface sys interfaceName = Ok devicePath ->
     GetAppliedConnection sys devicePath = Err e ->
     trySet Native WithTrailingDot sys interfaceName config
     = (Returned (Some ("getAppliedConnection: " +:+ e)), [])).
Proof.
  split; [| split; [| split; [| split]]].
  - unfold trySet.
    destruct (SystemBus sys); simpl; [| lia].
    destruct (GetDeviceByIpIface sys interfaceName) as [devicePath |]; simpl; [| lia].
    destruct (GetAppliedConnection sys devicePath) as [[settings version] |]; simpl; [| lia].
    destruct (mutate_settings _ _ _ _ _) as [settings' |]; simpl; [| lia].
    destruct (Reapply sys devicePath settings' version); simpl; lia.
  - unfold trySet, accepted_by.
    destruct (SystemBus sys); simpl; [| split; [done | by intros (? & ? & _)]].
    destruct (GetDeviceByIpIface sys interfaceName) as [devicePath |]; simpl;
      [| split; [done | by intros (? & ? & _)]].
    destruct (GetAppliedConnection sys devicePath) as [[settings version] |]; simpl;
      [| split; [done | by intros (? & ? & _)]].
    destruct (mutate_settings _ _ _ _ _) as [settings' |]; simpl;
      [| split; [done | by intros (? & ? & _)]].
    destruct (Reapply sys devicePath settings' version) as [e |] eqn:Hre; simpl.
    + split; [done |].
      intros (call & Hcall & Hok). injection Hcall as <-. simpl in Hok. congruence.
    + split; [| done]. intros _. eexists. split; [done |]. done.
  - intros e Hbus. unfold trySet. by rewrite Hbus.
  - intros conn e Hbus Hdev. unfold trySet. by rewrite Hbus, Hdev.
  - intros conn devicePath e Hbus Hdev Happ. unfold trySet.
    by rewrite Hbus, Hdev, Happ.
Qed.

Lemma trySet_nil_iff_reapply_accepted_witness :
  GetDeviceByIpIface system_not_ready "ctrld0"
  = Err "No device found for the requested iface." /\
  trySet LittleEndian trailing_dot_kept system_not_ready "ctrld0" config_one_ipv4
  = (Returned (Some "getDeviceByIpIface: No device found for the requested iface."%string),
     []) /\
  (fst (trySet LittleEndian trailing_dot_kept system_ready "ctrld0" config_one_ipv4)
   = Returned None
   <-> exists call,
         snd (trySet LittleEndian trailing_dot_kept system_ready "ctrld0" config_one_ipv4)
         = [call] /\
         accepted_by system_ready call).
Proof.
  split; [reflexivity |]. split.
  - destruct (trySet_nil_iff_reapply_accepted LittleEndian trailing_dot_kept
                system_not_ready "ctrld0" config_one_ipv4) as (_ & _ & _ & Hdev & _).
    exact (Hdev tt "No device found for the requested iface."%string eq_refl eq_refl).
  - destruct (trySet_nil_iff_reapply_accepted LittleEndian trailing_dot_kept
                system_ready "ctrld0" config_one_ipv4) as (_ & Hnil & _).
    exact Hnil.
Defined.

(** X2: every [Reapply] call of [trySet] goes to the device that
    [GetDeviceByIpIface] named for the interface, and carries the version
    token that [GetAppliedConnection] returned for that device. *)
Theorem trySet_reapplies_with_fetched_version
        (Native : ByteOrder) (WithTrailingDot : FQDN -> string) (sys : System)
        (interfaceName : string) (config : OSConfig) (call : ReapplyCall) :
  call ∈ snd (trySet Native WithTrailingDot sys interfaceName config) ->
  GetDeviceByIpIface sys interfaceName = Ok (rc_device call) /\
  exists settings,
    GetAppliedConnection sys (rc_device call) = Ok (settings, rc_version call).
Proof.
  intros Hin. destruct (trySet_call_inv _ _ _ _ _ _ Hin) as (settings & Hdev & Happ & _).
  split; [done |]. by exists settings.
Qed.

Lemma trySet_reapplies_with_fetched_version_witness :
  reapply_one_ipv4
  ∈ snd (trySet LittleEndian trailing_dot_kept system_ready "ctrld0" config_one_ipv4) /\
  GetDeviceByIpIface system_ready "ctrld0" = Ok (rc_device reapply_one_ipv4) /\
  exists settings,
    GetAppliedConnection system_ready (rc_device reapply_one_ipv4)
    = Ok (settings, rc_version reapply_one_ipv4).
Proof.
  split; [exact example_reapply_one_ipv4 |].
  exact (trySet_reapplies_with_fetched_version LittleEndian trailing_dot_kept system_ready
           "ctrld0" config_one_ipv4 reapply_one_ipv4 example_reapply_one_ipv4).
Defined.

(** X3: what [trySet] submits differs from the applied connection it
    fetched only in the ipv4 and ipv6 sections, and there only in the
    properties it assigns or deletes: every other section and every other
    property is passed on as it was. *)
Theorem trySet_preserves_other_properties
        (Native : ByteOrder) (WithTrailingDot : FQDN -> string) (sys : System)
        (interfaceName : string) (config : OSConfig) (call : ReapplyCall)
        (settings : nmConnectionSettings) (version : Z) :
  call ∈ snd (trySet Native WithTrailingDot sys interfaceName config) ->
  GetAppliedConnection sys (rc_device call) = Ok (settings, version) ->
  (forall section, section <> "ipv4"%string -> section <> "ipv6"%string ->
                   rc_settings call !! section = settings !! section) /\
  (forall key, key ∉ ipv4_assigned -> key ∉ deprecatedProperties ->
               property_of (rc_settings call) "ipv4" key = property_of settings "ipv4" key) /\
  (forall key, key ∉ ipv6_assigned -> key ∉ deprecatedProperties ->
               property_of (rc_settings call) "ipv6" key = property_of settings "ipv6" key).
Proof.
  intros Hin Happ.
  destruct (trySet_call_inv _ _ _ _ _ _ Hin) as (settings0 & _ & Happ0 & Hm).
  rewrite Happ in Happ0. injection Happ0 as <- _.
  destruct (mutate_settings_sections _ _ _ _ _ _ Hm)
    as (ipv4Map & ipv6Map & H4 & H6 & H4' & H6' & Hrest).
  split; [exact Hrest |]. unfold property_of. rewrite H4, H6, H4', H6'. simpl. split.
  - intros key Hna Hnd. rewrite write_ipv4_lookup. rewrite decide_False by done.
    unfold ipv4_assigned in Hna. rewrite !elem_of_cons, elem_of_nil in Hna.
    repeat case_decide; tauto.
  - intros key Hna Hnd. rewrite write_ipv6_lookup. rewrite decide_False by done.
    unfold ipv6_assigned in Hna. rewrite !elem_of_cons, elem_of_nil in Hna.
    repeat case_decide; tauto.
Qed.

Lemma trySet_preserves_other_properties_witness :
  reapply_one_ipv4
  ∈ snd (trySet LittleEndian trailing_dot_kept system_ready "ctrld0" config_one_ipv4) /\
  rc_settings reapply_one_ipv4 !! "connection"%string
  = applied_connection !! "connection"%string /\
  applied_connection !! "connection"%string
  = Some {[ "id"%string := VString "ctrld0" ]}.
Proof.
  split; [exact example_reapply_one_ipv4 |]. split; [| reflexivity].
  assert (Happ : GetAppliedConnection system_ready (rc_device reapply_one_ipv4)
                 = Ok (applied_connection, 3)) by reflexivity.
  destruct (trySet_preserves_other_properties LittleEndian trailing_dot_kept system_ready
              "ctrld0" config_one_ipv4 reapply_one_ipv4 applied_connection 3
              example_reapply_one_ipv4 Happ) as (Hrest & _ & _).
  apply Hrest; discriminate.
Defined.

(** X4: the deprecated properties [addresses] and [routes] are never
    submitted: in what [trySet] hands to [Reapply] both sections lack them,
    whatever the applied connection held. *)
Theorem trySet_drops_deprecated_properties
        (Native : ByteOrder) (WithTrailingDot : FQDN -> string) (sys : System)
        (interfaceName : string) (config : OSConfig) (call : ReapplyCall) (key : string) :
  call ∈ snd (trySet Native WithTrailingDot sys interfaceName config) ->
  key ∈ deprecatedProperties ->
  property_of (rc_settings call) "ipv4" key = None /\
  property_of (rc_settings call) "ipv6" key = None.
Proof.
  intros Hin Hkey.
  destruct (trySet_call_inv _ _ _ _ _ _ Hin) as (settings & _ & _ & Hm).
  destruct (mutate_settings_sections _ _ _ _ _ _ Hm)
    as (ipv4Map & ipv6Map & _ & _ & H4' & H6' & _).
  unfold property_of. rewrite H4', H6'. simpl.
  rewrite write_ipv4_lookup, write_ipv6_lookup. by rewrite !decide_True.
Qed.

Lemma trySet_drops_deprecated_properties_witness :
  reapply_one_ipv4
  ∈ snd (trySet LittleEndian trailing_dot_kept system_ready "ctrld0" config_one_ipv4) /\
  "addresses"%string ∈ deprecatedProperties /\
  property_of applied_connection "ipv4" "addresses" = Some (VOpaque "aau" []) /\
  property_of (rc_settings reapply_one_ipv4) "ipv4" "addresses" = None /\
  property_of (rc_settings reapply_one_ipv4) "ipv6" "addresses" = None.
Proof.
  assert (Hkey : "addresses"%string ∈ deprecatedProperties)
    by (apply elem_of_cons; by left).
  split; [exact example_reapply_one_ipv4 |]. split; [exact Hkey |].
  split; [reflexivity |].
  exact (trySet_drops_deprecated_properties LittleEndian trailing_dot_kept system_ready
           "ctrld0" config_one_ipv4 reapply_one_ipv4 "addresses"
           example_reapply_one_ipv4 Hkey).
Defined.

(** X5: in what [trySet] submits, the ipv6 section always has the method
    "auto" and the three flags that switch off automatic routes, automatic
    DNS and the default route; [address-data] holds the staged interface
    addresses when there are any, and is left as the applied connection had
    it when there are none. *)
Theorem trySet_ipv6_section
        (Native : ByteOrder) (WithTrailingDot : FQDN -> string) (sys : System)
        (interfaceName : string) (config : OSConfig) (call : ReapplyCall)
        (settings : nmConnectionSettings) (version : Z) :
  call ∈ snd (trySet Native WithTrailingDot sys interfaceName config) ->
  GetAppliedConnection sys (rc_device call) = Ok (settings, version) ->
  property_of (rc_settings call) "ipv6" "method" = Some (VString "auto") /\
  property_of (rc_settings call) "ipv6" "ignore-auto-routes" = Some (VBool true) /\
  property_of (rc_settings call) "ipv6" "ignore-auto-dns" = Some (VBool true) /\
  property_of (rc_settings call) "ipv6" "never-default" = Some (VBool true) /\
  property_of (rc_settings call) "ipv6" "address-data"
  = match staged_of sys interfaceName with
    | [] => property_of settings "ipv6" "address-data"
    | staged => Some (VAddressData staged)
    end.
Proof.
  intros Hin Happ.
  destruct (trySet_call_inv _ _ _ _ _ _ Hin) as (settings0 & _ & Happ0 & Hm).
  rewrite Happ in Happ0. injection Happ0 as <- _.
  destruct (mutate_settings_sections _ _ _ _ _ _ Hm)
    as (ipv4Map & ipv6Map & _ & H6 & _ & H6' & _).
  unfold property_of. rewrite H6, H6'. cbn [mbind option_bind].
  rewrite !write_ipv6_lookup.
  split; [done |]. split; [done |]. split; [done |]. split; [done |].
  rewrite decide_False by (by apply not_deprecated).
  rewrite !(decide_False (P := "address-data"%string = _)) by done.
  rewrite decide_True by done.
  destruct (staged_of sys interfaceName) as [| entry rest].
  - by rewrite bool_decide_eq_false_2 by (simpl; lia).
  - by rewrite bool_decide_eq_true_2 by (simpl; lia).
Qed.

Lemma trySet_ipv6_section_witness :
  reapply_one_ipv4
  ∈ snd (trySet LittleEndian trailing_dot_kept system_ready "ctrld0" config_one_ipv4) /\
  GetAppliedConnection system_ready (rc_device reapply_one_ipv4)
  = Ok (applied_connection, 3) /\
  property_of applied_connection "ipv6" "method" = Some (VString "ignore") /\
  property_of (rc_settings reapply_one_ipv4) "ipv6" "method" = Some (VString "auto") /\
  property_of (rc_settings reapply_one_ipv4) "ipv6" "address-data"
  = Some (VAddressData [("fe80::1"%string, 128)]).
Proof.
  assert (Happ : GetAppliedConnection system_ready (rc_device reapply_one_ipv4)
                 = Ok (applied_connection, 3)) by reflexivity.
  split; [exact example_reapply_one_ipv4 |]. split; [exact Happ |].
  split; [reflexivity |].
  destruct (trySet_ipv6_section LittleEndian trailing_dot_kept system_ready
              "ctrld0" config_one_ipv4 reapply_one_ipv4 applied_connection 3
              example_reapply_one_ipv4 Happ) as (Hmethod & _ & _ & _ & Hdata).
  split; [exact Hmethod | exact Hdata].
Defined.

Lemma AddrFromSlice_Unmap_stageable ip mask :
  (let '(nip, ok) := AddrFromSlice_Unmap ip in
   if ok && Is6 nip then Some (Addr_String nip) else None)
  = (fun p => Addr_String (Addr6 p "")) <$> stageable (IPNet ip mask).
Proof.
  unfold AddrFromSlice_Unmap, stageable.
  destruct ip as [| a [| b [| c [| d [| e rest]]]]]; try done.
  destruct (bool_decide _); [| done].
  by destruct (IPText.To4 _) as [[[[? ?] ?] ?] |].
Qed.

Lemma stage_addrs6_acc addrs addrs6 :
  stage_addrs6 addrs addrs6
  = addrs6 ++ map (fun p => (Addr_String (Addr6 p ""), 128)) (omap stageable addrs).
Proof.
  revert addrs6. induction addrs as [| a addrs IH]; intros addrs6.
  - simpl. by rewrite app_nil_r.
  - destruct a as [ip mask |].
    + pose proof (AddrFromSlice_Unmap_stageable ip mask) as Hs.
      cbn [stage_addrs6 omap list_omap]. 
      destruct (AddrFromSlice_Unmap ip) as [nip ok].
      destruct (ok && Is6 nip); destruct (stageable (IPNet ip mask)) as [p |];
        cbn [fmap option_fmap option_map] in Hs; try discriminate.
      * injection Hs as Hs. rewrite IH, Hs. cbn [map]. by rewrite <- app_assoc.
      * by rewrite IH.
    + cbn [stage_addrs6 omap list_omap]. simpl. by rewrite IH.
Qed.

(** X6: the addresses [trySet] stages are, in the order of the interface's
    address list, exactly the sixteen-byte addresses that are not
    IPv4-mapped, each in its text form with prefix length 128; IPv4
    addresses, IPv4-mapped addresses and entries that are no IP networks
    are never staged. *)
Theorem staged_addresses_are_the_ipv6_ones (addrs : list NetAddr) :
  stage_addrs6 addrs []
  = map (fun p => (Addr_String (Addr6 p ""), 128)) (omap stageable addrs).
Proof. by rewrite stage_addrs6_acc. Qed.

Lemma example_staged :
  stage_addrs6 [IPNet [x0a; x00; x00; x02] []; OtherAddr;
                IPNet (IPText.IPv4 x0a x00 x00 x03) []; IPNet link_local_1 [];
                IPNet [x01; x02; x03] []] []
  = [("fe80::1"%string, 128)].
Proof. vm_compute. reflexivity. Qed.

(** X7: when the applied connection lacks the ipv4 or the ipv6 section,
    the first assignment to the missing section's nil map panics: a run of
    [SetDNS] whose first attempt meets such a connection ends in that panic
    at once, without a [Reapply] call, a sleep or a further attempt. *)
Theorem SetDNS_panics_on_missing_section
        (Native : ByteOrder) (WithTrailingDot : FQDN -> string) (reconfigTimeout : Z)
        (interfaceName : string) (config : OSConfig) (world : nat -> Attempt)
        (devicePath : ObjectPath) (settings : nmConnectionSettings) (version : Z) :
  0 < reconfigTimeout ->
  SystemBus (at_system (world 0%nat)) = Ok tt ->
  GetDeviceByIpIface (at_system (world 0%nat)) interfaceName = Ok devicePath ->
  GetAppliedConnection (at_system (world 0%nat)) devicePath = Ok (settings, version) ->
  settings !! "ipv4"%string = None \/ settings !! "ipv6"%string = None ->
  SetDNS Native WithTrailingDot reconfigTimeout interfaceName config world
  = (Panicked nil_map_panic, [EvTry 0 (Panicked nil_map_panic) []]).
Proof.
  intros Hpos Hbus Hdev Happ Hmissing.
  assert (Htry : attempt Native WithTrailingDot interfaceName config world 0
                 = (Panicked nil_map_panic, [])).
  { unfold attempt, trySet, mutate_settings. rewrite Hbus, Hdev, Happ.
    destruct (settings !! "ipv4"%string) as [ipv4Map |] eqn:H4.
    - destruct Hmissing as [? | H6]; [done |].
      rewrite lookup_insert_ne by done. by rewrite H6.
    - done. }
  unfold SetDNS. rewrite SetDNS_loop_step. rewrite decide_True by done.
  by rewrite Htry.
Qed.

Lemma SetDNS_panics_on_missing_section_witness :
  0 < second /\
  applied_without_ipv6 !! "ipv6"%string = None /\
  SetDNS LittleEndian trailing_dot_kept second "ctrld0" config_one_ipv4
         (fun _ => mkAttempt system_without_ipv6 2000000 0)
  = (Panicked nil_map_panic, [EvTry 0 (Panicked nil_map_panic) []]).
Proof.
  assert (Hpos : 0 < second) by reflexivity.
  assert (H6 : applied_without_ipv6 !! "ipv6"%string = None) by reflexivity.
  split; [exact Hpos |]. split; [exact H6 |].
  exact (SetDNS_panics_on_missing_section LittleEndian trailing_dot_kept second "ctrld0"
           config_one_ipv4 (fun _ => mkAttempt system_without_ipv6 2000000 0)
           "/org/freedesktop/NetworkManager/Devices/2" applied_without_ipv6 3
           Hpos eq_refl eq_refl eq_refl (or_intror H6)).
Defined.

Lemma priority_of_split {A} (dns : list A) config :
  MatchDomains config <> [] ->
  priority_of dns config
  = if bool_decide (dns = []) then lowerPriority else mediumPriority.
Proof.
  unfold priority_of. intros Hne.
  destruct dns as [| x dns]; [done |].
  rewrite bool_decide_eq_false_2 by done.
  rewrite bool_decide_eq_true_2; [by rewrite bool_decide_eq_false_2 |].
  destruct (MatchDomains config); [done | simpl; lia].
Qed.

(** X8: in split mode, with at least one match domain, every settings
    object [SetDNS] submits carries the medium priority in the section of
    each address family that has a nameserver and the lowest priority in the
    section of a family that has none; the highest priority is never
    written. *)
Theorem split_mode_priority_per_family
        (Native : ByteOrder) (WithTrailingDot : FQDN -> string) (reconfigTimeout : Z)
        (interfaceName : string) (config : OSConfig) (world : nat -> Attempt)
        (settings : nmConnectionSettings) :
  MatchDomains config <> [] ->
  settings ∈ submitted Native WithTrailingDot reconfigTimeout interfaceName config world ->
  property_of settings "ipv4" "dns-priority"
    = Some (VInt32 (if existsb Is4 (Nameservers config)
                    then mediumPriority else lowerPriority)) /\
  property_of settings "ipv6" "dns-priority"
    = Some (VInt32 (if forallb Is4 (Nameservers config)
                    then lowerPriority else mediumPriority)).
Proof.
  intros Hsplit Hin.
  destruct (submitted_written _ _ _ _ _ _ _ Hin) as (_ & _ & Hp4 & _ & _ & Hp6).
  rewrite Hp4, Hp6, !(priority_of_split _ _ Hsplit), dnsv4_of_filter, dnsv6_of_filter.
  split.
  - destruct (existsb Is4 (Nameservers config)) eqn:He.
    + rewrite bool_decide_eq_false_2; [done |].
      intros Hnil. apply fmap_nil_inv in Hnil. apply filter_nil_existsb in Hnil. congruence.
    + apply filter_nil_existsb in He. by rewrite He.
  - pose proof (existsb_not4 (Nameservers config)) as Hex.
    destruct (forallb Is4 (Nameservers config)); simpl in Hex.
    + apply filter_nil_existsb in Hex. by rewrite Hex.
    + rewrite bool_decide_eq_false_2; [done |].
      intros Hnil. apply fmap_nil_inv in Hnil. apply filter_nil_existsb in Hnil. congruence.
Qed.

Lemma split_mode_priority_per_family_witness :
  MatchDomains config_split <> [] /\
  settings_split ∈ submitted LittleEndian trailing_dot_kept second "ctrld0"
                             config_split world_ready /\
  property_of settings_split "ipv4" "dns-priority" = Some (VInt32 mediumPriority) /\
  property_of settings_split "ipv6" "dns-priority" = Some (VInt32 lowerPriority).
Proof.
  assert (Hne : MatchDomains config_split <> []) by discriminate.
  split; [exact Hne |]. split; [exact example_split_submitted |].
  exact (split_mode_priority_per_family LittleEndian trailing_dot_kept second "ctrld0"
           config_split world_ready settings_split Hne example_split_submitted).
Defined.

Lemma write_ipv4_idempotent Native WithTrailingDot config m :
  write_ipv4 Native WithTrailingDot config (write_ipv4 Native WithTrailingDot config m)
  = write_ipv4 Native WithTrailingDot config m.
Proof.
  apply map_eq. intros key. rewrite !write_ipv4_lookup.
  repeat case_decide; done.
Qed.

Lemma write_ipv6_idempotent Native WithTrailingDot config addrs6 m :
  write_ipv6 Native WithTrailingDot config addrs6
             (write_ipv6 Native WithTrailingDot config addrs6 m)
  = write_ipv6 Native WithTrailingDot config addrs6 m.
Proof.
  apply map_eq. intros key. rewrite !write_ipv6_lookup.
  destruct (bool_decide (0 < length addrs6)%nat); repeat case_decide; done.
Qed.

(** X9: the rewriting of the settings is idempotent: applied to the
    settings object it produced, for the same configuration and the same
    interface addresses, [trySet]'s rewriting gives that object again. *)
Theorem mutate_settings_idempotent
        (Native : ByteOrder) (WithTrailingDot : FQDN -> string) (config : OSConfig)
        (addrs6 : list (string * Z)) (settings settings' : nmConnectionSettings) :
  mutate_settings Native WithTrailingDot config addrs6 settings = Some settings' ->
  mutate_settings Native WithTrailingDot config addrs6 settings' = Some settings'.
Proof.
  intros Hm.
  destruct (mutate_settings_sections _ _ _ _ _ _ Hm)
    as (ipv4Map & ipv6Map & _ & _ & H4' & H6' & _).
  unfold mutate_settings. rewrite H4'.
  rewrite lookup_insert_ne by done. rewrite H6'.
  rewrite write_ipv4_idempotent, write_ipv6_idempotent.
  f_equal. rewrite (insert_id settings' "ipv4"%string) by done.
  by apply insert_id.
Qed.

Lemma mutate_settings_idempotent_witness :
  mutate_settings LittleEndian trailing_dot_kept config_one_ipv4
                  [("fe80::1"%string, 128)] applied_connection
  = Some settings_one_ipv4 /\
  mutate_settings LittleEndian trailing_dot_kept config_one_ipv4
                  [("fe80::1"%string, 128)] settings_one_ipv4
  = Some settings_one_ipv4.
Proof.
  assert (H : mutate_settings LittleEndian trailing_dot_kept config_one_ipv4
                              [("fe80::1"%string, 128)] applied_connection
              = Some settings_one_ipv4) by (vm_compute; reflexivity).
  split; [exact H |].
  exact (mutate_settings_idempotent LittleEndian trailing_dot_kept config_one_ipv4
           [("fe80::1"%string, 128)] applied_connection settings_one_ipv4 H).
Defined.

(** ** Further properties of the nameserver translation *)

Lemma pack4_range x0 x1 x2 x3 :
  0 <= x0 < 256 -> 0 <= x1 < 256 -> 0 <= x2 < 256 -> 0 <= x3 < 256 ->
  0 <= pack4 x0 x1 x2 x3 < 2 ^ 32.
Proof.
  intros H0 H1 H2 H3.
  assert (Hmod : pack4 x0 x1 x2 x3 mod 2 ^ 32 = pack4 x0 x1 x2 x3).
  { rewrite <- Z.land_ones by lia. unfold pack4. apply Z.bits_inj'. intros n Hn.
    rewrite Z.land_spec, !Z.lor_spec, !Z.shiftl_spec by lia.
    destruct (Z.lt_ge_cases n 32) as [Hlt | Hge].
    - rewrite Z.ones_spec_low by lia. apply Bool.andb_true_r.
    - rewrite Z.ones_spec_high by lia. rewrite Bool.andb_false_r.
      rewrite !byte_testbit_high by lia. done. }
  rewrite <- Hmod. apply Z.mod_pos_bound. lia.
Qed.

Lemma Uint32_range o b : 0 <= Uint32 o b < 2 ^ 32.
Proof.
  unfold Uint32. destruct o; apply pack4_range; apply byteZ_range.
Qed.

Lemma As16_length ip : Is4 ip = false -> length (As16 ip) = 16%nat.
Proof.
  destruct ip as [| a b c d | bytes zone]; try done. intros _. simpl.
  unfold copy_into_zeroed. rewrite length_take, length_app, length_replicate. lia.
Qed.

(** X10: the wire lists are well formed for every configuration: each
    entry of the IPv4 list fits a [uint32], each entry of the IPv6 list has
    exactly sixteen bytes (an invalid zero address comes out as sixteen zero
    bytes), and together the two lists have one entry per nameserver. *)
Theorem nameserver_wire_lists_well_formed (Native : ByteOrder) (config : OSConfig) :
  Forall (fun v => 0 <= v < 2 ^ 32) (dnsv4_of Native config) /\
  Forall (fun b => length b = 16%nat) (dnsv6_of Native config) /\
  (length (dnsv4_of Native config) + length (dnsv6_of Native config)
   = length (Nameservers config))%nat.
Proof.
  rewrite dnsv4_of_filter, dnsv6_of_filter. split; [| split].
  - apply Forall_forall. intros v Hv. apply list_elem_of_fmap in Hv as (ip & -> & _).
    apply Uint32_range.
  - apply Forall_forall. intros b Hb. apply list_elem_of_fmap in Hb as (ip & -> & Hip).
    apply list_elem_of_In, filter_In in Hip as [_ Hnot].
    apply As16_length. unfold not4 in Hnot. by destruct (Is4 ip).
  - rewrite !length_map. induction (Nameservers config) as [| ip ns IH]; simpl; [done |].
    unfold not4 at 1. destruct (Is4 ip); simpl; lia.
Qed.

Lemma example_zero_address :
  dnsv6_of LittleEndian (mkOSConfig [AddrZero] [] []) = [replicate 16 x00].
Proof. reflexivity. Qed.

(** X11: the 32-bit form determines the IPv4 nameserver: two IPv4
    addresses with the same wire integer are the same address, in either
    byte order. *)
Theorem wire4_determines_address (Native : ByteOrder) (ip ip' : Addr) :
  Is4 ip = true -> Is4 ip' = true ->
  wire4 Native ip = wire4 Native ip' -> ip = ip'.
Proof. intros H4 H4' Heq. by apply (wire4_inj Native). Qed.

Lemma wire4_determines_address_witness :
  Is4 (Addr4 x0a x00 x00 x01) = true /\
  wire4 BigEndian (Addr4 x0a x00 x00 x01) = 167772161 /\
  wire4 LittleEndian (Addr4 x0a x00 x00 x01) = 16777226 /\
  (wire4 BigEndian (Addr4 x0a x00 x00 x01) = wire4 BigEndian (Addr4 x0a x00 x00 x01) ->
   Addr4 x0a x00 x00 x01 = Addr4 x0a x00 x00 x01).
Proof.
  split; [reflexivity |]. split; [reflexivity |]. split; [reflexivity |].
  exact (wire4_determines_address BigEndian (Addr4 x0a x00 x00 x01)
           (Addr4 x0a x00 x00 x01) eq_refl eq_refl).
Defined.

(** ** Further properties of the search-domain list *)

(** X12: the search-domain list [trySet] builds writes every domain of
    the configuration exactly once: it is the written form of a list of
    entries whose domains are pairwise distinct and are precisely the
    search and match domains, followed by "~." when there is no match
    domain. *)
Theorem search_list_writes_each_domain_once
        (WithTrailingDot : FQDN -> string) (config : OSConfig) :
  exists entries,
    search_of WithTrailingDot config
    = map (written WithTrailingDot) entries
      ++ (if bool_decide (MatchDomains config = []) then ["~."%string] else []) /\
    NoDup (map domain_of entries) /\
    forall d, d ∈ map domain_of entries
              <-> d ∈ SearchDomains config \/ d ∈ MatchDomains config.
Proof.
  exists (first_seen_wins (map FromSearch (SearchDomains config) ++
                           map FromMatch (MatchDomains config))).
  split; [apply search_of_refines_spec |]. split; [apply first_seen_wins_NoDup |].
  intros d. rewrite first_seen_wins_domains, map_app, elem_of_app.
  rewrite map_domain_FromSearch.
  assert (Hm : map domain_of (map FromMatch (MatchDomains config)) = MatchDomains config).
  { induction (MatchDomains config); simpl; congruence. }
  by rewrite Hm.
Qed.

(** ** Further properties of the retry loop *)

Lemma slots_left_positive (reconfigTimeout now : Z) :
  now < reconfigTimeout -> (1 <= slots_left reconfigTimeout now)%nat.
Proof.
  unfold slots_left. change sleepInterval with 10000000. intros Hlt.
  Z.div_mod_to_equations. lia.
Qed.

Lemma SetDNS_loop_attempts Native WithTrailingDot reconfigTimeout interfaceName config
      world i now err :
  (attempts_of (snd (SetDNS_loop Native WithTrailingDot reconfigTimeout interfaceName
                                 config world i now err))
   <= slots_left reconfigTimeout now)%nat.
Proof.
  remember (slots_left reconfigTimeout now) as m eqn:Hm.
  revert i now err Hm. induction m as [m IH] using lt_wf_ind. intros i now err Hm.
  rewrite SetDNS_loop_step.
  destruct (decide (now < reconfigTimeout)) as [Hlive |];
    [| unfold attempts_of; simpl; lia].
  pose proof (slots_left_positive _ _ Hlive) as Hpos.
  pose proof (slots_left_decrease reconfigTimeout now (at_took (world i))
                (at_overslept (world i)) Hlive) as Hdec.
  fold (after_sleep world i now) in Hdec.
  destruct (attempt _ _ _ _ _ i) as [[[e |] | msg] calls].
  - specialize (IH (slots_left reconfigTimeout (after_sleep world i now))
                   ltac:(lia) (S i) (after_sleep world i now) (Some e) eq_refl).
    destruct (SetDNS_loop _ _ _ _ _ _ (S i) _ (Some e)) as [o trace].
    unfold attempts_of in *. simpl in *. lia.
  - unfold attempts_of. simpl. lia.
  - unfold attempts_of. simpl. lia.
Qed.

(** X13: the retry loop is bounded: a run of [SetDNS] makes at most as
    many attempts as sleep intervals of ten milliseconds are needed to
    cover the timeout (one hundred for a timeout of one second), however
    the attempts turn out and however short they are. *)
Theorem SetDNS_attempts_bounded
        (Native : ByteOrder) (WithTrailingDot : FQDN -> string) (reconfigTimeout : Z)
        (interfaceName : string) (config : OSConfig) (world : nat -> Attempt) :
  (attempts_of (snd (SetDNS Native WithTrailingDot reconfigTimeout interfaceName
                            config world))
   <= slots_left reconfigTimeout 0)%nat /\
  Z.of_nat (slots_left reconfigTimeout 0)
  = Z.max 0 ((reconfigTimeout + (sleepInterval - 1)) / sleepInterval).
Proof.
  split; [apply SetDNS_loop_attempts |].
  unfold slots_left. rewrite Z.sub_0_r. lia.
Qed.

Lemma example_slots_one_second : slots_left second 0 = 100%nat.
Proof. reflexivity. Qed.

Lemma trySet_nil_inv Native WithTrailingDot sys interfaceName config :
  fst (trySet Native WithTrailingDot sys interfaceName config) = Returned None ->
  exists call,
    snd (trySet Native WithTrailingDot sys interfaceName config) = [call] /\
    accepted_by sys call.
Proof.
  unfold trySet, accepted_by.
  destruct (SystemBus sys); [| done].
  destruct (GetDeviceByIpIface sys interfaceName) as [devicePath |]; [| done].
  destruct (GetAppliedConnection sys devicePath) as [[settings version] |]; [| done].
  destruct (mutate_settings _ _ _ _ _) as [settings' |]; [| done].
  destruct (Reapply sys devicePath settings' version) as [e |] eqn:Hre; [done |].
  intros _. eexists. split; [reflexivity | done].
Qed.

Lemma reapply_calls_app t1 t2 :
  reapply_calls (t1 ++ t2) = reapply_calls t1 ++ reapply_calls t2.
Proof. unfold reapply_calls. apply flat_map_app. Qed.

(** X14: with a positive timeout, [SetDNS] returns nil only after
    NetworkManager accepted a [Reapply]: the run ends with an attempt that
    made exactly one [Reapply] call, that call was accepted, and it is the
    last call of the run. *)
Theorem SetDNS_nil_means_reapply_accepted
        (Native : ByteOrder) (WithTrailingDot : FQDN -> string) (reconfigTimeout : Z)
        (interfaceName : string) (config : OSConfig) (world : nat -> Attempt) :
  0 < reconfigTimeout ->
  fst (SetDNS Native WithTrailingDot reconfigTimeout interfaceName config world)
  = Returned None ->
  exists n call,
    snd (attempt Native WithTrailingDot interfaceName config world n) = [call] /\
    accepted_by (at_system (world n)) call /\
    last (reapply_calls
            (snd (SetDNS Native WithTrailingDot reconfigTimeout interfaceName config world)))
    = Some call.
Proof.
  intros Hpos Hnil.
  destruct (SetDNS_loop_run Native WithTrailingDot reconfigTimeout interfaceName config
              world 0 None Hpos) as (n & _ & _ & _ & _ & Hrun).
  unfold SetDNS in *. simpl in Hrun. rewrite Hrun in Hnil |- *. simpl in Hnil.
  destruct (trySet_nil_inv _ _ _ _ _ Hnil) as (call & Hcalls & Hok).
  exists n, call. split; [exact Hcalls |]. split; [exact Hok |].
  cbn [snd]. rewrite reapply_calls_app.
  unfold attempt in *. rewrite Hnil, Hcalls. simpl.
  apply last_snoc.
Qed.

Lemma SetDNS_nil_means_reapply_accepted_witness :
  0 < second /\
  fst (SetDNS LittleEndian trailing_dot_kept second "ctrld0" config_one_ipv4
              (world_ready_at 2))
  = Returned None /\
  exists n call,
    snd (attempt LittleEndian trailing_dot_kept "ctrld0" config_one_ipv4
                 (world_ready_at 2) n) = [call] /\
    accepted_by (at_system (world_ready_at 2 n)) call /\
    last (reapply_calls
            (snd (SetDNS LittleEndian trailing_dot_kept second "ctrld0" config_one_ipv4
                         (world_ready_at 2))))
    = Some call.
Proof.
  assert (Hpos : 0 < second) by reflexivity.
  assert (Hnil : fst (SetDNS LittleEndian trailing_dot_kept second "ctrld0"
                             config_one_ipv4 (world_ready_at 2)) = Returned None)
    by (rewrite example_run_late; reflexivity).
  split; [exact Hpos |]. split; [exact Hnil |].
  exact (SetDNS_nil_means_reapply_accepted LittleEndian trailing_dot_kept second "ctrld0"
           config_one_ipv4 (world_ready_at 2) Hpos Hnil).
Defined.

(** Without a positive timeout the context is done before the first test
    of the loop: no attempt is made and nil is returned. *)
Lemma SetDNS_without_time Native WithTrailingDot reconfigTimeout interfaceName config world :
  reconfigTimeout <= 0 ->
  SetDNS Native WithTrailingDot reconfigTimeout interfaceName config world
  = (Returned None, []).
Proof.
  intros Hle. unfold SetDNS. rewrite SetDNS_loop_step. by rewrite decide_False by lia.
Qed.

(** ** Further properties of the discovery *)

Lemma dns_loop_acc dns :
  forall ns, dns_loop dns ns = ns ++ omap nameserver_of (chain_entries dns).
Proof.
  remember (length (chain_entries dns)) as n eqn:Hn. revert dns Hn.
  induction n as [n IH] using lt_wf_ind. intros [address [next |]] Hn ns; simpl in *.
  - rewrite (IH (length (chain_entries next)) ltac:(lia) next eq_refl).
    destruct (nameserver_of address); simpl; [by rewrite <- app_assoc | done].
  - destruct (nameserver_of address); simpl; [done | by rewrite app_nil_r].
Qed.

Lemma adapters_loop_acc aas :
  forall ns, adapters_loop aas ns
             = ns ++ omap nameserver_of (flat_map adapter_entries aas).
Proof.
  induction aas as [| aa aas IH]; intros ns; simpl.
  - by rewrite app_nil_r.
  - rewrite IH. unfold adapter_entries at 2.
    rewrite omap_app.
    destruct (FirstDnsServerAddress aa) as [dns |]; simpl.
    + by rewrite dns_loop_acc, <- app_assoc.
    + done.
Qed.

Lemma nameservers_omap os :
  nameservers os
  = match fst (adapterAddresses os) with
    | Adapters aas => omap nameserver_of (flat_map adapter_entries aas)
    | SyscallError _ _ => []
    end.
Proof.
  unfold nameservers. destruct (fst (adapterAddresses os)); [| done].
  by rewrite adapters_loop_acc.
Qed.

(** X15: discovery keeps the order of the operating system's records: the
    result is, adapter by adapter and entry by entry in the order of the
    links, the text of every DNS server entry that is not skipped, with
    nothing added; when the enumeration fails the result is empty. *)
Theorem nameservers_keep_the_order (os : nat -> Z -> Response) :
  nameservers os
  = match fst (adapterAddresses os) with
    | Adapters aas => omap nameserver_of (flat_map adapter_entries aas)
    | SyscallError _ _ => []
    end.
Proof. apply nameservers_omap. Qed.

(** A successful enumeration with a size that is not zero returns the
    adapters of the buffer in the order of their links, the record at the
    start of the buffer first. *)
Lemma success_result_chain r :
  uint32 (size_out r) <> 0 -> success_result r = Adapters (chain_adapters (buffer r)).
Proof.
  intros Hne. unfold success_result. rewrite bool_decide_eq_false_2 by done.
  by rewrite collect_adapters_acc.
Qed.

(** X16: every string discovery returns is a host joined with the port 53:
    it has the form [host:53], or [[host]:53] for a host that contains a
    colon. *)
Theorem nameservers_have_port_53 (os : nat -> Z -> Response) (s : string) :
  s ∈ nameservers os ->
  exists host, s = IPText.JoinHostPort host "53" /\
               (s = host +:+ ":53" \/ s = "[" +:+ host +:+ "]:53").
Proof.
  rewrite nameservers_omap.
  destruct (fst (adapterAddresses os)) as [aas |]; [| by rewrite elem_of_nil].
  intros Hin. apply list_elem_of_omap in Hin as (entry & _ & Hentry).
  unfold nameserver_of in Hentry.
  destruct entry as [[port [[[a b] c] d] | port zone addr | name] | e]; try done.
  - injection Hentry as <-. eexists. split; [reflexivity |].
    unfold IPText.JoinHostPort. destruct (IPText.contains_colon _); [by right | by left].
  - destruct (_ && _); [done |]. injection Hentry as <-. eexists. split; [reflexivity |].
    unfold IPText.JoinHostPort. destruct (IPText.contains_colon _); [by right | by left].
Qed.

Lemma example_nameserver_fec1 :
  "[fec1::1]:53"%string ∈ nameservers (os_at_once adapters_site_local).
Proof. vm_compute. apply elem_of_cons. by left. Qed.

Lemma nameservers_have_port_53_witness :
  "[fec1::1]:53"%string ∈ nameservers (os_at_once adapters_site_local) /\
  exists host, "[fec1::1]:53"%string = IPText.JoinHostPort host "53" /\
               ("[fec1::1]:53"%string = host +:+ ":53" \/
                "[fec1::1]:53"%string = "[" +:+ host +:+ "]:53").
Proof.
  split; [exact example_nameserver_fec1 |].
  exact (nameservers_have_port_53 (os_at_once adapters_site_local) "[fec1::1]:53"
           example_nameserver_fec1).
Defined.

Lemma adapterAddresses_loop_calls (os : nat -> Z -> Response) (l : Z) :
  forall k, 0 <= l < 2 ^ 32 ->
    (k < snd (adapterAddresses_loop os k l))%nat /\
    Z.of_nat (snd (adapterAddresses_loop os k l)) <= Z.of_nat k + (2 ^ 32 - l).
Proof.
  induction l as [l IH] using (well_founded_induction grows_well_founded).
  intros k Hl. rewrite adapterAddresses_loop_step. cbv zeta.
  destruct (decide (status (os k l) = 0)); [simpl; lia |].
  destruct (decide (status (os k l) = ERROR_BUFFER_OVERFLOW)); [| simpl; lia].
  destruct (decide (uint32 (size_out (os k l)) <= l)) as [| Hgrow]; [simpl; lia |].
  assert (Hu : 0 <= uint32 (size_out (os k l)) < 2 ^ 32)
    by (apply Z.mod_pos_bound; lia).
  destruct (IH (uint32 (size_out (os k l))) ltac:(unfold grows; lia) (S k) Hu) as [Hlo Hhi].
  split; lia.
Qed.

(** X17: whatever the operating system answers, [adapterAddresses] calls
    it at least once and at most 2^32 - 15000 times: each further call is
    made with a strictly larger [uint32] buffer size. *)
Theorem adapterAddresses_calls_bounded (os : nat -> Z -> Response) :
  (1 <= snd (adapterAddresses os))%nat /\
  Z.of_nat (snd (adapterAddresses os)) <= 2 ^ 32 - 15000.
Proof.
  unfold adapterAddresses.
  destruct (adapterAddresses_loop_calls os 15000 0 ltac:(lia)) as [Hlo Hhi].
  split; lia.
Qed.

Lemma list_ascii_of_string_app s1 s2 :
  list_ascii_of_string (s1 +:+ s2) = list_ascii_of_string s1 ++ list_ascii_of_string s2.
Proof. induction s1 as [| c s1 IH]; simpl; [done | by rewrite IH]. Qed.

Lemma contains_colon_app s1 s2 :
  IPText.contains_colon (s1 +:+ s2)
  = IPText.contains_colon s1 || IPText.contains_colon s2.
Proof. unfold IPText.contains_colon. by rewrite list_ascii_of_string_app, existsb_app. Qed.

Lemma decimal_without_colon :
  forallb (fun n => negb (IPText.contains_colon (pretty (Z.of_nat n)))) (seq 0 256) = true.
Proof. vm_compute. reflexivity. Qed.

Lemma byte_decimal_without_colon b : IPText.contains_colon (pretty (byteZ b)) = false.
Proof.
  pose proof decimal_without_colon as Hall. rewrite forallb_forall in Hall.
  pose proof (byteZ_range b) as Hb.
  specialize (Hall (Z.to_nat (byteZ b)) ltac:(apply in_seq; lia)).
  rewrite Z2Nat.id in Hall by lia. by apply negb_true_iff in Hall.
Qed.

(** X18: an IPv4 DNS server is never skipped: it is returned in dotted
    decimal form followed by ":53", without brackets. *)
Theorem ipv4_server_is_returned (port : Z) (a b c d : byte) :
  nameserver_of (Ok (SockaddrInet4 port (a, b, c, d)))
  = Some (IPText.string4 a b c d +:+ ":53").
Proof.
  unfold nameserver_of.
  change (IPText.IP_String (IPText.IPv4 a b c d)) with (IPText.string4 a b c d).
  assert (Hplain : IPText.contains_colon (IPText.string4 a b c d) = false).
  { unfold IPText.string4.
    by rewrite !contains_colon_app, !byte_decimal_without_colon. }
  unfold IPText.JoinHostPort. by rewrite Hplain.
Qed.

(** ** Further properties of the resolver *)

Section ResolverMore.

Variable Msg : Type.
Variable Pack : Msg -> Result (list byte).
Variable Unpack : list byte -> Msg * option string.
Variable NewRequestError : string -> string -> option string.
Variable Do : RoundTripper -> Request -> Result HTTPResponse.

(** How far a call gets: no request, a failed exchange, or a response. *)
Lemma Resolve_stages (r : dohResolver) (msg : Msg) :
  (snd (Resolve Msg Pack Unpack NewRequestError Do r msg) = [] /\
   (forall data, Pack msg = Ok data ->
                 NewRequestError "GET" (URL (dns_request (endpoint r) data)) <> None)) \/
  exists data,
    Pack msg = Ok data /\
    NewRequestError "GET" (URL (dns_request (endpoint r) data)) = None.
Proof.
  destruct (Pack msg) as [data | e] eqn:Hpack.
  - destruct (NewRequestError "GET" (URL (dns_request (endpoint r) data))) eqn:Hreq.
    + left. split.
      * unfold Resolve. rewrite Hpack. simpl in Hreq. by rewrite Hreq.
      * intros data' [= <-]. by rewrite Hreq.
    + right. by exists data.
  - left. split; [unfold Resolve; by rewrite Hpack | done].
Qed.

End ResolverMore.

(** X19: [Resolve] closes the HTTP/3 round-tripper in one situation only:
    the resolver is a DoH3 resolver and the exchange itself failed. It is
    the resolver's own round-tripper that is closed; a plain DoH resolver
    never closes it, and neither does a DoH3 resolver once a response has
    arrived, whatever its status and even if its body cannot be read. *)
Theorem Resolve_closes_http3_only_after_failed_exchange
        (Msg : Type) (Pack : Msg -> Result (list byte))
        (Unpack : list byte -> Msg * option string)
        (NewRequestError : string -> string -> option string)
        (Do : RoundTripper -> Request -> Result HTTPResponse)
        (r : dohResolver) (msg : Msg) (p : Pointer) :
  EvCloseHTTP3 p ∈ snd (Resolve Msg Pack Unpack NewRequestError Do r msg)
  <-> isDoH3 r = true /\ p = http3RoundTripper r /\
      exists data e,
        Pack msg = Ok data /\
        NewRequestError "GET" (URL (dns_request (endpoint r) data)) = None /\
        Do (ViaHTTP3 (http3RoundTripper r)) (dns_request (endpoint r) data) = Err e.
Proof.
  destruct (Resolve_stages Msg Pack Unpack NewRequestError Do r msg)
    as [[Hnone Hnot] | (data & Hpack & Hreq)].
  - rewrite Hnone. split; [by rewrite elem_of_nil |].
    intros (_ & _ & data & e & Hpack & Hreq & _). by destruct (Hnot data Hpack).
  - rewrite (Resolve_exchange Msg Pack Unpack NewRequestError Do r msg data Hpack Hreq).
    unfold round_tripper_of. destruct (isDoH3 r) eqn:H3.
    + destruct (Do _ _) as [resp | e] eqn:HDo.
      * split.
        -- destruct (Body resp); simpl; rewrite !elem_of_cons, elem_of_nil;
             intros [? | [? | ?]]; done.
        -- intros (_ & _ & data' & e & Hpack' & _ & HDo').
           rewrite Hpack in Hpack'. injection Hpack' as <-. congruence.
      * simpl. rewrite !elem_of_cons, elem_of_nil. split.
        -- intros [? | [[= ->] | ?]]; try done.
           split; [done |]. split; [done |]. by exists data, e.
        -- intros (_ & -> & _). right. by left.
    + split; [| by intros (? & _)].
      destruct (Do _ _) as [resp | e]; [destruct (Body resp) |]; simpl;
        rewrite ?elem_of_cons, elem_of_nil; intros H; repeat destruct H as [H | H]; done.
Qed.

(** X20: the body of a response is closed on every path that received
    one, and only there: the close is among the events of a call exactly
    when the exchange returned a response, whether the body could be read
    or not and whatever the status was. *)
Theorem Resolve_closes_body_iff_response
        (Msg : Type) (Pack : Msg -> Result (list byte))
        (Unpack : list byte -> Msg * option string)
        (NewRequestError : string -> string -> option string)
        (Do : RoundTripper -> Request -> Result HTTPResponse)
        (r : dohResolver) (msg : Msg) :
  EvCloseBody ∈ snd (Resolve Msg Pack Unpack NewRequestError Do r msg)
  <-> exists data resp,
        Pack msg = Ok data /\
        NewRequestError "GET" (URL (dns_request (endpoint r) data)) = None /\
        Do (round_tripper_of r) (dns_request (endpoint r) data) = Ok resp.
Proof.
  destruct (Resolve_stages Msg Pack Unpack NewRequestError Do r msg)
    as [[Hnone Hnot] | (data & Hpack & Hreq)].
  - rewrite Hnone. split; [by rewrite elem_of_nil |].
    intros (data & resp & Hpack & Hreq & _). by destruct (Hnot data Hpack).
  - rewrite (Resolve_exchange Msg Pack Unpack NewRequestError Do r msg data Hpack Hreq).
    destruct (Do _ _) as [resp | e] eqn:HDo.
    + split; [intros _; by exists data, resp |]. intros _.
      destruct (Body resp); simpl; apply elem_of_cons; right; apply elem_of_cons; by left.
    + split.
      * destruct (isDoH3 r); simpl; rewrite ?elem_of_cons, elem_of_nil;
          intros H; repeat destruct H as [H | H]; done.
      * intros (data' & resp & Hpack' & _ & HDo').
        rewrite Hpack in Hpack'. injection Hpack' as <-. congruence.
Qed.

(** X21: [Resolve] returns a message only for a response with status 200
    whose body was read, and the message is then what unpacking that body
    gave; on every other path the message is nil and the error is not. *)
Theorem Resolve_answers_only_on_200
        (Msg : Type) (Pack : Msg -> Result (list byte))
        (Unpack : list byte -> Msg * option string)
        (NewRequestError : string -> string -> option string)
        (Do : RoundTripper -> Request -> Result HTTPResponse)
        (r : dohResolver) (msg : Msg) :
  (forall answer,
     fst (snd (fst (Resolve Msg Pack Unpack NewRequestError Do r msg))) = Some answer ->
     exists data resp buf,
       Pack msg = Ok data /\
       Do (round_tripper_of r) (dns_request (endpoint r) data) = Ok resp /\
       StatusCode resp = StatusOK /\ Body resp = Ok buf /\
       answer = fst (Unpack buf) /\
       snd (snd (fst (Resolve Msg Pack Unpack NewRequestError Do r msg)))
       = snd (Unpack buf)) /\
  (fst (snd (fst (Resolve Msg Pack Unpack NewRequestError Do r msg))) = None ->
   is_Some (snd (snd (fst (Resolve Msg Pack Unpack NewRequestError Do r msg))))).
Proof.
  destruct (Pack msg) as [data | e] eqn:Hpack;
    [| unfold Resolve; rewrite Hpack; simpl; split; [done | by eexists]].
  destruct (NewRequestError "GET" (URL (dns_request (endpoint r) data))) eqn:Hreq.
  { unfold Resolve. rewrite Hpack. simpl in Hreq. rewrite Hreq. simpl.
    split; [done | by eexists]. }
  rewrite (Resolve_exchange Msg Pack Unpack NewRequestError Do r msg data Hpack Hreq).
  destruct (Do _ _) as [resp | e] eqn:HDo; [| simpl; split; [done | by eexists]].
  destruct (Body resp) as [buf | e] eqn:Hbody; [| simpl; split; [done | by eexists]].
  simpl. destruct (bool_decide (StatusCode resp <> StatusOK)) eqn:Hst; simpl.
  - split; [done | by eexists].
  - apply bool_decide_eq_false in Hst.
    assert (Hok : StatusCode resp = StatusOK).
    { destruct (decide (StatusCode resp = StatusOK)); [done | tauto]. }
    split; [| done]. intros answer [= <-]. by exists data, resp, buf.
Qed.

(** X22: a resolver made by [newDohResolver] sends every request to the
    configured endpoint, through the HTTP/3 round-tripper of the
    configuration when its type is DoH3 and through its plain transport for
    any other type. *)
Theorem newDohResolver_routes_by_type
        (Msg : Type) (Pack : Msg -> Result (list byte))
        (Unpack : list byte -> Msg * option string)
        (NewRequestError : string -> string -> option string)
        (Do : RoundTripper -> Request -> Result HTTPResponse)
        (uc : UpstreamConfig) (msg : Msg) (via : RoundTripper) (req : Request) :
  (via, req) ∈ requests (snd (Resolve Msg Pack Unpack NewRequestError Do
                                      (newDohResolver uc) msg)) ->
  via = (if decide (Type_ uc = ResolverTypeDOH3)
         then ViaHTTP3 (uc_http3RoundTripper uc)
         else ViaTransport (uc_transport uc)) /\
  exists data, Pack msg = Ok data /\ req = dns_request (Endpoint uc) data.
Proof.
  intros Hin. split.
  - apply Resolve_requests_via in Hin. rewrite Hin.
    unfold round_tripper_of, newDohResolver. simpl.
    destruct (decide (Type_ uc = ResolverTypeDOH3));
      [by rewrite bool_decide_eq_true_2 | by rewrite bool_decide_eq_false_2].
  - destruct (Resolve_stages Msg Pack Unpack NewRequestError Do (newDohResolver uc) msg)
      as [[Hnone _] | (data & Hpack & Hreq)].
    + rewrite Hnone in Hin. simpl in Hin. by apply elem_of_nil in Hin.
    + exists data. split; [done |].
      rewrite (Resolve_exchange Msg Pack Unpack NewRequestError Do _ msg data Hpack Hreq)
        in Hin.
      destruct (Do _ _) as [resp | e].
      * destruct (Body resp); simpl in Hin; apply list_elem_of_singleton in Hin;
          by injection Hin as _ ->.
      * destruct (isDoH3 (newDohResolver uc)); simpl in Hin;
          apply list_elem_of_singleton in Hin; by injection Hin as _ ->.
Qed.

Lemma example_doh3_request :
  (ViaHTTP3 2%nat, dns_request "https://dns.example/q" [x61; x62; x63])
  ∈ requests (snd (Resolve string toy_Pack toy_Unpack toy_NewRequestError Do_ok
                           (newDohResolver (mkUpstreamConfig "https://dns.example/q"
                                                             ResolverTypeDOH3 1%nat 2%nat))
                           "abc")).
Proof. vm_compute. apply elem_of_cons. by left. Qed.

Lemma newDohResolver_routes_by_type_witness :
  (ViaHTTP3 2%nat, dns_request "https://dns.example/q" [x61; x62; x63])
  ∈ requests (snd (Resolve string toy_Pack toy_Unpack toy_NewRequestError Do_ok
                           (newDohResolver (mkUpstreamConfig "https://dns.example/q"
                                                             ResolverTypeDOH3 1%nat 2%nat))
                           "abc")) /\
  ViaHTTP3 2%nat = ViaHTTP3 2%nat /\
  exists data,
    toy_Pack "abc" = Ok data /\
    dns_request "https://dns.example/q" [x61; x62; x63]
    = dns_request "https://dns.example/q" data.
Proof.
  split; [exact example_doh3_request |].
  exact (newDohResolver_routes_by_type string toy_Pack toy_Unpack toy_NewRequestError Do_ok
           (mkUpstreamConfig "https://dns.example/q" ResolverTypeDOH3 1%nat 2%nat)
           "abc" (ViaHTTP3 2%nat) (dns_request "https://dns.example/q" [x61; x62; x63])
           example_doh3_request).
Defined.

(** X23: the query parameter of every request [Resolve] issues is the
    packed query in unpadded URL-safe base64: the URL is the endpoint,
    "?dns=" and the base64 text of the bytes the message packs to. That
    text is made of characters of [A-Za-z0-9-_] only, with no padding
    character, its length is the number of bytes times four thirds, rounded
    up, and decoding it gives back the packed bytes. *)
Theorem Resolve_query_is_unpadded_base64url
        (Msg : Type) (Pack : Msg -> Result (list byte))
        (Unpack : list byte -> Msg * option string)
        (NewRequestError : string -> string -> option string)
        (Do : RoundTripper -> Request -> Result HTTPResponse)
        (r : dohResolver) (msg : Msg) (via : RoundTripper) (req : Request) :
  (via, req) ∈ requests (snd (Resolve Msg Pack Unpack NewRequestError Do r msg)) ->
  exists data query,
    Pack msg = Ok data /\
    query = Base64.EncodeToString data /\
    URL req = endpoint r +:+ "?dns=" +:+ query /\
    Forall in_url_alphabet (list_ascii_of_string query) /\
    Z.of_nat (String.length query) = (4 * Z.of_nat (length data) + 2) / 3 /\
    decode_url (list_ascii_of_string query) = Some data.
Proof.
  intros Hin.
  destruct (Resolve_stages Msg Pack Unpack NewRequestError Do r msg)
    as [[Hnone _] | (data & Hpack & Hreq)].
  - rewrite Hnone in Hin. simpl in Hin. by apply elem_of_nil in Hin.
  - exists data, (Base64.EncodeToString data). split; [done |]. split; [done |].
    destruct (EncodeToString_spec data) as [Halpha Hlen].
    split; [| split; [done | split; [done | apply decode_url_EncodeToString]]].
    rewrite (Resolve_exchange Msg Pack Unpack NewRequestError Do _ msg data Hpack Hreq)
      in Hin.
    destruct (Do _ _) as [resp | e].
    + destruct (Body resp); simpl in Hin; apply list_elem_of_singleton in Hin;
        by injection Hin as _ ->.
    + destruct (isDoH3 r); simpl in Hin;
        apply list_elem_of_singleton in Hin; by injection Hin as _ ->.
Qed.

Lemma example_doh_request :
  (ViaTransport 1%nat, dns_request "https://dns.example/q" [x61; x62; x63])
  ∈ requests (snd (Resolve string toy_Pack toy_Unpack toy_NewRequestError Do_ok
                           doh_resolver "abc")).
Proof. vm_compute. apply elem_of_cons. by left. Qed.

Lemma Resolve_query_is_unpadded_base64url_witness :
  (ViaTransport 1%nat, dns_request "https://dns.example/q" [x61; x62; x63])
  ∈ requests (snd (Resolve string toy_Pack toy_Unpack toy_NewRequestError Do_ok
                           doh_resolver "abc")) /\
  URL (dns_request "https://dns.example/q" [x61; x62; x63])
  = "https://dns.example/q?dns=YWJj"%string /\
  decode_url (list_ascii_of_string "YWJj") = Some [x61; x62; x63] /\
  exists data query,
    toy_Pack "abc" = Ok data /\
    query = Base64.EncodeToString data /\
    URL (dns_request "https://dns.example/q" [x61; x62; x63])
    = endpoint doh_resolver +:+ "?dns=" +:+ query /\
    Forall in_url_alphabet (list_ascii_of_string query) /\
    Z.of_nat (String.length query) = (4 * Z.of_nat (length data) + 2) / 3 /\
    decode_url (list_ascii_of_string query) = Some data.
Proof.
  split; [exact example_doh_request |]. split; [reflexivity |]. split; [reflexivity |].
  exact (Resolve_query_is_unpadded_base64url string toy_Pack toy_Unpack toy_NewRequestError
           Do_ok doh_resolver "abc" (ViaTransport 1%nat)
           (dns_request "https://dns.example/q" [x61; x62; x63]) example_doh_request).
Defined.

Lemma padding_not_in_alphabet : ~ in_url_alphabet "="%char.
Proof. apply (bool_decide_eq_false_1 _). vm_compute. reflexivity. Qed.
